(** * Streaming stats importer: a shallow embedding and its verified properties

  This development models [importer_streaming.py]: the per-file pipeline
  (normalisation, canonical JSON, SHA-1 hash-skip, name resolution, metric
  computation, batched flushes), the end-of-pass cleanup and the
  recomputation of the composite points metric, over an explicit model of
  the MariaDB tables the importer reads and writes. *)

From Stdlib Require Import ZArith String Ascii List.
From stdpp Require Import base gmap strings list fin_maps sorting pretty.

Set Warnings "-register-all,-clear-no-such-hyp".

#[local] Open Scope Z_scope.

(** ** Python values *)

(** Python [bytes]: a Rocq [string] holds one 8-bit character per byte.
  Python [str]: the model keeps one character per code point and is
  restricted to code points below 256. *)
Abbreviation bytes := string.

Module Py.

(** [s[:n]] *)
Definition slice_to (n : nat) (s : string) : string := String.substring 0 n s.

(** [s.endswith(suf)] *)
Definition endswith (s suf : string) : bool :=
  let n := String.length s in
  let m := String.length suf in
  (m <=? n)%nat && String.eqb (String.substring (n - m) m s) suf.

(** [str.lower] on code points below 256: A-Z and the Latin-1 capitals
    (U+00C0..U+00DE except the multiplication sign) move up by 32. *)
Definition lower_char (c : ascii) : ascii :=
  let n := N_of_ascii c in
  if ((65 <=? n) && (n <=? 90) || (192 <=? n) && (n <=? 222) && negb (n =? 215))%N
  then ascii_of_N (n + 32) else c.

Fixpoint lower (s : string) : string :=
  match s with
  | EmptyString => EmptyString
  | String c r => String (lower_char c) (lower r)
  end.

Definition hexdigit (n : N) : ascii :=
  nth (N.to_nat n) (list_ascii_of_string "0123456789abcdef") "0"%char.

Definition hex2 (c : ascii) : string :=
  let n := N_of_ascii c in
  String (hexdigit (n / 16)) (String (hexdigit (n mod 16)) EmptyString).

(** [bytes.hex()], also [uuid.UUID(bytes=b).hex] for a 16-byte [b] *)
Fixpoint hex (b : bytes) : string :=
  match b with
  | EmptyString => EmptyString
  | String c r => hex2 c +:+ hex r
  end.

(** Whitespace as [int(str)] skips it: U+0009..U+000D, U+001C..U+0020,
    U+0085 and U+00A0. *)
Definition is_space (c : ascii) : bool :=
  let n := N_of_ascii c in
  ((9 <=? n) && (n <=? 13) || (28 <=? n) && (n <=? 32) || (n =? 133) || (n =? 160))%N.

Fixpoint lstrip (s : string) : string :=
  match s with
  | EmptyString => EmptyString
  | String c r => if is_space c then lstrip r else s
  end.

Definition strip (s : string) : string :=
  String.rev (lstrip (String.rev (lstrip s))).

Definition digit_val (c : ascii) : option Z :=
  let n := N_of_ascii c in
  if ((48 <=? n) && (n <=? 57))%N then Some (Z.of_N (n - 48)) else None.

(** Decimal digits, single underscores allowed between digits. *)
Fixpoint parse_digits (s : string) (acc : Z) (after_digit : bool) : option Z :=
  match s with
  | EmptyString => if after_digit then Some acc else None
  | String c r =>
      match digit_val c with
      | Some d => parse_digits r (acc * 10 + d) true
      | None =>
          if Ascii.eqb c "_"%char && after_digit
          then parse_digits r acc false
          else None
      end
  end.

(** [int(s)] for a string; [None] stands for [ValueError]. *)
Definition int_of_str (s : string) : option Z :=
  match strip s with
  | String "-"%char r => Z.opp <$> parse_digits r 0 false
  | String "+"%char r => parse_digits r 0 false
  | t => parse_digits t 0 false
  end.

(** [sep.join(l)] *)
Fixpoint join (sep : string) (l : list string) : string :=
  match l with
  | [] => EmptyString
  | [x] => x
  | x :: r => x +:+ sep +:+ join sep r
  end.

(** [s.split(sep)] for a one-character separator *)
Fixpoint split_go (sep : ascii) (cur : string) (s : string) : list string :=
  match s with
  | EmptyString => [String.rev cur]
  | String c r =>
      if Ascii.eqb c sep then String.rev cur :: split_go sep EmptyString r
      else split_go sep (String c cur) r
  end.

Definition split (sep : ascii) (s : string) : list string :=
  split_go sep EmptyString s.

End Py.

(** ** JSON documents as [json.loads] returns them *)

(** A float is carried by the two observations the importer makes of it:
  its [repr] (what [json.dumps] writes, including [NaN] and [Infinity])
  and [int()] of it ([None] where [int] raises: nan and the infinities). *)
Record pyfloat := { float_repr : string; float_int : option Z }.

(** A dict keeps its items in insertion order; its keys are strings and
  pairwise distinct (see [wf]). *)
Inductive json :=
| JNull
| JBool (b : bool)
| JInt (z : Z)
| JFloat (f : pyfloat)
| JStr (s : string)
| JList (l : list json)
| JDict (kv : list (string * json)).

Module Json.

(** [d.get(k)] *)
Fixpoint dict_get (k : string) (kv : list (string * json)) : option json :=
  match kv with
  | [] => None
  | (k', v) :: r => if String.eqb k k' then Some v else dict_get k r
  end.

(** Keys are pairwise distinct in every dict of the document. *)
Fixpoint wf (j : json) : Prop :=
  match j with
  | JList l => (fix all l := match l with [] => True | x :: r => wf x ∧ all r end) l
  | JDict kv =>
      NoDup (kv.*1) ∧
      (fix all kv := match kv with [] => True | (_, v) :: r => wf v ∧ all r end) kv
  | _ => True
  end.

(** What a document says, whatever the order of its dict items: a dict is
    read as the finite map from its keys to the contents of its values. *)
Inductive tree :=
| TNull
| TBool (b : bool)
| TInt (z : Z)
| TFloat (f : pyfloat)
| TStr (s : string)
| TList (l : list tree)
| TDict (m : gmap string tree).

Fixpoint contents (j : json) : tree :=
  match j with
  | JNull => TNull
  | JBool b => TBool b
  | JInt z => TInt z
  | JFloat f => TFloat f
  | JStr s => TStr s
  | JList l => TList (map contents l)
  | JDict kv =>
      TDict (list_to_map
               ((fix go kv := match kv with
                              | [] => []
                              | (k, v) :: r => (k, contents v) :: go r
                              end) kv))
  end.

(** [int(v)]; [None] stands for [TypeError], [ValueError] or
    [OverflowError]. *)
Definition py_int (v : json) : option Z :=
  match v with
  | JBool b => Some (if b then 1 else 0)
  | JInt z => Some z
  | JFloat f => float_int f
  | JStr s => Py.int_of_str s
  | JNull | JList _ | JDict _ => None
  end.

(** *** [json.dumps(v, sort_keys=True, separators=(",", ":"))] *)

(** The double quote character. *)
Definition dquote : ascii := ascii_of_N 34.

(** One character of a string literal, [ensure_ascii] being on. *)
Definition escape_char (c : ascii) : string :=
  let n := N_of_ascii c in
  if (n =? 34)%N then String "\"%char (String dquote EmptyString)
  else if (n =? 92)%N then "\\"
  else if (n =? 10)%N then "\n"
  else if (n =? 13)%N then "\r"
  else if (n =? 9)%N then "\t"
  else if (n =? 8)%N then "\b"
  else if (n =? 12)%N then "\f"
  else if ((32 <=? n) && (n <=? 126))%N then String c EmptyString
  else "\u00" +:+ Py.hex2 c.

Fixpoint escape (s : string) : string :=
  match s with
  | EmptyString => EmptyString
  | String c r => escape_char c +:+ escape r
  end.

Definition quote (s : string) : string :=
  String dquote (escape s +:+ String dquote EmptyString).

(** Insertion of an item into a list sorted by key: the order
    [sorted(dct.items())] produces, keys being distinct. *)
Fixpoint insert_item (x : string * string) (l : list (string * string))
  : list (string * string) :=
  match l with
  | [] => [x]
  | y :: r => if String.leb x.1 y.1 then x :: l else y :: insert_item x r
  end.

Definition sort_items (l : list (string * string)) : list (string * string) :=
  foldr insert_item [] l.

Definition render_item (x : string * string) : string :=
  quote x.1 +:+ ":" +:+ x.2.

(** The encoder sorts a dict's items and then encodes each value; the
    model encodes the values in place and sorts the encoded items, which
    gives the same text because only keys are compared. *)
Fixpoint dumps (j : json) : string :=
  match j with
  | JNull => "null"
  | JBool true => "true"
  | JBool false => "false"
  | JInt z => pretty z
  | JFloat f => float_repr f
  | JStr s => quote s
  | JList l => "[" +:+ Py.join "," (map dumps l) +:+ "]"
  | JDict kv =>
      "{" +:+
      Py.join ","
        (map render_item
           (sort_items
              ((fix go kv := match kv with
                             | [] => []
                             | (k, v) :: r => (k, dumps v) :: go r
                             end) kv))) +:+ "}"
  end.

End Json.

(** ** [hashlib.sha1] *)

Module Sha1.

Definition add32 (x y : Z) : Z := (x + y) mod 2 ^ 32.

Definition rotl32 (n x : Z) : Z :=
  Z.lor (Z.shiftl x n) (Z.shiftr x (32 - n)) mod 2 ^ 32.

Definition not32 (x : Z) : Z := Z.lxor x 0xFFFFFFFF.

Definition be32 (w : Z) : list Z :=
  [Z.shiftr w 24 mod 256; Z.shiftr w 16 mod 256; Z.shiftr w 8 mod 256; w mod 256].

Definition word_of (b : list Z) : Z :=
  fold_left (fun acc x => acc * 256 + x) b 0.

(** Padding: a [0x80] byte, zero bytes up to 56 modulo 64, and the bit
    length as a 64-bit big-endian integer. *)
Definition pad (m : list Z) : list Z :=
  let len := Z.of_nat (length m) in
  m ++ [0x80] ++ replicate (Z.to_nat ((55 - len) mod 64)) 0
    ++ be32 (Z.shiftr (len * 8) 32 mod 2 ^ 32) ++ be32 ((len * 8) mod 2 ^ 32).

Fixpoint chunks (fuel size : nat) (l : list Z) : list (list Z) :=
  match fuel with
  | O => []
  | S fuel' =>
      match l with
      | [] => []
      | _ => take size l :: chunks fuel' size (drop size l)
      end
  end.

(** Message schedule, most recent word first. *)
Fixpoint expand (n : nat) (rw : list Z) : list Z :=
  match n with
  | O => rw
  | S n' =>
      expand n'
        (rotl32 1 (Z.lxor (Z.lxor (nth 2 rw 0) (nth 7 rw 0))
                          (Z.lxor (nth 13 rw 0) (nth 15 rw 0))) :: rw)
  end.

Definition schedule (block : list Z) : list Z :=
  rev (expand 64 (rev (map word_of (chunks 16 4 block)))).

Definition hstate : Type := Z * Z * Z * Z * Z.

Definition round (t : Z) (st : hstate) (w : Z) : hstate :=
  let '(a, b, c, d, e) := st in
  let '(f, k) :=
    if t <? 20 then (Z.lor (Z.land b c) (Z.land (not32 b) d), 0x5A827999)
    else if t <? 40 then (Z.lxor (Z.lxor b c) d, 0x6ED9EBA1)
    else if t <? 60 then
      (Z.lor (Z.lor (Z.land b c) (Z.land b d)) (Z.land c d), 0x8F1BBCDC)
    else (Z.lxor (Z.lxor b c) d, 0xCA62C1D6) in
  (add32 (add32 (add32 (add32 (rotl32 5 a) f) e) k) w, a, rotl32 30 b, c, d).

Fixpoint rounds (t : Z) (ws : list Z) (st : hstate) : hstate :=
  match ws with
  | [] => st
  | w :: r => rounds (t + 1) r (round t st w)
  end.

Definition compress (h : hstate) (block : list Z) : hstate :=
  let '(h0, h1, h2, h3, h4) := h in
  let '(a, b, c, d, e) := rounds 0 (schedule block) h in
  (add32 h0 a, add32 h1 b, add32 h2 c, add32 h3 d, add32 h4 e).

Definition init : hstate :=
  (0x67452301, 0xEFCDAB89, 0x98BADCFE, 0x10325476, 0xC3D2E1F0).

Definition byte_val (c : ascii) : Z := Z.of_N (N_of_ascii c).
Definition byte_of (z : Z) : ascii := ascii_of_N (Z.to_N z).

Definition digest_of (h : hstate) : bytes :=
  let '(h0, h1, h2, h3, h4) := h in
  string_of_list_ascii
    (map byte_of (be32 h0 ++ be32 h1 ++ be32 h2 ++ be32 h3 ++ be32 h4)).

(** [hashlib.sha1(m).digest()] *)
Definition sha1 (m : bytes) : bytes :=
  let p := pad (map byte_val (list_ascii_of_string m)) in
  digest_of (fold_left compress (chunks (length p) 64 p) init).

End Sha1.

(** ** The MariaDB tables *)

(** [gzip.compress(b, compresslevel=6)]: the blob is carried by the bytes
    it decompresses to. *)
Record gzip_blob := { gz_payload : bytes }.

Definition gzip_compress (b : bytes) : gzip_blob := {| gz_payload := b |}.

(** [import_run] *)
Record run_row := { ir_id : Z; ir_generated_at : string; ir_status : string }.

(** [metric_def] *)
Record def_row := {
  md_id : string; md_label : string; md_category : string; md_unit : string;
  md_divisor : Z; md_decimals : Z; md_sort_order : Z; md_enabled : bool }.

(** [player_profile], primary key [(run_id, uuid)]; a column the schema
    lacks reads as [None]. *)
Record profile_row := {
  pp_run : Z; pp_uuid : bytes; pp_name : string; pp_name_lc : string;
  pp_name_source : option string; pp_name_checked_at : option string;
  pp_last_seen : string }.

(** [player_stats], primary key [(run_id, uuid)] *)
Record stats_row := {
  ps_run : Z; ps_uuid : bytes; ps_gzip : gzip_blob; ps_sha1 : bytes;
  ps_updated_at : string }.

(** [metric_value], primary key [(run_id, metric_id, uuid)] *)
Record mv_row := { mv_run : Z; mv_metric : string; mv_uuid : bytes; mv_value : Z }.

(** [metric_award] *)
Record award_row := {
  aw_run : Z; aw_metric : string; aw_place : Z; aw_uuid : bytes;
  aw_points : Z; aw_value : Z }.

(** The persistent store. [site_state] is the [active_run_id] of the row
    [id=1] ([None]: no such row); [metric_award] is [None] when the table
    does not exist; a table is the list of its rows. *)
Record database := {
  site_state : option (option Z);
  import_run : list run_row;
  import_run_next : Z;
  metric_def : list def_row;
  player_profile : list profile_row;
  player_stats : list stats_row;
  metric_value : list mv_row;
  metric_award : option (list award_row) }.

#[global] Instance mv_row_eq_dec : EqDecision mv_row.
Proof. solve_decision. Defined.

Module Db.

Definition set_player_profile (t : list profile_row) (d : database) : database :=
  {| site_state := site_state d; import_run := import_run d;
     import_run_next := import_run_next d; metric_def := metric_def d;
     player_profile := t; player_stats := player_stats d;
     metric_value := metric_value d; metric_award := metric_award d |}.

Definition set_player_stats (t : list stats_row) (d : database) : database :=
  {| site_state := site_state d; import_run := import_run d;
     import_run_next := import_run_next d; metric_def := metric_def d;
     player_profile := player_profile d; player_stats := t;
     metric_value := metric_value d; metric_award := metric_award d |}.

Definition set_metric_value (t : list mv_row) (d : database) : database :=
  {| site_state := site_state d; import_run := import_run d;
     import_run_next := import_run_next d; metric_def := metric_def d;
     player_profile := player_profile d; player_stats := player_stats d;
     metric_value := t; metric_award := metric_award d |}.

Definition set_metric_award (t : option (list award_row)) (d : database) : database :=
  {| site_state := site_state d; import_run := import_run d;
     import_run_next := import_run_next d; metric_def := metric_def d;
     player_profile := player_profile d; player_stats := player_stats d;
     metric_value := metric_value d; metric_award := t |}.

Definition set_metric_def (t : list def_row) (d : database) : database :=
  {| site_state := site_state d; import_run := import_run d;
     import_run_next := import_run_next d; metric_def := t;
     player_profile := player_profile d; player_stats := player_stats d;
     metric_value := metric_value d; metric_award := metric_award d |}.

Definition set_import_run (t : list run_row) (d : database) : database :=
  {| site_state := site_state d; import_run := t;
     import_run_next := import_run_next d; metric_def := metric_def d;
     player_profile := player_profile d; player_stats := player_stats d;
     metric_value := metric_value d; metric_award := metric_award d |}.

(** [UPDATE import_run SET generated_at=NOW(), status='active' WHERE id=%s] *)
Definition touch_run (now : string) (rid : Z) (d : database) : database :=
  set_import_run
    (map (fun r => if ir_id r =? rid
                   then {| ir_id := ir_id r; ir_generated_at := now; ir_status := "active" |}
                   else r) (import_run d)) d.

(** [INSERT INTO import_run (generated_at, status) VALUES (NOW(), 'active')]
    followed by [UPDATE site_state SET active_run_id=%s WHERE id=1];
    returns [cur.lastrowid]. *)
Definition create_run (now : string) (d : database) : Z * database :=
  let rid := import_run_next d in
  (rid,
   {| site_state := match site_state d with Some _ => Some (Some rid) | None => None end;
      import_run := import_run d ++ [{| ir_id := rid; ir_generated_at := now; ir_status := "active" |}];
      import_run_next := rid + 1; metric_def := metric_def d;
      player_profile := player_profile d; player_stats := player_stats d;
      metric_value := metric_value d; metric_award := metric_award d |}).

(** [INSERT ... ON DUPLICATE KEY UPDATE] on [player_stats] *)
Fixpoint upsert_stats (row : stats_row) (t : list stats_row) : list stats_row :=
  match t with
  | [] => [row]
  | r :: rest =>
      if (ps_run r =? ps_run row) && String.eqb (ps_uuid r) (ps_uuid row)
      then row :: rest
      else r :: upsert_stats row rest
  end.

(** [INSERT ... ON DUPLICATE KEY UPDATE value=VALUES(value)] on [metric_value] *)
Fixpoint upsert_mv (row : mv_row) (t : list mv_row) : list mv_row :=
  match t with
  | [] => [row]
  | r :: rest =>
      if (mv_run r =? mv_run row) && String.eqb (mv_metric r) (mv_metric row)
         && String.eqb (mv_uuid r) (mv_uuid row)
      then row :: rest
      else r :: upsert_mv row rest
  end.

End Db.

(** ** The importer *)

(** [MetricSource] *)
Record MetricSource := {
  metric_id : string; section : string; mc_key : string; weight : Z }.

(** One file of the stats directory: [sf_uuid] is [uuid_to_bin(p.stem)]
    ([None] when it raises), [sf_raw] is [json.loads] of the file's text
    ([None] when reading or parsing raises). *)
Record stats_file := { sf_uuid : option bytes; sf_raw : option json }.

(** The command line, as far as the pass reads it. *)
Record args := {
  min_play_ticks : Z; dry_run : bool;
  flush_seen_n : Z; flush_profiles_n : Z; flush_changed_n : Z;
  king_metric_id : string; king_points : string; no_king : bool }.

(** What the pass reads besides the tables it writes: the files in the
    order [glob] yields them, the usercache dict, the parsed exclusion
    set, the two optional columns of [player_profile], the rows the query
    of [load_metric_sources] returns, the pass's [now_ts] and the server's
    [NOW()]. *)
Record env := {
  stats_files : list stats_file;
  name_map : gmap bytes string;
  excluded : gset bytes;
  has_source : bool;
  has_checked : bool;
  metric_source_rows : list (string * string * string * Z);
  now_ts : string;
  db_now : string }.

(** A buffered [player_profile] tuple. The source appends 7, 6 or 5
    fields according to [has_source] and [has_checked], which are fixed
    for the run; the model keeps all fields and [flush_profiles] writes
    the columns the statement it selects names. *)
Record profile_tuple := {
  pt_run : Z; pt_uuid : bytes; pt_name : string; pt_name_lc : string;
  pt_name_source : string; pt_name_checked_at : option string;
  pt_last_seen : string }.

(** The local variables of [main] across the scan, with the session's
    temporary table [tmp_seen]. *)
Record pass_state := {
  db : database;
  tmp_seen : gset bytes;
  existing_hash : gmap bytes bytes;
  processed : Z; kept : Z; changed : Z;
  seen_buf : list bytes;
  profile_buf : list profile_tuple;
  changed_uuids : list bytes;
  stats_buf : list (Z * bytes * gzip_blob * bytes);
  metric_buf : list (Z * string * bytes * Z) }.

Record outcome := {
  exit_code : Z; final_db : database;
  n_processed : Z; n_kept : Z; n_changed : Z }.

Module Importer.

(** [strip_wall_banners] *)
Definition strip_wall_banners (stats : list (string * json)) : list (string * json) :=
  map (fun sec =>
         match sec.2 with
         | JDict kv =>
             (sec.1, JDict (List.filter (fun it => negb (Py.endswith it.1 "_wall_banner")) kv))
         | _ => sec
         end) stats.

(** Lines 598-601 of [main]: the stats dict of a parsed document. *)
Definition stats_of_raw (raw : json) : list (string * json) :=
  strip_wall_banners
    match raw with
    | JDict d =>
        match Json.dict_get "stats" d with
        | Some (JDict s) => s
        | _ => d
        end
    | _ => []
    end.

(** Lines 603-607 of [main]. The inner [None] is the [AttributeError] of
    [.get] on a value that is no dict. *)
Definition play_time_of (stats : list (string * json)) : Z :=
  match
    match Json.dict_get "minecraft:custom" stats with
    | None => Some (JInt 0)
    | Some (JDict d) => Some (default (JInt 0) (Json.dict_get "minecraft:play_time" d))
    | Some _ => None
    end
  with
  | Some v => default 0 (Json.py_int v)
  | None => 0
  end.

(** [ensure_run_id] *)
Definition ensure_run_id (now : string) (d : database) : Z * database :=
  match site_state d with
  | Some (Some active) => (active, Db.touch_run now active d)
  | _ => Db.create_run now d
  end.

(** [out.setdefault(mid, []).append(src)] on an insertion-ordered dict *)
Fixpoint setdefault_append (mid : string) (src : MetricSource)
  (out : list (string * list MetricSource)) : list (string * list MetricSource) :=
  match out with
  | [] => [(mid, [src])]
  | (k, l) :: r =>
      if String.eqb k mid then (k, l ++ [src]) :: r
      else (k, l) :: setdefault_append mid src r
  end.

(** [load_metric_sources], from the rows its query returns *)
Definition load_metric_sources (rows : list (string * string * string * Z))
  : list (string * list MetricSource) :=
  fold_left
    (fun out row =>
       let '(mid, sec, key, w) := row in
       setdefault_append mid
         {| metric_id := mid; section := sec; mc_key := key; weight := w |} out)
    rows [].

(** [load_existing_hashes] *)
Definition load_existing_hashes (rid : Z) (d : database) : gmap bytes bytes :=
  fold_left
    (fun out r =>
       if (ps_run r =? rid) && (String.length (ps_sha1 r) =? 20)%nat
       then <[ps_uuid r := ps_sha1 r]> out else out)
    (player_stats d) ∅.

(** [load_existing_profile_meta]; a row whose name is empty is skipped. *)
Definition load_existing_profile_meta (rid : Z) (hs hc : bool) (d : database)
  : gmap bytes (string * option string * option string) :=
  fold_left
    (fun out r =>
       if (pp_run r =? rid) && negb (String.eqb (pp_name r) EmptyString)
       then <[pp_uuid r :=
                (Py.slice_to 16 (pp_name r),
                 if hs then pp_name_source r else None,
                 if hc then pp_name_checked_at r else None)]> out
       else out)
    (player_profile d) ∅.

(** *** Buffers and flushes *)

Definition set_db (d : database) (st : pass_state) : pass_state :=
  {| db := d; tmp_seen := tmp_seen st; existing_hash := existing_hash st;
     processed := processed st; kept := kept st; changed := changed st;
     seen_buf := seen_buf st; profile_buf := profile_buf st;
     changed_uuids := changed_uuids st; stats_buf := stats_buf st;
     metric_buf := metric_buf st |}.

Definition set_counters (p k c : Z) (st : pass_state) : pass_state :=
  {| db := db st; tmp_seen := tmp_seen st; existing_hash := existing_hash st;
     processed := p; kept := k; changed := c;
     seen_buf := seen_buf st; profile_buf := profile_buf st;
     changed_uuids := changed_uuids st; stats_buf := stats_buf st;
     metric_buf := metric_buf st |}.

Definition set_seen (t : gset bytes) (buf : list bytes) (st : pass_state) : pass_state :=
  {| db := db st; tmp_seen := t; existing_hash := existing_hash st;
     processed := processed st; kept := kept st; changed := changed st;
     seen_buf := buf; profile_buf := profile_buf st;
     changed_uuids := changed_uuids st; stats_buf := stats_buf st;
     metric_buf := metric_buf st |}.

Definition set_profile_buf (buf : list profile_tuple) (st : pass_state) : pass_state :=
  {| db := db st; tmp_seen := tmp_seen st; existing_hash := existing_hash st;
     processed := processed st; kept := kept st; changed := changed st;
     seen_buf := seen_buf st; profile_buf := buf;
     changed_uuids := changed_uuids st; stats_buf := stats_buf st;
     metric_buf := metric_buf st |}.

Definition set_existing_hash (h : gmap bytes bytes) (st : pass_state) : pass_state :=
  {| db := db st; tmp_seen := tmp_seen st; existing_hash := h;
     processed := processed st; kept := kept st; changed := changed st;
     seen_buf := seen_buf st; profile_buf := profile_buf st;
     changed_uuids := changed_uuids st; stats_buf := stats_buf st;
     metric_buf := metric_buf st |}.

Definition set_changed_bufs (cu : list bytes) (sb : list (Z * bytes * gzip_blob * bytes))
  (mb : list (Z * string * bytes * Z)) (st : pass_state) : pass_state :=
  {| db := db st; tmp_seen := tmp_seen st; existing_hash := existing_hash st;
     processed := processed st; kept := kept st; changed := changed st;
     seen_buf := seen_buf st; profile_buf := profile_buf st;
     changed_uuids := cu; stats_buf := sb; metric_buf := mb |}.

(** [flush_seen]: [INSERT IGNORE INTO tmp_seen] *)
Definition flush_seen (st : pass_state) : pass_state :=
  match seen_buf st with
  | [] => st
  | buf => set_seen (tmp_seen st ∪ list_to_set buf) [] st
  end.

(** One tuple of [flush_profiles]: the statement chosen by [hs] and [hc]
    names [name_source] only if [hs], and [name_checked_at] only if both
    hold; a column not named keeps its value on update and is NULL on
    insert. *)
Fixpoint upsert_profile (hs hc : bool) (t : profile_tuple) (tbl : list profile_row)
  : list profile_row :=
  match tbl with
  | [] =>
      [{| pp_run := pt_run t; pp_uuid := pt_uuid t; pp_name := pt_name t;
          pp_name_lc := pt_name_lc t;
          pp_name_source := if hs then Some (pt_name_source t) else None;
          pp_name_checked_at := if hs && hc then pt_name_checked_at t else None;
          pp_last_seen := pt_last_seen t |}]
  | r :: rest =>
      if (pp_run r =? pt_run t) && String.eqb (pp_uuid r) (pt_uuid t)
      then {| pp_run := pp_run r; pp_uuid := pp_uuid r; pp_name := pt_name t;
              pp_name_lc := pt_name_lc t;
              pp_name_source := if hs then Some (pt_name_source t) else pp_name_source r;
              pp_name_checked_at :=
                if hs && hc then pt_name_checked_at t else pp_name_checked_at r;
              pp_last_seen := pt_last_seen t |} :: rest
      else r :: upsert_profile hs hc t rest
  end.

(** [flush_profiles] *)
Definition flush_profiles (hs hc : bool) (st : pass_state) : pass_state :=
  match profile_buf st with
  | [] => st
  | buf =>
      set_profile_buf []
        (set_db (Db.set_player_profile
                   (fold_left (fun tbl t => upsert_profile hs hc t tbl) buf
                      (player_profile (db st))) (db st)) st)
  end.

Definition stats_row_of (now : string) (t : Z * bytes * gzip_blob * bytes) : stats_row :=
  let '(rid, u, gz, sha) := t in
  {| ps_run := rid; ps_uuid := u; ps_gzip := gz; ps_sha1 := sha; ps_updated_at := now |}.

Definition mv_row_of (t : Z * string * bytes * Z) : mv_row :=
  let '(rid, mid, u, v) := t in
  {| mv_run := rid; mv_metric := mid; mv_uuid := u; mv_value := v |}.

(** [DELETE FROM metric_value WHERE run_id=%s AND uuid IN (...)] *)
Definition delete_metrics_of (rid : Z) (us : list bytes) (t : list mv_row) : list mv_row :=
  filter (fun r => ¬ (mv_run r = rid ∧ mv_uuid r ∈ us)) t.

(** The three statements of [flush_changed_batch] on the tables. *)
Definition write_changed (now : string) (rid : Z) (cu : list bytes)
  (sb : list (Z * bytes * gzip_blob * bytes)) (mb : list (Z * string * bytes * Z))
  (d : database) : database :=
  let d1 := Db.set_metric_value (delete_metrics_of rid cu (metric_value d)) d in
  let d2 := Db.set_player_stats
              (fold_left (fun t row => Db.upsert_stats (stats_row_of now row) t) sb
                 (player_stats d1)) d1 in
  Db.set_metric_value
    (fold_left (fun t row => Db.upsert_mv (mv_row_of row) t) mb (metric_value d2)) d2.

(** [load_usercache], from the parsed document ([None] where the file
    does not exist). [uuid_to_bin] is the source's function of that name,
    [uuid.UUID(u.strip()).bytes], with [None] where it raises. *)
Definition load_usercache (uuid_to_bin : string -> option bytes) (data : option json)
  : gmap bytes string :=
  match data with
  | Some (JList items) =>
      fold_left
        (fun out it =>
           match it with
           | JDict kv =>
               match Json.dict_get "name" kv, Json.dict_get "uuid" kv with
               | Some (JStr (String c n)), Some (JStr (String c' u)) =>
                   match uuid_to_bin (String c' u) with
                   | Some b => <[b := Py.slice_to 16 (String c n)]> out
                   | None => out
                   end
               | _, _ => out
               end
           | _ => out
           end) items ∅
  | _ => ∅
  end.

(** [chunked]: the slices [seq[i : i + n]] for [i] in [range(0, len(seq), n)].
    [None] is the [ValueError] of [range] for a step of 0; a negative step
    gives no slice. *)
Fixpoint chunked_go {A} (fuel n : nat) (seq : list A) : list (list A) :=
  match fuel with
  | O => []
  | S fuel' =>
      match seq with
      | [] => []
      | _ => take n seq :: chunked_go fuel' n (drop n seq)
      end
  end.

Definition chunked {A} (seq : list A) (n : Z) : option (list (list A)) :=
  if n =? 0 then None
  else if n <? 0 then Some []
  else Some (chunked_go (length seq) (Z.to_nat n) seq).

(** The statements of [flush_changed_batch] as it issues them, chunk by
    chunk: deletes by 1500 uuids, [player_stats] rows by 500,
    [metric_value] rows by 2000. *)
Definition write_changed_chunked (now : string) (rid : Z) (cu : list bytes)
  (sb : list (Z * bytes * gzip_blob * bytes)) (mb : list (Z * string * bytes * Z))
  (d : database) : database :=
  let d1 := Db.set_metric_value
              (fold_left (fun t chunk => delete_metrics_of rid chunk t)
                 (default [] (chunked cu 1500)) (metric_value d)) d in
  let d2 := Db.set_player_stats
              (fold_left
                 (fun t chunk =>
                    fold_left (fun t row => Db.upsert_stats (stats_row_of now row) t) chunk t)
                 (default [] (chunked sb 500)) (player_stats d1)) d1 in
  Db.set_metric_value
    (fold_left
       (fun t chunk => fold_left (fun t row => Db.upsert_mv (mv_row_of row) t) chunk t)
       (default [] (chunked mb 2000)) (metric_value d2)) d2.

(** [flush_changed_batch] *)
Definition flush_changed_batch (now : string) (rid : Z) (st : pass_state) : pass_state :=
  match changed_uuids st with
  | [] => st
  | cu =>
      set_changed_bufs [] [] []
        (set_db (write_changed now rid cu (stats_buf st) (metric_buf st) (db st)) st)
  end.

(** [flush_all] of a run that is no dry run *)
Definition flush_all (e : env) (rid : Z) (st : pass_state) : pass_state :=
  flush_changed_batch (db_now e) rid
    (flush_profiles (has_source e) (has_checked e) (flush_seen st)).

(** *** One file *)

(** Lines 622-637 of [main]: name, name source and name-checked time. *)
Definition resolve_name (e : env)
  (profiles : gmap bytes (string * option string * option string)) (u : bytes)
  : string * string * option string :=
  match name_map e !! u with
  | Some (String c r) =>
      (String c r, "usercache", if has_checked e then Some (now_ts e) else None)
  | _ =>
      match profiles !! u with
      | Some (nm, src, chk) =>
          (nm,
           match src with
           | Some (String c r) => String c r
           | _ => "unknown"
           end,
           if has_checked e then chk else None)
      | None => (Py.slice_to 12 (Py.hex u), "fallback", None)
      end
  end.

(** Lines 675-679: the addend of one source, [None] where the loop
    body ends in [continue] (a [None] value, or [int] raising). *)
Definition source_term (stats : list (string * json)) (src : MetricSource) : option Z :=
  let v :=
    match Json.dict_get (section src) stats with
    | Some (JDict d) => default (JInt 0) (Json.dict_get (mc_key src) d)
    | _ => JInt 0
    end in
  match v with
  | JNull => None
  | _ => (fun n => n * weight src) <$> Json.py_int v
  end.

(** Lines 671-681: the total of one metric. *)
Definition metric_total (stats : list (string * json)) (sources : list MetricSource) : Z :=
  fold_left (fun total src => total + default 0 (source_term stats src)) sources 0.

(** Lines 670-683: the rows appended to [metric_buf] for one player. *)
Definition metric_rows (rid : Z) (u : bytes) (stats : list (string * json))
  (msrc : list (string * list MetricSource)) : list (Z * string * bytes * Z) :=
  omap (fun m => let total := metric_total stats m.2 in
                 if 0 <? total then Some (rid, m.1, u, total) else None) msrc.

Definition canonical_bytes (stats : list (string * json)) : bytes :=
  Json.dumps (JDict stats).

(** Lines 613-616. *)
Definition buffer_seen (a : args) (u : bytes) (st : pass_state) : pass_state :=
  if dry_run a then st
  else
    let s := set_seen (tmp_seen st) (seen_buf st ++ [u]) st in
    if flush_seen_n a <=? Z.of_nat (length (seen_buf s)) then flush_seen s else s.

(** Lines 641-650. *)
Definition buffer_profile (a : args) (e : env) (t : profile_tuple) (st : pass_state)
  : pass_state :=
  if dry_run a then st
  else
    let s := set_profile_buf (profile_buf st ++ [t]) st in
    if flush_profiles_n a <=? Z.of_nat (length (profile_buf s))
    then flush_profiles (has_source e) (has_checked e) s else s.

(** Lines 659-686: a player whose digest differs from the stored one. *)
Definition record_changed (a : args) (e : env) (rid : Z)
  (msrc : list (string * list MetricSource))
  (u : bytes) (stats : list (string * json)) (json_bytes sha1 : bytes)
  (st : pass_state) : pass_state :=
  let st3 := set_existing_hash (<[u := sha1]> (existing_hash st))
               (set_counters (processed st) (kept st) (changed st + 1) st) in
  if dry_run a then st3
  else
    let st4 := set_changed_bufs
                 (changed_uuids st3 ++ [u])
                 (stats_buf st3 ++ [(rid, u, gzip_compress json_bytes, sha1)])
                 (metric_buf st3 ++ metric_rows rid u stats msrc) st3 in
    if flush_changed_n a <=? Z.of_nat (length (changed_uuids st4))
    then flush_changed_batch (db_now e) rid st4 else st4.

(** The tuple of lines 622-647 for player [u]. *)
Definition profile_tuple_of (e : env) (rid : Z)
  (profiles : gmap bytes (string * option string * option string)) (u : bytes)
  : profile_tuple :=
  let '(name, name_source, name_checked_at) := resolve_name e profiles u in
  {| pt_run := rid; pt_uuid := u; pt_name := name;
     pt_name_lc := Py.lower name; pt_name_source := name_source;
     pt_name_checked_at := name_checked_at; pt_last_seen := now_ts e |}.

(** Lines 613-686: a file that passed the play-time filter. *)
Definition process_kept (a : args) (e : env) (rid : Z)
  (profiles : gmap bytes (string * option string * option string))
  (msrc : list (string * list MetricSource))
  (u : bytes) (stats : list (string * json)) (st : pass_state) : pass_state :=
  let st2 := buffer_profile a e (profile_tuple_of e rid profiles u) (buffer_seen a u st) in
  let json_bytes := canonical_bytes stats in
  let sha1 := Sha1.sha1 json_bytes in
  if decide (existing_hash st2 !! u = Some sha1) then st2
  else record_changed a e rid msrc u stats json_bytes sha1 st2.

(** Lines 583-611 and on: the body of the loop over the files. *)
Definition process_file (a : args) (e : env) (rid : Z)
  (profiles : gmap bytes (string * option string * option string))
  (msrc : list (string * list MetricSource))
  (st : pass_state) (f : stats_file) : pass_state :=
  let st0 := set_counters (processed st + 1) (kept st) (changed st) st in
  match sf_uuid f with
  | None => st0
  | Some u =>
      if decide (u ∈ excluded e) then st0
      else
        match sf_raw f with
        | None => st0
        | Some raw =>
            let stats := stats_of_raw raw in
            if play_time_of stats <? min_play_ticks a then st0
            else
              process_kept a e rid profiles msrc u stats
                (set_counters (processed st0) (kept st0 + 1) (changed st0) st0)
        end
  end.

(** *** Cleanup *)

(** The three anti-join deletes of lines 697-722: a row of run [rid] goes
    when its uuid is not in [tmp_seen]. *)
Definition cleanup (rid : Z) (seen : gset bytes) (d : database) : database :=
  Db.set_metric_value
    (filter (fun r => ¬ (mv_run r = rid ∧ mv_uuid r ∉ seen)) (metric_value d))
    (Db.set_player_stats
       (filter (fun r => ¬ (ps_run r = rid ∧ ps_uuid r ∉ seen)) (player_stats d))
       (Db.set_player_profile
          (filter (fun r => ¬ (pp_run r = rid ∧ pp_uuid r ∉ seen)) (player_profile d))
          d)).

(** *** The points metric *)

(** [ORDER BY value DESC, uuid ASC] *)
Definition mv_before (r1 r2 : mv_row) : Prop :=
  mv_value r2 < mv_value r1 ∨
  (mv_value r1 = mv_value r2 ∧ String.le (mv_uuid r1) (mv_uuid r2)).

#[global] Instance mv_before_dec : RelDecision mv_before.
Proof. intros r1 r2. unfold mv_before. apply _. Defined.

(** The query [sql_top3] *)
Definition top3 (rid : Z) (mid : string) (t : list mv_row) : list mv_row :=
  take 3
    (merge_sort mv_before
       (filter (fun r => mv_run r = rid ∧ mv_metric r = mid ∧ 0 < mv_value r) t)).

Definition king_def (king : string) : def_row :=
  {| md_id := king;
     md_label := "Server-K" +:+ String (ascii_of_N 246) "nig";
     md_category := "Allgemein"; md_unit := "Punkte";
     md_divisor := 1; md_decimals := 0; md_sort_order := 0; md_enabled := true |}.

(** [ensure_king_metric] *)
Definition ensure_king_metric (king : string) (d : database) : database :=
  if existsb (fun r => String.eqb (md_id r) king) (metric_def d) then d
  else Db.set_metric_def (metric_def d ++ [king_def king]) d.

(** [points_map[u] = points_map.get(u, 0) + pts] on an insertion-ordered dict *)
Fixpoint add_points (u : bytes) (pts : Z) (pm : list (bytes * Z)) : list (bytes * Z) :=
  match pm with
  | [] => [(u, pts)]
  | (k, p) :: r =>
      if String.eqb k u then (k, p + pts) :: r else (k, p) :: add_points u pts r
  end.

(** Lines 329-338: the loop over the rows of one metric, from index [i]. *)
Fixpoint award_loop (award_points : list Z) (store : bool) (rid : Z) (mid : string)
  (i : nat) (rows : list mv_row) (acc : list (bytes * Z) * list award_row)
  : list (bytes * Z) * list award_row :=
  match rows with
  | [] => acc
  | r :: rest =>
      match award_points !! i with
      | None => acc
      | Some pts =>
          if pts <=? 0 then award_loop award_points store rid mid (S i) rest acc
          else
            award_loop award_points store rid mid (S i) rest
              (add_points (mv_uuid r) pts acc.1,
               if store
               then acc.2 ++ [{| aw_run := rid; aw_metric := mid;
                                 aw_place := Z.of_nat i + 1; aw_uuid := mv_uuid r;
                                 aw_points := pts; aw_value := mv_value r |}]
               else acc.2)
      end
  end.

(** Lines 318-320: the two deletes that open the recomputation. *)
Definition king_reset (rid : Z) (king : string) (d : database) : database :=
  Db.set_metric_award
    ((fun aw => filter (fun r => aw_run r ≠ rid) aw) <$> metric_award d)
    (Db.set_metric_value
       (filter (fun r => ¬ (mv_run r = rid ∧ mv_metric r = king)) (metric_value d)) d).

(** Lines 323-338: the points map and the award rows. *)
Definition king_awards (rid : Z) (metric_ids : list string) (king : string)
  (award_points : list Z) (store : bool) (t : list mv_row)
  : list (bytes * Z) * list award_row :=
  fold_left
    (fun acc mid =>
       if String.eqb mid king then acc
       else award_loop award_points store rid mid 0 (top3 rid mid t) acc)
    metric_ids ([], []).

(** The rows of line 351. *)
Definition king_rows (rid : Z) (king : string) (pm : list (bytes * Z)) : list mv_row :=
  omap (fun it => if 0 <? it.2
                  then Some {| mv_run := rid; mv_metric := king;
                               mv_uuid := it.1; mv_value := it.2 |}
                  else None) pm.

(** [recompute_king_points] *)
Definition recompute_king_points (rid : Z) (metric_ids : list string) (king : string)
  (award_points : list Z) (d : database) : database :=
  let d0 := ensure_king_metric king d in
  let store := bool_decide (is_Some (metric_award d0)) in
  let d1 := king_reset rid king d0 in
  let '(pm, aw) := king_awards rid metric_ids king award_points store (metric_value d1) in
  let d2 := match aw with
            | [] => d1
            | _ => Db.set_metric_award ((fun t => t ++ aw) <$> metric_award d1) d1
            end in
  match pm with
  | [] => d2
  | _ => Db.set_metric_value (metric_value d2 ++ king_rows rid king pm) d2
  end.

(** Line 727: [None] when an [int] raises. *)
Definition parse_king_points (s : string) : option (list Z) :=
  mapM (fun x => Py.int_of_str (Py.strip x))
    (List.filter (fun x => negb (String.eqb (Py.strip x) EmptyString)) (Py.split "," s)).

(** Lines 728-731 and 737: the three points passed on. *)
Definition king_award_points (pts : list Z) : list Z :=
  let pts1 := match pts with [] => [5; 3; 1] | _ => pts end in
  take 3 (pts1 ++ replicate (3 - length pts1) 0).

(** *** The run *)

Definition init_state (rid : Z) (d : database) : pass_state :=
  {| db := d; tmp_seen := ∅; existing_hash := load_existing_hashes rid d;
     processed := 0; kept := 0; changed := 0;
     seen_buf := []; profile_buf := []; changed_uuids := [];
     stats_buf := []; metric_buf := [] |}.

(** The loop of lines 582-686 over all files, for the run [rid] on the
    tables [d]. *)
Definition scan (a : args) (e : env) (rid : Z) (d : database) : pass_state :=
  fold_left
    (process_file a e rid
       (load_existing_profile_meta rid (has_source e) (has_checked e) d)
       (load_metric_sources (metric_source_rows e)))
    (stats_files e) (init_state rid d).

(** Lines 725-741. *)
Definition king_step (a : args) (e : env) (rid : Z) (d : database) : database :=
  if no_king a then d
  else
    match parse_king_points (king_points a) with
    | None => d
    | Some pts =>
        recompute_king_points rid (load_metric_sources (metric_source_rows e)).*1
          (king_metric_id a) (king_award_points pts) d
    end.

(** [main], from the point where the lock is held (line 534) to its
    return; database errors are not modelled. *)
Definition main (a : args) (e : env) (d0 : database) : outcome :=
  let '(rid, d1) := ensure_run_id (db_now e) d0 in
  match load_metric_sources (metric_source_rows e) with
  | [] => {| exit_code := 3; final_db := d1;
             n_processed := 0; n_kept := 0; n_changed := 0 |}
  | _ =>
      let st := scan a e rid d1 in
      if dry_run a
      then {| exit_code := 0; final_db := db st; n_processed := processed st;
              n_kept := kept st; n_changed := changed st |}
      else
        let st' := flush_all e rid st in
        let d2 := cleanup rid (tmp_seen st') (db st') in
        let d3 := king_step a e rid d2 in
        {| exit_code := 0; final_db := Db.touch_run (db_now e) rid d3;
           n_processed := processed st; n_kept := kept st; n_changed := changed st |}
  end.

End Importer.

(** * The name resolver, [resolve_names.py] *)

(** A row of the candidate query of [fetch_candidates]: uuid, name and,
    where the columns exist, name_source and name_checked_at. *)
Record cand_row := {
  cr_uuid : bytes; cr_name : option string;
  cr_source : option string; cr_checked : option string }.

Record Candidate := {
  uuid_bin : bytes; name : option string;
  name_source : option string; name_checked_at : option string }.

(** What the run's result shows: the return code of [main], the tables
    and the three counts it prints. *)
Record resolver_outcome := {
  r_exit_code : Z; r_final_db : database;
  r_total : Z; r_resolved : Z; r_failed : Z }.

Module Resolver.

(** [get_active_run_id]; [None] is its [SystemExit]. *)
Definition get_active_run_id (d : database) : option Z :=
  match site_state d with
  | Some (Some rid) => Some rid
  | _ => None
  end.

(** The test both steps of [mojang_name_for_uuid] apply to a document
    that should be a profile: a dict whose [name] is a non-empty string
    gives that name cut to 16. *)
Definition profile_name (j : json) : option string :=
  match j with
  | JDict kv =>
      match Json.dict_get "name" kv with
      | Some (JStr (String c n)) => Some (Py.slice_to 16 (String c n))
      | _ => None
      end
  | _ => None
  end.

(** [mojang_name_for_uuid]; [http_get_json] is the source's function of
    that name, from the url to the parsed answer, [None] where there is
    no data or anything raises. *)
Definition mojang_name_for_uuid (http_get_json : string -> option json) (u_hex : string)
  : option string :=
  match
    match http_get_json
            ("https://sessionserver.mojang.com/session/minecraft/profile/" +:+ u_hex) with
    | Some js => profile_name js
    | None => None
    end
  with
  | Some nm => Some nm
  | None =>
      match http_get_json ("https://api.mojang.com/user/profiles/" +:+ u_hex +:+ "/names") with
      | Some (JList js2) =>
          match last js2 with
          | Some it => profile_name it
          | None => None
          end
      | _ => None
      end
  end.

(** Lines 192-207 of [fetch_candidates], on the rows its query returns. *)
Definition fetch_candidates (hs hc : bool) (rows : list cand_row) : list Candidate :=
  omap (fun r =>
          if (String.length (cr_uuid r) =? 16)%nat
          then Some {| uuid_bin := cr_uuid r; name := cr_name r;
                       name_source := if hs then cr_source r else None;
                       name_checked_at := if hc then cr_checked r else None |}
          else None) rows.

(** Lines 259-273: the counts and the two update lists. *)
Definition lookup_loop (http_get_json : string -> option json) (hc : bool) (rid : Z)
  (candidates : list Candidate)
  : Z * Z * list (string * string * Z * bytes) * list (Z * bytes) :=
  fold_left
    (fun acc c =>
       let '(resolved, failed, updates_ok, updates_fail) := acc in
       match mojang_name_for_uuid http_get_json (Py.hex (uuid_bin c)) with
       | Some (String ch r) =>
           (resolved + 1, failed,
            updates_ok ++ [(String ch r, Py.lower (String ch r), rid, uuid_bin c)],
            updates_fail)
       | _ =>
           (resolved, failed + 1, updates_ok,
            if hc then updates_fail ++ [(rid, uuid_bin c)] else updates_fail)
       end)
    candidates (0, 0, [], []).

(** One tuple of the [UPDATE] of lines 276-303; the statement chosen by
    [hs] and [hc] sets [name_source] only if [hs], and [name_checked_at]
    only if both hold. *)
Definition update_ok (hs hc : bool) (now : string) (tbl : list profile_row)
  (t : string * string * Z * bytes) : list profile_row :=
  let '(nm, lc, rid, u) := t in
  map (fun r =>
         if (pp_run r =? rid) && String.eqb (pp_uuid r) u
         then {| pp_run := pp_run r; pp_uuid := pp_uuid r; pp_name := nm; pp_name_lc := lc;
                 pp_name_source := if hs then Some "mojang"%string else pp_name_source r;
                 pp_name_checked_at := if hs && hc then Some now else pp_name_checked_at r;
                 pp_last_seen := pp_last_seen r |}
         else r) tbl.

(** One tuple of the [UPDATE] of lines 305-313. *)
Definition update_fail (now : string) (tbl : list profile_row) (t : Z * bytes)
  : list profile_row :=
  let '(rid, u) := t in
  map (fun r =>
         if (pp_run r =? rid) && String.eqb (pp_uuid r) u
         then {| pp_run := pp_run r; pp_uuid := pp_uuid r; pp_name := pp_name r;
                 pp_name_lc := pp_name_lc r; pp_name_source := pp_name_source r;
                 pp_name_checked_at := Some now; pp_last_seen := pp_last_seen r |}
         else r) tbl.

(** [main], from the lock on. [lock] is the answer of [acquire_db_lock],
    [run_id] the option of that name, [rows] the answer of the candidate
    query; the [SystemExit] of [get_active_run_id] ends the run with
    code 1. *)
Definition main (lock : bool) (run_id : Z) (http_get_json : string -> option json)
  (hs hc : bool) (now : string) (rows : list cand_row) (d : database) : resolver_outcome :=
  if negb lock
  then {| r_exit_code := 10; r_final_db := d; r_total := 0; r_resolved := 0; r_failed := 0 |}
  else
    match (if 0 <? run_id then Some run_id else get_active_run_id d) with
    | None =>
        {| r_exit_code := 1; r_final_db := d; r_total := 0; r_resolved := 0; r_failed := 0 |}
    | Some rid =>
        let candidates := fetch_candidates hs hc rows in
        let '(resolved, failed, updates_ok, updates_fail) :=
          lookup_loop http_get_json hc rid candidates in
        let t1 := fold_left (update_ok hs hc now) updates_ok (player_profile d) in
        let t2 := if hc then fold_left (update_fail now) updates_fail t1 else t1 in
        {| r_exit_code := 0; r_final_db := Db.set_player_profile t2 d;
           r_total := Z.of_nat (length candidates);
           r_resolved := resolved; r_failed := failed |}
    end.

End Resolver.

(** * Properties *)

(** ** Canonical JSON *)

Section json_induction.
Variable P : json → Prop.
Hypothesis Hnull : P JNull.
Hypothesis Hbool : ∀ b, P (JBool b).
Hypothesis Hint : ∀ z, P (JInt z).
Hypothesis Hfloat : ∀ f, P (JFloat f).
Hypothesis Hstr : ∀ s, P (JStr s).
Hypothesis Hlist : ∀ l, Forall P l → P (JList l).
Hypothesis Hdict : ∀ kv, Forall (fun it => P it.2) kv → P (JDict kv).

Fixpoint json_nested_ind (j : json) : P j :=
  match j with
  | JNull => Hnull
  | JBool b => Hbool b
  | JInt z => Hint z
  | JFloat f => Hfloat f
  | JStr s => Hstr s
  | JList l =>
      Hlist l ((fix go l : Forall P l :=
                  match l with
                  | [] => Forall_nil_2 P
                  | x :: r => Forall_cons_2 P x r (json_nested_ind x) (go r)
                  end) l)
  | JDict kv =>
      Hdict kv ((fix go kv : Forall (fun it => P it.2) kv :=
                   match kv with
                   | [] => Forall_nil_2 _
                   | it :: r => Forall_cons_2 _ it r (json_nested_ind it.2) (go r)
                   end) kv)
  end.
End json_induction.

Lemma dumps_dict kv :
  Json.dumps (JDict kv) =
  "{" +:+ Py.join "," (map Json.render_item
            (Json.sort_items (map (fun it => (it.1, Json.dumps it.2)) kv))) +:+ "}".
Proof.
  simpl. do 4 f_equal.
  induction kv as [|[k v] r IH]; simpl; [done|]. by rewrite IH.
Qed.

Lemma contents_dict kv :
  Json.contents (JDict kv) =
  Json.TDict (list_to_map (map (fun it => (it.1, Json.contents it.2)) kv)).
Proof.
  simpl. do 2 f_equal.
  induction kv as [|[k v] r IH]; simpl; [done|]. by rewrite IH.
Qed.

Lemma wf_list l : Json.wf (JList l) ↔ Forall Json.wf l.
Proof.
  simpl. induction l as [|x r IH]; simpl.
  - split; [constructor|done].
  - rewrite Forall_cons, IH. done.
Qed.

Lemma wf_dict kv :
  Json.wf (JDict kv) ↔ NoDup (kv.*1) ∧ Forall (fun it => Json.wf it.2) kv.
Proof.
  simpl. apply and_iff_compat_l.
  induction kv as [|[k v] r IH]; simpl.
  - split; [constructor|done].
  - rewrite Forall_cons, IH. done.
Qed.

Definition item_le (x y : string * string) : Prop := String.le x.1 y.1.

Lemma insert_item_perm x l : Json.insert_item x l ≡ₚ x :: l.
Proof.
  induction l as [|y r IH]; simpl; [done|].
  destruct (String.leb x.1 y.1); [done|].
  rewrite IH. apply perm_swap.
Qed.

Lemma sort_items_perm l : Json.sort_items l ≡ₚ l.
Proof.
  induction l as [|x r IH]; simpl; [done|].
  unfold Json.sort_items in *. simpl. by rewrite insert_item_perm, IH.
Qed.

Lemma insert_item_sorted x l :
  Sorted item_le l → Sorted item_le (Json.insert_item x l).
Proof.
  induction 1 as [|y r Hr IH Hhd]; simpl.
  - repeat constructor.
  - destruct (String.leb x.1 y.1) eqn:E.
    + constructor; [by constructor|]. constructor. unfold item_le, String.le. by rewrite E.
    + constructor; [done|].
      assert (item_le y x) as Hyx.
      { unfold item_le, String.le. destruct (String.leb_total x.1 y.1) as [H|H]; [congruence|].
        by rewrite H. }
      destruct Hhd as [|z r' Hyz]; simpl; [by constructor|].
      destruct (String.leb x.1 z.1); by constructor.
Qed.

Lemma sort_items_sorted l : Sorted item_le (Json.sort_items l).
Proof.
  induction l as [|x r IH]; [constructor|].
  unfold Json.sort_items in *. simpl. by apply insert_item_sorted.
Qed.

#[local] Instance item_le_trans : Transitive item_le.
Proof. intros x y z. unfold item_le. apply transitivity. Qed.

Lemma NoDup_fst_eq {A B} (l : list (A * B)) x y :
  NoDup (l.*1) → x ∈ l → y ∈ l → x.1 = y.1 → x = y.
Proof.
  induction l as [|z r IH]; simpl; intros Hnd Hx Hy Hk; [by inv Hx|].
  inv Hnd. inv Hx; inv Hy; try done.
  - exfalso. match goal with H : _ ∉ _ |- _ => apply H end.
    rewrite Hk. by apply list_elem_of_fmap_2.
  - exfalso. match goal with H : _ ∉ _ |- _ => apply H end.
    rewrite <-Hk. by apply list_elem_of_fmap_2.
  - by apply IH.
Qed.

Lemma sort_items_unique l1 l2 :
  NoDup (l1.*1) → l1 ≡ₚ l2 → Json.sort_items l1 = Json.sort_items l2.
Proof.
  intros Hnd Hp.
  apply (Sorted_unique_strong item_le); try apply sort_items_sorted.
  - intros x y Hx Hy Hxy Hyx.
    rewrite sort_items_perm in Hx. rewrite sort_items_perm, <-Hp in Hy.
    apply (NoDup_fst_eq l1); try done.
    unfold item_le in *. by apply (anti_symm String.le).
  - by rewrite !sort_items_perm.
Qed.

Lemma dumps_contents j1 :
  ∀ j2, Json.wf j1 → Json.wf j2 → Json.contents j1 = Json.contents j2 →
        Json.dumps j1 = Json.dumps j2.
Proof.
  induction j1 as [| | | | |l1 IH|kv1 IH] using json_nested_ind; intros j2 Hw1 Hw2 Hc;
    try (destruct j2; simpl in Hc; simplify_eq; done).
  - destruct j2 as [| | | | |l2|]; try (simpl in Hc; discriminate).
    simpl in Hc. injection Hc as Hc. simpl. do 3 f_equal.
    apply wf_list in Hw1, Hw2.
    revert l2 Hw2 Hc. induction IH as [|x r Hx _ IHr]; intros [|y l2] Hw2 Hc; simplify_eq/=; [done|].
    inv Hw1. inv Hw2. f_equal; [by apply Hx|by apply IHr].
  - destruct j2 as [| | | | | |kv2]; try (simpl in Hc; discriminate).
    rewrite !contents_dict in Hc. injection Hc as Hc.
    apply wf_dict in Hw1 as [Hnd1 Hw1], Hw2 as [Hnd2 Hw2].
    rewrite !dumps_dict. do 4 f_equal.
    apply list_to_map_inj in Hc.
    2,3: by rewrite <-list_fmap_compose.
    symmetry in Hc. apply Permutation_map_inv in Hc as (kv3 & Heq & Hp).
    transitivity (Json.sort_items (map (fun it => (it.1, Json.dumps it.2)) kv3)).
    + apply sort_items_unique; [by rewrite <-list_fmap_compose|].
      by apply Permutation_map.
    + f_equal.
      assert (Forall (fun it => Json.wf it.2 ∧
                ∀ j2, Json.wf it.2 → Json.wf j2 →
                      Json.contents it.2 = Json.contents j2 →
                      Json.dumps it.2 = Json.dumps j2) kv3) as H3.
      { rewrite Forall_forall in *. intros x Hx. rewrite <-Hp in Hx. split; auto. }
      clear Hp Hnd1 Hnd2 Hw1 IH.
      revert kv2 Heq Hw2. induction H3 as [|x r [Hwx Hx] _ IHr];
        intros [|y kv2] Heq Hw2; simplify_eq/=; [done|].
      inv Hw2. f_equal; [|by apply IHr].
      f_equal; [done|]. apply Hx; done.
Qed.

Lemma sha1_length m : String.length (Sha1.sha1 m) = 20%nat.
Proof.
  unfold Sha1.sha1.
  destruct (fold_left _ _ _) as [[[[h0 h1] h2] h3] h4]. reflexivity.
Qed.

Definition stats_ab : list (string * json) :=
  [("minecraft:custom", JDict [("minecraft:play_time", JInt 100); ("minecraft:jump", JInt 7)]);
   ("minecraft:mined", JDict [("minecraft:stone", JInt 10)])].

Definition stats_ba : list (string * json) :=
  [("minecraft:mined", JDict [("minecraft:stone", JInt 10)]);
   ("minecraft:custom", JDict [("minecraft:jump", JInt 7); ("minecraft:play_time", JInt 100)])].

(** C2. Two stat trees whose dicts hold the same section, key and value
    contents, in whatever order the keys appear, have the same canonical
    bytes, hence the same 20-byte SHA-1 digest. *)
Theorem canonical_bytes_order_independent (s1 s2 : list (string * json)) :
  Json.wf (JDict s1) → Json.wf (JDict s2) →
  Json.contents (JDict s1) = Json.contents (JDict s2) →
  Importer.canonical_bytes s1 = Importer.canonical_bytes s2 ∧
  Sha1.sha1 (Importer.canonical_bytes s1) = Sha1.sha1 (Importer.canonical_bytes s2) ∧
  String.length (Sha1.sha1 (Importer.canonical_bytes s1)) = 20%nat.
Proof.
  intros Hw1 Hw2 Hc. unfold Importer.canonical_bytes.
  rewrite (dumps_contents _ _ Hw1 Hw2 Hc). auto using sha1_length.
Qed.

Lemma canonical_bytes_order_independent_witness :
  stats_ab ≠ stats_ba ∧
  Importer.canonical_bytes stats_ab = Importer.canonical_bytes stats_ba ∧
  Sha1.sha1 (Importer.canonical_bytes stats_ab) = Sha1.sha1 (Importer.canonical_bytes stats_ba) ∧
  String.length (Sha1.sha1 (Importer.canonical_bytes stats_ab)) = 20%nat.
Proof.
  split; [discriminate|].
  apply (canonical_bytes_order_independent stats_ab stats_ba).
  - simpl. repeat split; apply (bool_decide_unpack (NoDup _)); vm_compute; exact I.
  - simpl. repeat split; apply (bool_decide_unpack (NoDup _)); vm_compute; exact I.
  - vm_compute. reflexivity.
Defined.

(** ** The fallback name *)

Definition unhexdigit (c : ascii) : N :=
  let n := N_of_ascii c in
  if (n <? 58)%N then (n - 48)%N else (n - 87)%N.

Definition unhex2 (s : string) : option ascii :=
  match s with
  | String h (String l EmptyString) => Some (ascii_of_N (unhexdigit h * 16 + unhexdigit l))
  | _ => None
  end.

Lemma unhex2_hex2 c : unhex2 (Py.hex2 c) = Some c.
Proof.
  destruct c as [[] [] [] [] [] [] [] []]; vm_compute; reflexivity.
Qed.

Lemma hex2_inj c1 c2 : Py.hex2 c1 = Py.hex2 c2 → c1 = c2.
Proof.
  intros H. apply (f_equal unhex2) in H. rewrite !unhex2_hex2 in H. congruence.
Qed.

Lemma hex2_shape c : ∃ h l, Py.hex2 c = String h (String l EmptyString).
Proof. unfold Py.hex2. eauto. Qed.

Lemma hex_inj b1 b2 : Py.hex b1 = Py.hex b2 → b1 = b2.
Proof.
  revert b2. induction b1 as [|c1 r1 IH]; intros [|c2 r2] H; cbn [Py.hex] in H; [done|..].
  - destruct (hex2_shape c2) as (h & l & E). rewrite E in H. done.
  - destruct (hex2_shape c1) as (h & l & E). rewrite E in H. done.
  - destruct (hex2_shape c1) as (h1 & l1 & E1), (hex2_shape c2) as (h2 & l2 & E2).
    rewrite E1, E2 in H. simpl in H. injection H as -> -> H.
    rewrite <-E2 in E1. apply hex2_inj in E1 as ->. f_equal. by apply IH.
Qed.

Lemma hex_slice n b : Py.slice_to (2 * n) (Py.hex b) = Py.hex (Py.slice_to n b).
Proof.
  revert b. induction n as [|n IH]; intros b.
  - unfold Py.slice_to. change (2 * 0)%nat with 0%nat.
    assert (∀ s, String.substring 0 0 s = EmptyString) as E by (by intros []).
    by rewrite !E.
  - destruct b as [|c r]; [done|].
    replace (2 * S n)%nat with (S (S (2 * n))) by lia.
    unfold Py.slice_to in *.
    change (String.substring 0 (S n) (String c r)) with (String c (String.substring 0 n r)).
    cbn [Py.hex]. destruct (hex2_shape c) as (h & l & E). rewrite E.
    change (String.substring 0 (S (S (2 * n))) (String h (String l EmptyString) +:+ Py.hex r))
      with (String h (String l (String.substring 0 (2 * n) (Py.hex r)))).
    by rewrite IH.
Qed.

(** The player falls through to the third tier of the chain: no
    non-empty usercache name and no stored profile. *)
Definition falls_back (e : env)
  (profiles : gmap bytes (string * option string * option string)) (u : bytes) : Prop :=
  (name_map e !! u = None ∨ name_map e !! u = Some EmptyString) ∧ profiles !! u = None.

Lemma resolve_name_fallback e profiles u :
  falls_back e profiles u →
  Importer.resolve_name e profiles u = (Py.slice_to 12 (Py.hex u), "fallback", None).
Proof.
  intros [[H|H] Hp]; unfold Importer.resolve_name; by rewrite H, Hp.
Qed.

Definition env_bare : env :=
  {| stats_files := []; name_map := ∅; excluded := ∅;
     has_source := true; has_checked := true; metric_source_rows := [];
     now_ts := "2024-01-01 00:00:00"; db_now := "2024-01-01 00:00:00" |}.

Definition id_a : bytes := "0123456789abcdef".
Definition id_b : bytes := "012345zzzzzzzzzz".

(** C7, as stated, fails: two distinct 16-byte ids that both fall through
    to the fallback tier get the same name. *)
Lemma fallback_name_collision :
  ¬ (∀ e profiles u1 u2,
       String.length u1 = 16%nat → String.length u2 = 16%nat → u1 ≠ u2 →
       falls_back e profiles u1 → falls_back e profiles u2 →
       (Importer.resolve_name e profiles u1).1.1 ≠ (Importer.resolve_name e profiles u2).1.1).
Proof.
  intros H.
  assert (∀ u, falls_back env_bare ∅ u) as Hf by (intros u; split; [left|]; apply lookup_empty).
  apply (H env_bare ∅ id_a id_b); auto; try discriminate.
Qed.

(** C7, amended. The fallback name is a function of the id alone, its
    first 12 hex digits; two ids that fall through get the same name
    exactly when their first 6 bytes agree. *)
Theorem fallback_name_first_six_bytes e profiles u1 u2 :
  falls_back e profiles u1 → falls_back e profiles u2 →
  Importer.resolve_name e profiles u1 = (Py.hex (Py.slice_to 6 u1), "fallback", None) ∧
  Importer.resolve_name e profiles u2 = (Py.hex (Py.slice_to 6 u2), "fallback", None) ∧
  ((Importer.resolve_name e profiles u1).1.1 = (Importer.resolve_name e profiles u2).1.1
   ↔ Py.slice_to 6 u1 = Py.slice_to 6 u2).
Proof.
  intros H1 H2. rewrite !resolve_name_fallback by done.
  rewrite !(hex_slice 6). repeat split; simpl.
  - apply hex_inj.
  - by intros ->.
Qed.

Lemma fallback_name_first_six_bytes_witness :
  Importer.resolve_name env_bare ∅ id_a = (Py.hex (Py.slice_to 6 id_a), "fallback", None) ∧
  Importer.resolve_name env_bare ∅ id_b = (Py.hex (Py.slice_to 6 id_b), "fallback", None) ∧
  ((Importer.resolve_name env_bare ∅ id_a).1.1 = (Importer.resolve_name env_bare ∅ id_b).1.1
   ↔ Py.slice_to 6 id_a = Py.slice_to 6 id_b).
Proof.
  apply (fallback_name_first_six_bytes env_bare ∅ id_a id_b);
    (split; [left|]; apply lookup_empty).
Defined.

(** ** Metric computation *)

(** The value a source points at, when its section is a dict holding its
    key. *)
Definition source_value (stats : list (string * json)) (src : MetricSource) : option json :=
  match Json.dict_get (section src) stats with
  | Some (JDict d) => Json.dict_get (mc_key src) d
  | _ => None
  end.

(** The section or the key is missing, or [int] does not convert the
    value: [None], a list, a dict, a string that is no integer literal, a
    float that is NaN or infinite. A boolean, a string of digits and a
    finite float are converted, hence usable. *)
Definition unusable (stats : list (string * json)) (src : MetricSource) : Prop :=
  match source_value stats src with
  | None => True
  | Some v => Json.py_int v = None
  end.

(** What a source adds to its metric. *)
Definition contribution (stats : list (string * json)) (src : MetricSource) : Z :=
  match source_value stats src with
  | Some v => default 0 ((fun n => n * weight src) <$> Json.py_int v)
  | None => 0
  end.

Lemma source_term_contribution stats src :
  default 0 (Importer.source_term stats src) = contribution stats src.
Proof.
  unfold Importer.source_term, contribution, source_value.
  destruct (Json.dict_get (section src) stats) as [[]|]; simpl; try lia.
  destruct (Json.dict_get (mc_key src) kv) as [v|]; simpl; [|lia].
  by destruct v.
Qed.

Lemma fold_left_add_shift {A} (f : A → Z) l z :
  fold_left (fun total x => total + f x) l z = z + foldr Z.add 0 (map f l).
Proof.
  revert z. induction l as [|x r IH]; intros z; simpl; [lia|]. rewrite IH. lia.
Qed.

Lemma metric_total_sum stats srcs :
  Importer.metric_total stats srcs = foldr Z.add 0 (map (contribution stats) srcs).
Proof.
  unfold Importer.metric_total.
  rewrite (fold_left_add_shift (fun src => default 0 (Importer.source_term stats src))).
  rewrite Z.add_0_l. f_equal. apply map_ext. intros. apply source_term_contribution.
Qed.

Lemma unusable_contribution stats src : unusable stats src → contribution stats src = 0.
Proof.
  unfold unusable, contribution. destruct (source_value stats src); [|done].
  by intros ->.
Qed.

Lemma metric_rows_elem rid u stats msrc mid srcs :
  (mid, srcs) ∈ msrc → 0 < Importer.metric_total stats srcs →
  (rid, mid, u, Importer.metric_total stats srcs) ∈ Importer.metric_rows rid u stats msrc.
Proof.
  intros Hin Hpos. unfold Importer.metric_rows. apply list_elem_of_omap.
  exists (mid, srcs). split; [done|]. simpl.
  by destruct (Z.ltb_spec 0 (Importer.metric_total stats srcs)); [|lia].
Qed.

Definition stats_one : list (string * json) :=
  [("minecraft:mined", JDict [("minecraft:stone", JInt 10); ("minecraft:dirt", JStr "n/a")])].

Definition src_stone : MetricSource :=
  {| metric_id := "blocks"; section := "minecraft:mined"; mc_key := "minecraft:stone"; weight := 2 |}.
Definition src_dirt : MetricSource :=
  {| metric_id := "blocks"; section := "minecraft:mined"; mc_key := "minecraft:dirt"; weight := 1 |}.
Definition src_gone : MetricSource :=
  {| metric_id := "blocks"; section := "minecraft:used"; mc_key := "minecraft:stone"; weight := 5 |}.

(** A value that is no JSON number: neither an integer nor a float. *)
Definition non_numeric (v : json) : Prop :=
  match v with
  | JInt _ | JFloat _ => False
  | _ => True
  end.

(** The sources the claim speaks of: the section or the key is missing,
    or the value is not numeric. *)
Definition missing_or_non_numeric (stats : list (string * json)) (src : MetricSource) : Prop :=
  match source_value stats src with
  | None => True
  | Some v => non_numeric v
  end.

Definition stats_text : list (string * json) :=
  [("minecraft:mined",
    JDict [("minecraft:stone", JStr "12"); ("minecraft:dirt", JBool true);
           ("minecraft:sand", JFloat {| float_repr := "2.9"; float_int := Some 2 |})])].

Definition src_sand : MetricSource :=
  {| metric_id := "blocks"; section := "minecraft:mined"; mc_key := "minecraft:sand"; weight := 2 |}.

(** C8, as stated, fails for a value that is not numeric and that [int]
    converts: the string ["12"] under weight 2 adds 24 and the boolean
    [true] under weight 1 adds 1, not zero; so a source with such a value
    does not leave the total as it is without that source. Nor is the
    addend of a numeric value always the value times the weight: the
    float 2.9 under weight 2 adds [int(2.9) * 2 = 4]. *)
Lemma non_numeric_value_counted :
  missing_or_non_numeric stats_text src_stone ∧
  Importer.metric_total stats_text [src_stone] = 24 ∧
  missing_or_non_numeric stats_text src_dirt ∧
  Importer.metric_total stats_text [src_dirt] = 1 ∧
  Importer.metric_total stats_text [src_sand] = 4 ∧
  ¬ (∀ stats before src after,
       missing_or_non_numeric stats src →
       Importer.metric_total stats (before ++ src :: after)
       = Importer.metric_total stats (before ++ after)).
Proof.
  split; [exact I|]. split; [reflexivity|]. split; [exact I|].
  split; [reflexivity|]. split; [reflexivity|].
  intros H. specialize (H stats_text [] src_stone [] I). vm_compute in H. discriminate.
Qed.

(** C8. A source whose section or key is missing, or whose value [int]
    does not convert ([None] included), adds exactly zero to its metric:
    the total is the sum over the other sources; every source whose value
    [int] converts to [n], be the value a number, a boolean or a string
    of digits, adds [n] times its weight; and the metric's row is still
    buffered for the player whenever that total is positive. *)
Theorem unusable_source_adds_zero stats before src after :
  unusable stats src →
  Importer.metric_total stats (before ++ src :: after)
  = foldr Z.add 0 (map (contribution stats) (before ++ after)) ∧
  (∀ s v n, source_value stats s = Some v → Json.py_int v = Some n →
            contribution stats s = n * weight s) ∧
  (∀ rid u msrc mid,
     (mid, before ++ src :: after) ∈ msrc →
     0 < foldr Z.add 0 (map (contribution stats) (before ++ after)) →
     (rid, mid, u, foldr Z.add 0 (map (contribution stats) (before ++ after)))
       ∈ Importer.metric_rows rid u stats msrc).
Proof.
  intros Hbad.
  assert (Importer.metric_total stats (before ++ src :: after)
          = foldr Z.add 0 (map (contribution stats) (before ++ after))) as Htot.
  { rewrite !metric_total_sum, !map_app, !foldr_app. simpl.
    rewrite (unusable_contribution _ _ Hbad). by rewrite Z.add_0_l. }
  split; [done|]. split.
  - intros s v n Hv Hn. unfold contribution. by rewrite Hv, Hn.
  - intros rid u msrc mid Hin Hpos. rewrite <-Htot in *. by apply metric_rows_elem.
Qed.

Lemma unusable_source_adds_zero_witness :
  Importer.metric_total stats_one ([src_stone] ++ src_dirt :: [src_gone]) = 20 ∧
  unusable stats_one src_dirt ∧ unusable stats_one src_gone.
Proof.
  split; [|split; [reflexivity|exact I]].
  etransitivity;
    [exact (proj1 (unusable_source_adds_zero stats_one [src_stone] src_dirt [src_gone]
                     ltac:(reflexivity)))|].
  reflexivity.
Defined.

(** ** The play-time filter *)

(** The [minecraft:custom] -> [minecraft:play_time] entry of a stats tree. *)
Definition play_time_entry (stats : list (string * json)) : option json :=
  match Json.dict_get "minecraft:custom" stats with
  | Some (JDict d) => Json.dict_get "minecraft:play_time" d
  | _ => None
  end.

Lemma play_time_of_entry stats :
  Importer.play_time_of stats
  = match play_time_entry stats with
    | Some v => default 0 (Json.py_int v)
    | None => 0
    end.
Proof.
  unfold Importer.play_time_of, play_time_entry.
  destruct (Json.dict_get "minecraft:custom" stats) as [[]|]; try done.
  by destruct (Json.dict_get "minecraft:play_time" kv).
Qed.

Definition args_default : args :=
  {| min_play_ticks := 72000; dry_run := false;
     flush_seen_n := 2000; flush_profiles_n := 2000; flush_changed_n := 800;
     king_metric_id := "king"; king_points := "5,3,1"; no_king := false |}.

Definition file_idle : stats_file :=
  {| sf_uuid := Some id_a;
     sf_raw := Some (JDict [("stats", JDict [("minecraft:custom", JDict [("minecraft:jump", JInt 4)])])]) |}.

Definition db_empty : database :=
  {| site_state := Some None; import_run := []; import_run_next := 1;
     metric_def := []; player_profile := []; player_stats := [];
     metric_value := []; metric_award := None |}.

(** C10. A file whose stats tree has no [minecraft:custom] ->
    [minecraft:play_time] entry, or one that does not convert to an
    integer, has play time 0; under a positive threshold the step leaves
    the tables, the seen set, the hash map and every buffer as they were
    and only counts the file as processed. *)
Theorem missing_play_time_not_kept a e rid profiles msrc st f raw :
  sf_raw f = Some raw →
  match play_time_entry (Importer.stats_of_raw raw) with
  | None => True
  | Some v => Json.py_int v = None
  end →
  Importer.play_time_of (Importer.stats_of_raw raw) = 0 ∧
  (0 < min_play_ticks a →
   Importer.process_file a e rid profiles msrc st f
   = Importer.set_counters (processed st + 1) (kept st) (changed st) st).
Proof.
  intros Hraw Hentry.
  assert (Importer.play_time_of (Importer.stats_of_raw raw) = 0) as Hpt.
  { rewrite play_time_of_entry.
    destruct (play_time_entry _); [by rewrite Hentry|done]. }
  split; [done|]. intros Hmin.
  unfold Importer.process_file. rewrite Hraw, Hpt.
  destruct (sf_uuid f); [|done]. destruct (decide _); [done|].
  by destruct (Z.ltb_spec 0 (min_play_ticks a)); [|lia].
Qed.

Lemma missing_play_time_not_kept_witness :
  Importer.play_time_of
    (Importer.stats_of_raw (JDict [("stats", JDict [("minecraft:custom", JDict [("minecraft:jump", JInt 4)])])])) = 0 ∧
  (0 < min_play_ticks args_default →
   Importer.process_file args_default env_bare 1 ∅ [] (Importer.init_state 1 db_empty) file_idle
   = Importer.set_counters (processed (Importer.init_state 1 db_empty) + 1)
       (kept (Importer.init_state 1 db_empty)) (changed (Importer.init_state 1 db_empty))
       (Importer.init_state 1 db_empty)).
Proof.
  apply (missing_play_time_not_kept args_default env_bare 1 ∅ [] (Importer.init_state 1 db_empty)
           file_idle _ eq_refl).
  exact I.
Defined.

(** ** Hash-skip *)

Ltac unfold_state :=
  unfold Importer.flush_all, Importer.flush_changed_batch, Importer.flush_profiles,
    Importer.flush_seen, Importer.set_changed_bufs, Importer.set_profile_buf,
    Importer.set_seen, Importer.set_db, Importer.set_counters,
    Importer.set_existing_hash in *.

(** The two steps taken for every kept player leave the change-detection
    side of the state alone. *)
Definition same_stats_side (st st' : pass_state) : Prop :=
  existing_hash st' = existing_hash st ∧
  processed st' = processed st ∧ kept st' = kept st ∧ changed st' = changed st ∧
  changed_uuids st' = changed_uuids st ∧ stats_buf st' = stats_buf st ∧
  metric_buf st' = metric_buf st ∧
  player_stats (db st') = player_stats (db st) ∧
  metric_value (db st') = metric_value (db st) ∧
  metric_award (db st') = metric_award (db st) ∧
  metric_def (db st') = metric_def (db st) ∧
  import_run (db st') = import_run (db st) ∧
  import_run_next (db st') = import_run_next (db st) ∧
  site_state (db st') = site_state (db st).

Lemma same_stats_side_refl st : same_stats_side st st.
Proof. by repeat split. Qed.

Lemma same_stats_side_trans st1 st2 st3 :
  same_stats_side st1 st2 → same_stats_side st2 st3 → same_stats_side st1 st3.
Proof. unfold same_stats_side. intros. destruct_and!. repeat split; congruence. Qed.

Lemma buffer_seen_stats_side a u st : same_stats_side st (Importer.buffer_seen a u st).
Proof.
  unfold Importer.buffer_seen. destruct (dry_run a); [apply same_stats_side_refl|].
  destruct (_ <=? _); unfold_state; simpl;
    repeat case_match; by repeat split.
Qed.

Lemma buffer_seen_profiles a u st :
  profile_buf (Importer.buffer_seen a u st) = profile_buf st ∧
  db (Importer.buffer_seen a u st) = db st.
Proof.
  unfold Importer.buffer_seen. destruct (dry_run a); [done|].
  destruct (_ <=? _); unfold_state; simpl; repeat case_match; done.
Qed.

(** The seen set of the pass so far: flushed or still buffered. *)
Definition seen_all (st : pass_state) : gset bytes :=
  tmp_seen st ∪ list_to_set (seen_buf st).

Lemma flush_seen_all st : seen_all (Importer.flush_seen st) = seen_all st.
Proof.
  unfold Importer.flush_seen, seen_all. destruct (seen_buf st) eqn:E; [by rewrite E|].
  simpl. set_solver.
Qed.

Lemma buffer_seen_all a u st :
  dry_run a = false → seen_all (Importer.buffer_seen a u st) = seen_all st ∪ {[u]}.
Proof.
  intros Hd. unfold Importer.buffer_seen. rewrite Hd.
  destruct (_ <=? _); rewrite ?flush_seen_all; unfold seen_all; simpl;
    rewrite list_to_set_app_L; set_solver.
Qed.

Lemma buffer_seen_elem a u st :
  dry_run a = false →
  u ∈ seen_buf (Importer.buffer_seen a u st) ∨ u ∈ tmp_seen (Importer.buffer_seen a u st).
Proof.
  intros Hd. pose proof (buffer_seen_all a u st Hd) as H.
  assert (u ∈ seen_all (Importer.buffer_seen a u st)) as Hu by (rewrite H; set_solver).
  unfold seen_all in Hu. set_solver.
Qed.

Lemma buffer_profile_stats_side a e t st :
  same_stats_side st (Importer.buffer_profile a e t st).
Proof.
  unfold Importer.buffer_profile. destruct (dry_run a); [apply same_stats_side_refl|].
  destruct (_ <=? _); unfold_state; simpl;
    repeat case_match; by repeat split.
Qed.

Lemma buffer_profile_seen a e t st :
  seen_buf (Importer.buffer_profile a e t st) = seen_buf st ∧
  tmp_seen (Importer.buffer_profile a e t st) = tmp_seen st.
Proof.
  unfold Importer.buffer_profile. destruct (dry_run a); [done|].
  destruct (_ <=? _); unfold_state; simpl; repeat case_match; done.
Qed.

(** A row of [player_profile] carries what the tuple [t] wrote. *)
Definition profile_written (t : profile_tuple) (r : profile_row) : Prop :=
  pp_run r = pt_run t ∧ pp_uuid r = pt_uuid t ∧ pp_name r = pt_name t ∧
  pp_name_lc r = pt_name_lc t ∧ pp_last_seen r = pt_last_seen t.

Lemma upsert_profile_written hs hc t tbl :
  ∃ r, r ∈ Importer.upsert_profile hs hc t tbl ∧ profile_written t r.
Proof.
  induction tbl as [|r0 rest IH]; simpl.
  - eexists. split; [left|]. by repeat split.
  - destruct (_ && _) eqn:E.
    + eexists. split; [left|]. apply andb_prop in E as [E1 E2].
      apply Z.eqb_eq in E1. apply String.eqb_eq in E2. by repeat split.
    + destruct IH as (r & Hr & Hw). exists r. split; [by right|done].
Qed.

Lemma buffer_profile_elem a e t st :
  dry_run a = false →
  t ∈ profile_buf (Importer.buffer_profile a e t st) ∨
  ∃ r, r ∈ player_profile (db (Importer.buffer_profile a e t st)) ∧ profile_written t r.
Proof.
  intros Hd. unfold Importer.buffer_profile. rewrite Hd.
  destruct (_ <=? _); unfold_state; simpl.
  - right. destruct (profile_buf st ++ [t]) eqn:E; [by destruct (profile_buf st)|].
    match goal with
    | |- context [fold_left ?f l (Importer.upsert_profile ?hs ?hc p ?tbl)] =>
        change (fold_left f l (Importer.upsert_profile hs hc p tbl))
          with (fold_left f (p :: l) tbl)
    end.
    rewrite <-E, fold_left_app. simpl. apply upsert_profile_written.
  - left. set_solver.
Qed.

Definition args_dry : args :=
  {| min_play_ticks := 0; dry_run := true;
     flush_seen_n := 2000; flush_profiles_n := 2000; flush_changed_n := 800;
     king_metric_id := "king"; king_points := "5,3,1"; no_king := false |}.

Definition args_live : args :=
  {| min_play_ticks := 0; dry_run := false;
     flush_seen_n := 2000; flush_profiles_n := 2000; flush_changed_n := 800;
     king_metric_id := "king"; king_points := "5,3,1"; no_king := false |}.

Definition stats_a : list (string * json) :=
  [("minecraft:custom", JDict [("minecraft:play_time", JInt 90000)]);
   ("minecraft:mined", JDict [("minecraft:stone", JInt 10)])].

(** A state in which the digest stored for [id_a] is that of [stats_a]. *)
Definition st_known : pass_state :=
  {| db := db_empty; tmp_seen := ∅;
     existing_hash := {[ id_a := Sha1.sha1 (Importer.canonical_bytes stats_a) ]};
     processed := 1; kept := 1; changed := 0;
     seen_buf := []; profile_buf := []; changed_uuids := [];
     stats_buf := []; metric_buf := [] |}.

(** C1, as stated, fails in a dry run: a player whose digest matches is
    added to no seen set and no profile is buffered or written. *)
Lemma hash_skip_dry_run_no_seen :
  existing_hash st_known !! id_a = Some (Sha1.sha1 (Importer.canonical_bytes stats_a)) ∧
  Importer.process_kept args_dry env_bare 1 ∅ [] id_a stats_a st_known = st_known ∧
  id_a ∉ seen_buf st_known ∧ id_a ∉ tmp_seen st_known ∧
  profile_buf st_known = [] ∧ player_profile (db st_known) = [].
Proof.
  split; [apply lookup_singleton_eq|].
  split; [|repeat split; set_solver].
  unfold Importer.process_kept, Importer.buffer_profile, Importer.buffer_seen. simpl.
  rewrite decide_True; [done|apply lookup_singleton_eq].
Qed.

(** C1, amended. A kept player whose canonical bytes hash to the digest
    the in-memory map holds for them causes no [player_stats] write, no
    metric computation and no [metric_value] write: the changed count, the
    map, the three changed-player buffers and both tables stay as they
    were. Unless the run is a dry run, the player is added to the seen set
    (buffered or flushed) and their profile tuple is buffered or upserted. *)
Theorem hash_skip a e rid profiles msrc u stats st :
  existing_hash st !! u = Some (Sha1.sha1 (Importer.canonical_bytes stats)) →
  same_stats_side st (Importer.process_kept a e rid profiles msrc u stats st) ∧
  (dry_run a = false →
   (u ∈ seen_buf (Importer.process_kept a e rid profiles msrc u stats st) ∨
    u ∈ tmp_seen (Importer.process_kept a e rid profiles msrc u stats st)) ∧
   (Importer.profile_tuple_of e rid profiles u
      ∈ profile_buf (Importer.process_kept a e rid profiles msrc u stats st) ∨
    ∃ r, r ∈ player_profile (db (Importer.process_kept a e rid profiles msrc u stats st)) ∧
         profile_written (Importer.profile_tuple_of e rid profiles u) r)).
Proof.
  intros Hh. unfold Importer.process_kept.
  set (t := Importer.profile_tuple_of e rid profiles u).
  set (st1 := Importer.buffer_seen a u st).
  set (st2 := Importer.buffer_profile a e t st1).
  assert (same_stats_side st st2) as Hs.
  { eapply same_stats_side_trans;
      [apply buffer_seen_stats_side|apply buffer_profile_stats_side]. }
  rewrite decide_True; [|destruct Hs as [-> _]; done].
  split; [done|]. intros Hd. split.
  - destruct (buffer_profile_seen a e t st1) as [E1 E2]. fold st2 in E1, E2.
    rewrite E1, E2. by apply buffer_seen_elem.
  - by apply buffer_profile_elem.
Qed.

Lemma hash_skip_witness :
  same_stats_side st_known
    (Importer.process_kept args_live env_bare 1 ∅ [] id_a stats_a st_known) ∧
  (dry_run args_live = false →
   (id_a ∈ seen_buf (Importer.process_kept args_live env_bare 1 ∅ [] id_a stats_a st_known) ∨
    id_a ∈ tmp_seen (Importer.process_kept args_live env_bare 1 ∅ [] id_a stats_a st_known)) ∧
   (Importer.profile_tuple_of env_bare 1 ∅ id_a
      ∈ profile_buf (Importer.process_kept args_live env_bare 1 ∅ [] id_a stats_a st_known) ∨
    ∃ r, r ∈ player_profile
               (db (Importer.process_kept args_live env_bare 1 ∅ [] id_a stats_a st_known)) ∧
         profile_written (Importer.profile_tuple_of env_bare 1 ∅ id_a) r)).
Proof.
  apply (hash_skip args_live env_bare 1 ∅ [] id_a stats_a st_known).
  apply lookup_singleton_eq.
Defined.

(** ** Dry run *)

Definition file_a : stats_file :=
  {| sf_uuid := Some id_a; sf_raw := Some (JDict [("stats", JDict stats_a)]) |}.

Definition env_one : env :=
  {| stats_files := [file_a]; name_map := ∅; excluded := ∅;
     has_source := true; has_checked := true;
     metric_source_rows := [("blocks", "minecraft:mined", "minecraft:stone", 1)];
     now_ts := "2024-01-01 00:00:00"; db_now := "2024-01-01 00:00:00" |}.

Definition db_active : database :=
  {| site_state := Some (Some 1);
     import_run := [{| ir_id := 1; ir_generated_at := "2023-12-31 00:00:00";
                       ir_status := "active" |}];
     import_run_next := 2;
     metric_def := []; player_profile := []; player_stats := [];
     metric_value := []; metric_award := None |}.

(** C6 fails on the code. A dry run writes to the store through
    [ensure_run_id], which runs before the dry-run switch is read: with no
    active run it inserts an [import_run] row and sets
    [site_state.active_run_id]; with an active run it overwrites that run's
    [generated_at]. Nor does it compute what a normal run computes: the
    metric rows of a changed player are never built. *)
Lemma dry_run_writes_run_tables :
  dry_run args_dry = true ∧
  final_db (Importer.main args_dry env_one db_empty) ≠ db_empty ∧
  import_run (final_db (Importer.main args_dry env_one db_empty))
  = [{| ir_id := 1; ir_generated_at := "2024-01-01 00:00:00"; ir_status := "active" |}] ∧
  site_state (final_db (Importer.main args_dry env_one db_empty)) = Some (Some 1) ∧
  final_db (Importer.main args_dry env_one db_active) ≠ db_active ∧
  import_run (final_db (Importer.main args_dry env_one db_active))
  = [{| ir_id := 1; ir_generated_at := "2024-01-01 00:00:00"; ir_status := "active" |}] ∧
  metric_buf (Importer.scan args_dry env_one 1 db_active) = [] ∧
  metric_buf (Importer.scan args_live env_one 1 db_active)
  = [(1, "blocks", id_a, 10)].
Proof.
  repeat split; try (vm_compute; reflexivity); vm_compute; discriminate.
Qed.

(** ** The seen set and the cleanup *)

(** The id of a file the pass keeps: a valid, not excluded uuid, a
    document that parses, and play time at or above the threshold. *)
Definition kept_id (a : args) (e : env) (f : stats_file) : option bytes :=
  match sf_uuid f, sf_raw f with
  | Some u, Some raw =>
      if decide (u ∈ excluded e) then None
      else if Importer.play_time_of (Importer.stats_of_raw raw) <? min_play_ticks a
           then None else Some u
  | _, _ => None
  end.

Definition kept_ids (a : args) (e : env) : list bytes :=
  omap (kept_id a e) (stats_files e).

Lemma buffer_profile_seen_all a e t st :
  seen_all (Importer.buffer_profile a e t st) = seen_all st.
Proof.
  unfold seen_all. by destruct (buffer_profile_seen a e t st) as [-> ->].
Qed.

Lemma flush_changed_batch_seen now rid st :
  seen_buf (Importer.flush_changed_batch now rid st) = seen_buf st ∧
  tmp_seen (Importer.flush_changed_batch now rid st) = tmp_seen st.
Proof. unfold Importer.flush_changed_batch. by destruct (changed_uuids st). Qed.

Lemma record_changed_seen_all a e rid msrc u stats jb sha st :
  seen_all (Importer.record_changed a e rid msrc u stats jb sha st) = seen_all st.
Proof.
  unfold Importer.record_changed, seen_all.
  destruct (dry_run a); [done|].
  destruct (_ <=? _); [|done].
  match goal with
  | |- context [Importer.flush_changed_batch ?n ?r ?s] =>
      by destruct (flush_changed_batch_seen n r s) as [-> ->]
  end.
Qed.

Lemma process_kept_seen_all a e rid profiles msrc u stats st :
  dry_run a = false →
  seen_all (Importer.process_kept a e rid profiles msrc u stats st) = seen_all st ∪ {[u]}.
Proof.
  intros Hd. unfold Importer.process_kept.
  destruct (decide _); rewrite ?record_changed_seen_all, buffer_profile_seen_all;
    by apply buffer_seen_all.
Qed.

Lemma process_file_seen_all a e rid profiles msrc st f :
  dry_run a = false →
  seen_all (Importer.process_file a e rid profiles msrc st f)
  = seen_all st ∪ list_to_set (option_list (kept_id a e f)).
Proof.
  intros Hd. unfold Importer.process_file, kept_id.
  destruct (sf_uuid f) as [u|]; [|set_solver].
  destruct (sf_raw f) as [raw|]; [|destruct (decide _); set_solver].
  destruct (decide _); [set_solver|].
  destruct (_ <? _); [set_solver|].
  rewrite process_kept_seen_all by done. set_solver.
Qed.

Lemma fold_process_file_seen_all a e rid profiles msrc files st :
  dry_run a = false →
  seen_all (fold_left (Importer.process_file a e rid profiles msrc) files st)
  = seen_all st ∪ list_to_set (omap (kept_id a e) files).
Proof.
  intros Hd. revert st. induction files as [|f r IH]; intros st; simpl; [set_solver|].
  rewrite IH, process_file_seen_all by done.
  destruct (kept_id a e f); set_solver.
Qed.

Lemma flush_all_seen e rid st :
  tmp_seen (Importer.flush_all e rid st) = seen_all st.
Proof.
  unfold Importer.flush_all.
  destruct (flush_changed_batch_seen (db_now e) rid
    (Importer.flush_profiles (has_source e) (has_checked e) (Importer.flush_seen st)))
    as [_ ->].
  assert (∀ s, tmp_seen (Importer.flush_profiles (has_source e) (has_checked e) s)
               = tmp_seen s) as ->.
  { intros s. unfold Importer.flush_profiles. by destruct (profile_buf s). }
  rewrite <-flush_seen_all. unfold seen_all, Importer.flush_seen.
  destruct (seen_buf st) eqn:E; simpl; [rewrite E|]; set_solver.
Qed.

Lemma not_and_unseen (P : Prop) (u : bytes) (s : gset bytes) :
  ¬ (P ∧ u ∉ s) ↔ (P → u ∈ s).
Proof. destruct (decide (u ∈ s)); naive_solver. Qed.

(** C3. After the cleanup of a run that is no dry run, the seen set is
    the set of ids the pass kept, and each of [player_profile],
    [player_stats] and [metric_value] holds exactly its former rows minus
    the rows of this run whose uuid is not in the seen set: no such row is
    left, and no row of a seen player is deleted. *)
Theorem cleanup_removes_exactly_unseen a e rid d :
  dry_run a = false →
  let st := Importer.flush_all e rid (Importer.scan a e rid d) in
  let d' := Importer.cleanup rid (tmp_seen st) (db st) in
  tmp_seen st = list_to_set (kept_ids a e) ∧
  (∀ r, r ∈ player_profile d' ↔
        r ∈ player_profile (db st) ∧ (pp_run r = rid → pp_uuid r ∈ tmp_seen st)) ∧
  (∀ r, r ∈ player_stats d' ↔
        r ∈ player_stats (db st) ∧ (ps_run r = rid → ps_uuid r ∈ tmp_seen st)) ∧
  (∀ r, r ∈ metric_value d' ↔
        r ∈ metric_value (db st) ∧ (mv_run r = rid → mv_uuid r ∈ tmp_seen st)).
Proof.
  intros Hd st d'. split.
  - unfold st. rewrite flush_all_seen. unfold Importer.scan.
    rewrite fold_process_file_seen_all by done.
    unfold seen_all, kept_ids. simpl. set_solver.
  - unfold d', Importer.cleanup. simpl.
    split; [|split]; intros r; rewrite list_elem_of_filter, not_and_unseen; tauto.
Qed.

Lemma cleanup_removes_exactly_unseen_witness :
  let st := Importer.flush_all env_one 1 (Importer.scan args_live env_one 1 db_active) in
  let d' := Importer.cleanup 1 (tmp_seen st) (db st) in
  tmp_seen st = list_to_set (kept_ids args_live env_one) ∧
  (∀ r, r ∈ player_profile d' ↔
        r ∈ player_profile (db st) ∧ (pp_run r = 1 → pp_uuid r ∈ tmp_seen st)) ∧
  (∀ r, r ∈ player_stats d' ↔
        r ∈ player_stats (db st) ∧ (ps_run r = 1 → ps_uuid r ∈ tmp_seen st)) ∧
  (∀ r, r ∈ metric_value d' ↔
        r ∈ metric_value (db st) ∧ (mv_run r = 1 → mv_uuid r ∈ tmp_seen st)).
Proof.
  apply (cleanup_removes_exactly_unseen args_live env_one 1 db_active). reflexivity.
Defined.

(** ** The points metric *)

#[global] Instance mv_before_total : Total Importer.mv_before.
Proof.
  intros r1 r2. unfold Importer.mv_before.
  destruct (Z.lt_trichotomy (mv_value r1) (mv_value r2)) as [?|[E|?]]; [by right; left| |by left; left].
  destruct (total String.le (mv_uuid r1) (mv_uuid r2)); [left|right]; right; split; congruence.
Qed.

#[global] Instance mv_before_trans : Transitive Importer.mv_before.
Proof.
  intros r1 r2 r3 [H1|[E1 L1]] [H2|[E2 L2]]; unfold Importer.mv_before; try (left; lia).
  right. split; [lia|]. by etrans.
Qed.

(** The rows the query of [top3] selects from. *)
Definition positive_rows (rid : Z) (mid : string) (t : list mv_row) : list mv_row :=
  filter (fun r => mv_run r = rid ∧ mv_metric r = mid ∧ 0 < mv_value r) t.

(** The query returns the first three of the selected rows in the order
    value descending, uuid ascending. *)
Lemma top3_spec rid mid t :
  ∃ rest,
    Importer.top3 rid mid t ++ rest ≡ₚ positive_rows rid mid t ∧
    StronglySorted Importer.mv_before (Importer.top3 rid mid t ++ rest) ∧
    (length (Importer.top3 rid mid t) ≤ 3)%nat ∧
    (rest ≠ [] → length (Importer.top3 rid mid t) = 3%nat).
Proof.
  unfold Importer.top3. fold (positive_rows rid mid t).
  set (s := merge_sort Importer.mv_before (positive_rows rid mid t)).
  exists (drop 3 s). rewrite take_drop. repeat split.
  - apply merge_sort_Permutation.
  - apply StronglySorted_merge_sort; apply _.
  - rewrite length_take. lia.
  - intros Hne. rewrite length_take.
    destruct (decide (3 ≤ length s)%nat); [lia|].
    rewrite drop_ge in Hne by lia. done.
Qed.

(** [points_map.get(u, 0)] *)
Fixpoint pm_get (u : bytes) (pm : list (bytes * Z)) : Z :=
  match pm with
  | [] => 0
  | (k, p) :: r => if String.eqb k u then p else pm_get u r
  end.

Lemma add_points_get u p pm u' :
  pm_get u' (Importer.add_points u p pm)
  = pm_get u' pm + (if String.eqb u u' then p else 0).
Proof.
  induction pm as [|[k q] r IH]; simpl.
  - destruct (String.eqb u u'); lia.
  - destruct (String.eqb k u) eqn:E; simpl.
    + apply String.eqb_eq in E as ->. destruct (String.eqb u u'); lia.
    + destruct (String.eqb k u') eqn:E'; [|done].
      apply String.eqb_eq in E' as ->. rewrite String.eqb_sym, E. lia.
Qed.

Lemma add_points_keys u p pm k :
  k ∈ (Importer.add_points u p pm).*1 ↔ k = u ∨ k ∈ pm.*1.
Proof.
  induction pm as [|[k' q] r IH]; simpl; [set_solver|].
  destruct (String.eqb k' u) eqn:E; simpl.
  - apply String.eqb_eq in E as ->. set_solver.
  - rewrite !elem_of_cons, IH. tauto.
Qed.

Lemma add_points_NoDup u p pm :
  NoDup (pm.*1) → NoDup ((Importer.add_points u p pm).*1).
Proof.
  induction pm as [|[k' q] r IH]; simpl; intros Hnd.
  - repeat constructor. set_solver.
  - inv Hnd. destruct (String.eqb k' u) eqn:E; simpl; [by constructor|].
    constructor; [|by apply IH].
    rewrite add_points_keys. intros [->|?]; [|done].
    by rewrite String.eqb_refl in E.
Qed.

Lemma add_points_pos u p pm :
  0 < p → Forall (fun it => 0 < it.2) pm →
  Forall (fun it => 0 < it.2) (Importer.add_points u p pm).
Proof.
  intros Hp. induction 1 as [|[k q] r Hq Hr IH]; simpl.
  - by repeat constructor.
  - destruct (String.eqb k u); constructor; simpl in *; try done; lia.
Qed.

Lemma pm_get_elem u p pm : NoDup (pm.*1) → (u, p) ∈ pm → pm_get u pm = p.
Proof.
  induction pm as [|[k q] r IH]; simpl; intros Hnd Hin; [by inv Hin|].
  inv Hnd. inv Hin.
  - by rewrite String.eqb_refl.
  - destruct (String.eqb k u) eqn:E; [|by apply IH].
    apply String.eqb_eq in E as ->. exfalso.
    match goal with H : _ ∉ _ |- _ => apply H end.
    by apply (list_elem_of_fmap_2 fst _ (u, p)).
Qed.

Lemma pm_get_pos u pm : 0 < pm_get u pm → (u, pm_get u pm) ∈ pm.
Proof.
  induction pm as [|[k q] r IH]; simpl; [lia|].
  destruct (String.eqb k u) eqn:E.
  - apply String.eqb_eq in E as ->. left.
  - right. by apply IH.
Qed.

(** What rank [i] (from 0) of a metric awards: the configured points of
    that rank when positive, nothing for a rank beyond the list or with
    points that are zero or negative. *)
Definition rank_award (award_points : list Z) (i : nat) : Z :=
  match award_points !! i with
  | Some pts => if pts <=? 0 then 0 else pts
  | None => 0
  end.

(** The points player [u] takes from the ranked rows of one metric,
    [rows] starting at rank [i]. *)
Fixpoint awards_from (award_points : list Z) (i : nat) (rows : list mv_row)
  (u : bytes) : Z :=
  match rows with
  | [] => 0
  | r :: rest =>
      (if String.eqb (mv_uuid r) u then rank_award award_points i else 0)
      + awards_from award_points (S i) rest u
  end.

(** The accumulated points of player [u] over all metrics but [king]. *)
Definition points_total (rid : Z) (metric_ids : list string) (king : string)
  (award_points : list Z) (t : list mv_row) (u : bytes) : Z :=
  foldr Z.add 0
    (map (fun mid => if String.eqb mid king then 0
                     else awards_from award_points 0 (Importer.top3 rid mid t) u)
       metric_ids).

Lemma awards_from_beyond award_points i rows u :
  award_points !! i = None → awards_from award_points i rows u = 0.
Proof.
  revert i. induction rows as [|r rest IH]; intros i Hi; simpl; [done|].
  unfold rank_award. rewrite Hi, IH.
  - by destruct (String.eqb _ _).
  - apply lookup_ge_None. apply lookup_ge_None in Hi. lia.
Qed.

Definition pm_ok (pm : list (bytes * Z)) : Prop :=
  NoDup (pm.*1) ∧ Forall (fun it => 0 < it.2) pm.

Lemma award_loop_spec award_points store rid mid rows :
  ∀ i acc,
    pm_ok acc.1 →
    pm_ok (Importer.award_loop award_points store rid mid i rows acc).1 ∧
    ∀ u, pm_get u (Importer.award_loop award_points store rid mid i rows acc).1
         = pm_get u acc.1 + awards_from award_points i rows u.
Proof.
  induction rows as [|r rest IH]; intros i acc Hok; simpl.
  - split; [done|]. intros; lia.
  - destruct (award_points !! i) as [pts|] eqn:Hi.
    + destruct (Z.leb_spec pts 0) as [Hle|Hgt].
      * destruct (IH (S i) acc Hok) as [Hok' Hget]. split; [done|].
        intros u. rewrite Hget. unfold rank_award. rewrite Hi.
        destruct (Z.leb_spec pts 0); [|lia]. destruct (String.eqb _ _); lia.
      * match goal with
        | |- context [Importer.award_loop _ _ _ _ _ _ ?acc'] =>
            destruct (IH (S i) acc') as [Hok' Hget]
        end.
        { destruct Hok. split; [by apply add_points_NoDup|by apply add_points_pos]. }
        split; [done|]. intros u. rewrite Hget. simpl. rewrite add_points_get.
        unfold rank_award. rewrite Hi. destruct (Z.leb_spec pts 0); [lia|]. lia.
    + split; [done|]. intros u.
      pose proof (awards_from_beyond award_points i (r :: rest) u Hi) as H0.
      simpl in H0. rewrite H0. lia.
Qed.

Lemma king_awards_spec rid metric_ids king award_points store t :
  pm_ok (Importer.king_awards rid metric_ids king award_points store t).1 ∧
  ∀ u, pm_get u (Importer.king_awards rid metric_ids king award_points store t).1
       = points_total rid metric_ids king award_points t u.
Proof.
  unfold Importer.king_awards, points_total.
  assert (∀ acc, pm_ok acc.1 →
            pm_ok (fold_left
                     (fun acc mid =>
                        if String.eqb mid king then acc
                        else Importer.award_loop award_points store rid mid 0
                               (Importer.top3 rid mid t) acc) metric_ids acc).1 ∧
            ∀ u, pm_get u (fold_left
                     (fun acc mid =>
                        if String.eqb mid king then acc
                        else Importer.award_loop award_points store rid mid 0
                               (Importer.top3 rid mid t) acc) metric_ids acc).1
                 = pm_get u acc.1
                   + foldr Z.add 0
                       (map (fun mid => if String.eqb mid king then 0
                                        else awards_from award_points 0
                                               (Importer.top3 rid mid t) u) metric_ids)) as H.
  { induction metric_ids as [|mid r IH]; intros acc Hok; simpl.
    - split; [done|]. intros; lia.
    - destruct (String.eqb mid king).
      + destruct (IH acc Hok) as [H1 H2]. split; [done|]. intros u. rewrite H2. lia.
      + destruct (award_loop_spec award_points store rid mid (Importer.top3 rid mid t) 0 acc Hok)
          as [Hok1 Hg1].
        destruct (IH _ Hok1) as [H1 H2]. split; [done|]. intros u.
        rewrite H2, Hg1. lia. }
  destruct (H ([], [])) as [H1 H2]; [split; simpl; constructor|].
  split; [done|]. intros u. rewrite H2. simpl. lia.
Qed.

Lemma king_rows_map rid king pm :
  Forall (fun it => 0 < it.2) pm →
  Importer.king_rows rid king pm
  = map (fun it => {| mv_run := rid; mv_metric := king; mv_uuid := it.1; mv_value := it.2 |}) pm.
Proof.
  unfold Importer.king_rows. induction 1 as [|[u p] r Hp _ IH]; [done|].
  csimpl in *. destruct (Z.ltb_spec 0 p); [|lia]. csimpl. by rewrite IH.
Qed.

Lemma award_loop_store award_points s1 s2 rid mid rows :
  ∀ i acc1 acc2, acc1.1 = acc2.1 →
    (Importer.award_loop award_points s1 rid mid i rows acc1).1
    = (Importer.award_loop award_points s2 rid mid i rows acc2).1.
Proof.
  induction rows as [|r rest IH]; intros i acc1 acc2 E; simpl; [done|].
  destruct (award_points !! i); [|done].
  destruct (_ <=? _); apply IH; simpl; congruence.
Qed.

Lemma king_awards_store rid metric_ids king award_points s1 s2 t :
  (Importer.king_awards rid metric_ids king award_points s1 t).1
  = (Importer.king_awards rid metric_ids king award_points s2 t).1.
Proof.
  unfold Importer.king_awards.
  assert (∀ acc1 acc2 : list (bytes * Z) * list award_row, acc1.1 = acc2.1 →
    (fold_left (fun acc mid => if String.eqb mid king then acc
                 else Importer.award_loop award_points s1 rid mid 0
                        (Importer.top3 rid mid t) acc) metric_ids acc1).1
    = (fold_left (fun acc mid => if String.eqb mid king then acc
                 else Importer.award_loop award_points s2 rid mid 0
                        (Importer.top3 rid mid t) acc) metric_ids acc2).1) as H.
  { induction metric_ids as [|mid r IH]; intros acc1 acc2 E; simpl; [done|].
    apply IH. destruct (String.eqb mid king); [done|]. by apply award_loop_store. }
  by apply H.
Qed.

Lemma king_awards_ext rid metric_ids king award_points store t1 t2 :
  (∀ mid, mid ≠ king → Importer.top3 rid mid t1 = Importer.top3 rid mid t2) →
  Importer.king_awards rid metric_ids king award_points store t1
  = Importer.king_awards rid metric_ids king award_points store t2.
Proof.
  intros H. unfold Importer.king_awards.
  generalize (@nil (bytes * Z), @nil award_row).
  induction metric_ids as [|mid r IH]; intros acc; simpl; [done|].
  destruct (String.eqb mid king) eqn:E; [done|].
  rewrite H; [done|]. intros ->. by rewrite String.eqb_refl in E.
Qed.

(** The rows of [metric_value] other than those of [king] in run [rid]. *)
Definition other_rows (rid : Z) (king : string) (t : list mv_row) : list mv_row :=
  filter (fun r => ¬ (mv_run r = rid ∧ mv_metric r = king)) t.

(** The rows of [king] in run [rid]. *)
Definition king_rows_of (rid : Z) (king : string) (t : list mv_row) : list mv_row :=
  filter (fun r => mv_run r = rid ∧ mv_metric r = king) t.

Lemma top3_other_rows rid king mid t :
  mid ≠ king → Importer.top3 rid mid (other_rows rid king t) = Importer.top3 rid mid t.
Proof.
  intros Hne. unfold Importer.top3, other_rows. do 2 f_equal.
  rewrite list_filter_filter. apply list_filter_iff. intros r. naive_solver.
Qed.

Lemma king_awards_other_rows rid metric_ids king award_points store t :
  Importer.king_awards rid metric_ids king award_points store (other_rows rid king t)
  = Importer.king_awards rid metric_ids king award_points store t.
Proof. apply king_awards_ext. intros. by apply top3_other_rows. Qed.

Lemma points_total_other_rows rid metric_ids king award_points t u :
  points_total rid metric_ids king award_points (other_rows rid king t) u
  = points_total rid metric_ids king award_points t u.
Proof.
  unfold points_total. f_equal. apply map_ext. intros mid.
  destruct (String.eqb mid king) eqn:E; [done|]. rewrite top3_other_rows; [done|].
  intros ->. by rewrite String.eqb_refl in E.
Qed.

Lemma ensure_king_metric_frame king d :
  site_state (Importer.ensure_king_metric king d) = site_state d ∧
  import_run (Importer.ensure_king_metric king d) = import_run d ∧
  import_run_next (Importer.ensure_king_metric king d) = import_run_next d ∧
  player_profile (Importer.ensure_king_metric king d) = player_profile d ∧
  player_stats (Importer.ensure_king_metric king d) = player_stats d ∧
  metric_value (Importer.ensure_king_metric king d) = metric_value d ∧
  metric_award (Importer.ensure_king_metric king d) = metric_award d.
Proof. unfold Importer.ensure_king_metric. by destruct (existsb _ _). Qed.

Lemma ensure_king_metric_has king d :
  existsb (fun r => String.eqb (md_id r) king)
    (metric_def (Importer.ensure_king_metric king d)) = true.
Proof.
  unfold Importer.ensure_king_metric.
  destruct (existsb _ (metric_def d)) eqn:E; [done|]. simpl.
  rewrite existsb_app. simpl. by rewrite String.eqb_refl, orb_true_r.
Qed.

(** The tables after [recompute_king_points], field by field. *)
Lemma recompute_king_points_fields rid metric_ids king award_points d :
  let d' := Importer.recompute_king_points rid metric_ids king award_points d in
  site_state d' = site_state d ∧ import_run d' = import_run d ∧
  import_run_next d' = import_run_next d ∧
  player_profile d' = player_profile d ∧ player_stats d' = player_stats d ∧
  metric_def d' = metric_def (Importer.ensure_king_metric king d) ∧
  metric_value d'
  = other_rows rid king (metric_value d)
    ++ Importer.king_rows rid king
         (Importer.king_awards rid metric_ids king award_points true (metric_value d)).1 ∧
  metric_award d'
  = (fun old => filter (fun r => aw_run r ≠ rid) old
                ++ (Importer.king_awards rid metric_ids king award_points true
                      (metric_value d)).2) <$> metric_award d.
Proof.
  intros d'. unfold d', Importer.recompute_king_points.
  destruct (ensure_king_metric_frame king d) as (E1 & E2 & E3 & E4 & E5 & E6 & E7).
  set (d0 := Importer.ensure_king_metric king d) in *.
  unfold Importer.king_reset. simpl. rewrite E6, E7.
  fold (other_rows rid king (metric_value d)).
  rewrite king_awards_other_rows.
  destruct (metric_award d) as [old|] eqn:Ha; simpl.
  - destruct (Importer.king_awards rid metric_ids king award_points true (metric_value d))
      as [pm aw] eqn:Ek.
    destruct aw, pm; simpl; rewrite ?app_nil_r, ?Ha; simpl; rewrite ?app_nil_r; by repeat split.
  - rewrite <-(king_awards_store rid metric_ids king award_points false true).
    assert ((Importer.king_awards rid metric_ids king award_points false (metric_value d)).2 = [])
      as Haw.
    { unfold Importer.king_awards.
      assert (∀ acc : list (bytes * Z) * list award_row, acc.2 = [] →
        (fold_left (fun acc mid => if String.eqb mid king then acc
                 else Importer.award_loop award_points false rid mid 0
                        (Importer.top3 rid mid (metric_value d)) acc) metric_ids acc).2 = []) as H.
      { induction metric_ids as [|mid r IH]; intros acc Hacc; simpl; [done|].
        apply IH. destruct (String.eqb mid king); [done|].
        clear IH. revert acc Hacc. generalize 0%nat.
        induction (Importer.top3 rid mid (metric_value d)) as [|x xs IHx];
          intros i acc Hacc; simpl; [done|].
        destruct (award_points !! i); [|done]. destruct (_ <=? _); by apply IHx. }
      by apply H. }
    destruct (Importer.king_awards rid metric_ids king award_points false (metric_value d))
      as [pm aw] eqn:Ek.
    simpl in Haw. subst aw.
    destruct pm; simpl; rewrite ?app_nil_r, ?Ha; by repeat split.
Qed.

Lemma filter_all {A} (P : A → Prop) `{∀ x, Decision (P x)} (l : list A) :
  Forall P l → filter P l = l.
Proof.
  induction 1 as [|x r Hx _ IH]; [done|].
  rewrite filter_cons_True by done. by rewrite IH.
Qed.

Lemma filter_none {A} (P : A → Prop) `{∀ x, Decision (P x)} (l : list A) :
  Forall (fun x => ¬ P x) l → filter P l = [].
Proof.
  induction 1 as [|x r Hx _ IH]; [done|].
  by rewrite filter_cons_False.
Qed.

Lemma king_rows_are_king rid king pm :
  Forall (fun r => mv_run r = rid ∧ mv_metric r = king) (Importer.king_rows rid king pm).
Proof.
  apply Forall_forall. intros r Hr. unfold Importer.king_rows in Hr.
  apply list_elem_of_omap in Hr as (it & _ & Hit).
  destruct (0 <? it.2); by simplify_eq.
Qed.

Lemma other_rows_recomputed rid king t pm :
  other_rows rid king (other_rows rid king t ++ Importer.king_rows rid king pm)
  = other_rows rid king t.
Proof.
  unfold other_rows at 1. rewrite filter_app.
  rewrite (filter_none _ (Importer.king_rows rid king pm)), app_nil_r.
  - apply filter_all. apply Forall_forall. intros r Hr.
    unfold other_rows in Hr. by apply list_elem_of_filter in Hr as [? _].
  - eapply Forall_impl; [apply king_rows_are_king|]. naive_solver.
Qed.

Lemma king_rows_of_recomputed rid king t pm :
  king_rows_of rid king (other_rows rid king t ++ Importer.king_rows rid king pm)
  = Importer.king_rows rid king pm.
Proof.
  unfold king_rows_of. rewrite filter_app.
  rewrite (filter_none _ (other_rows rid king t)); simpl.
  - apply filter_all, king_rows_are_king.
  - apply Forall_forall. intros r Hr.
    unfold other_rows in Hr. apply list_elem_of_filter in Hr as [? _]. naive_solver.
Qed.

Lemma award_loop_run award_points store rid mid rows :
  ∀ i acc, Forall (fun r => aw_run r = rid) acc.2 →
    Forall (fun r => aw_run r = rid)
      (Importer.award_loop award_points store rid mid i rows acc).2.
Proof.
  induction rows as [|r rest IH]; intros i acc Hacc; simpl; [done|].
  destruct (award_points !! i); [|done].
  destruct (_ <=? _); apply IH; [done|]. simpl.
  destruct store; [|done]. apply Forall_app. split; [done|]. by repeat constructor.
Qed.

Lemma king_awards_run rid metric_ids king award_points store t :
  Forall (fun r => aw_run r = rid)
    (Importer.king_awards rid metric_ids king award_points store t).2.
Proof.
  unfold Importer.king_awards.
  assert (∀ acc : list (bytes * Z) * list award_row,
    Forall (fun r => aw_run r = rid) acc.2 →
    Forall (fun r => aw_run r = rid)
      (fold_left (fun acc mid => if String.eqb mid king then acc
                 else Importer.award_loop award_points store rid mid 0
                        (Importer.top3 rid mid t) acc) metric_ids acc).2) as H.
  { induction metric_ids as [|mid r IH]; intros acc Hacc; simpl; [done|].
    apply IH. destruct (String.eqb mid king); [done|]. by apply award_loop_run. }
  apply H. constructor.
Qed.

Lemma database_eq d1 d2 :
  site_state d1 = site_state d2 → import_run d1 = import_run d2 →
  import_run_next d1 = import_run_next d2 → metric_def d1 = metric_def d2 →
  player_profile d1 = player_profile d2 → player_stats d1 = player_stats d2 →
  metric_value d1 = metric_value d2 → metric_award d1 = metric_award d2 → d1 = d2.
Proof. destruct d1, d2; simpl; intros; by subst. Qed.

Lemma recompute_king_points_idem rid metric_ids king award_points d :
  Importer.recompute_king_points rid metric_ids king award_points
    (Importer.recompute_king_points rid metric_ids king award_points d)
  = Importer.recompute_king_points rid metric_ids king award_points d.
Proof.
  set (d' := Importer.recompute_king_points rid metric_ids king award_points d).
  destruct (recompute_king_points_fields rid metric_ids king award_points d)
    as (E1 & E2 & E3 & E4 & E5 & E6 & E7 & E8).
  destruct (recompute_king_points_fields rid metric_ids king award_points d')
    as (F1 & F2 & F3 & F4 & F5 & F6 & F7 & F8).
  fold d' in E1, E2, E3, E4, E5, E6, E7, E8.
  assert (Importer.king_awards rid metric_ids king award_points true (metric_value d')
          = Importer.king_awards rid metric_ids king award_points true (metric_value d)) as Hk.
  { rewrite <-(king_awards_other_rows _ _ _ _ _ (metric_value d')), E7,
      other_rows_recomputed. apply king_awards_other_rows. }
  apply database_eq; try congruence.
  - rewrite F6. unfold Importer.ensure_king_metric.
    by rewrite E6, ensure_king_metric_has.
  - rewrite F7, Hk, E7. by rewrite other_rows_recomputed.
  - rewrite F8, Hk, E8. destruct (metric_award d) as [old|]; simpl; [|done].
    do 2 f_equal. rewrite filter_app.
    rewrite (filter_none _ (Importer.king_awards _ _ _ _ _ _).2), app_nil_r.
    + apply filter_all. apply Forall_forall. intros r Hr.
      by apply list_elem_of_filter in Hr as [? _].
    + eapply Forall_impl; [apply king_awards_run|]. naive_solver.
Qed.

(** One player ranked first in one metric and second in another, the
    second rank being configured with negative points. *)
Definition mv_two_metrics : list mv_row :=
  [{| mv_run := 1; mv_metric := "mined"; mv_uuid := id_a; mv_value := 10 |};
   {| mv_run := 1; mv_metric := "mined"; mv_uuid := id_b; mv_value := 5 |};
   {| mv_run := 1; mv_metric := "walked"; mv_uuid := id_b; mv_value := 10 |};
   {| mv_run := 1; mv_metric := "walked"; mv_uuid := id_a; mv_value := 5 |}].

Definition db_two_metrics : database :=
  {| site_state := Some (Some 1);
     import_run := [{| ir_id := 1; ir_generated_at := "2023-12-31 00:00:00";
                       ir_status := "active" |}];
     import_run_next := 2; metric_def := []; player_profile := [];
     player_stats := []; metric_value := mv_two_metrics; metric_award := None |}.

(** C4, as stated, fails where a configured rank has negative points:
    with [--king-points 5,-3,1] player [id_a], first in one metric and
    second in the other, is persisted with 5 points, not with the sum
    5 + (-3) of the configured points of its two ranks. *)
Lemma king_points_negative_rank_skipped :
  Importer.parse_king_points "5,-3,1" = Some [5; -3; 1] ∧
  Importer.king_award_points [5; -3; 1] = [5; -3; 1] ∧
  mv_uuid <$> Importer.top3 1 "mined" mv_two_metrics = [id_a; id_b] ∧
  mv_uuid <$> Importer.top3 1 "walked" mv_two_metrics = [id_b; id_a] ∧
  king_rows_of 1 "king"
    (metric_value
       (Importer.recompute_king_points 1 ["mined"; "walked"] "king" [5; -3; 1] db_two_metrics))
  = [{| mv_run := 1; mv_metric := "king"; mv_uuid := id_a; mv_value := 5 |};
     {| mv_run := 1; mv_metric := "king"; mv_uuid := id_b; mv_value := 5 |}] ∧
  5 ≠ 5 + -3.
Proof. repeat split; try (vm_compute; reflexivity). lia. Qed.

(** C4, amended. The recomputation deletes the run's rows of the points
    metric and leaves every other row as it was; for every other metric
    of [metric_ids] it ranks the rows with value above zero by value
    descending, uuid ascending, and takes the first three; a rank awards
    its configured points when they are positive and nothing otherwise
    (nor beyond the configured list); it persists exactly one row per
    player whose accumulated total is positive, holding that total; and
    recomputing again changes nothing. *)
Theorem king_points_recompute rid metric_ids king award_points d :
  let d' := Importer.recompute_king_points rid metric_ids king award_points d in
  other_rows rid king (metric_value d') = other_rows rid king (metric_value d) ∧
  (∀ r, r ∈ king_rows_of rid king (metric_value d') ↔
        mv_run r = rid ∧ mv_metric r = king ∧ 0 < mv_value r ∧
        mv_value r
        = points_total rid metric_ids king award_points (metric_value d) (mv_uuid r)) ∧
  NoDup (mv_uuid <$> king_rows_of rid king (metric_value d')) ∧
  (∀ mid, ∃ rest,
     Importer.top3 rid mid (metric_value d) ++ rest
       ≡ₚ positive_rows rid mid (metric_value d) ∧
     StronglySorted Importer.mv_before (Importer.top3 rid mid (metric_value d) ++ rest) ∧
     (length (Importer.top3 rid mid (metric_value d)) ≤ 3)%nat ∧
     (rest ≠ [] → length (Importer.top3 rid mid (metric_value d)) = 3%nat)) ∧
  Importer.recompute_king_points rid metric_ids king award_points d' = d'.
Proof.
  intros d'.
  destruct (recompute_king_points_fields rid metric_ids king award_points d)
    as (_ & _ & _ & _ & _ & _ & E7 & _).
  fold d' in E7. rewrite E7, other_rows_recomputed, king_rows_of_recomputed.
  destruct (king_awards_spec rid metric_ids king award_points true (metric_value d))
    as [[Hnd Hpos] Hget].
  set (pm := (Importer.king_awards rid metric_ids king award_points true (metric_value d)).1) in *.
  rewrite (king_rows_map _ _ _ Hpos).
  split; [done|]. split; [|split; [|split]].
  - intros r. rewrite list_elem_of_fmap. split.
    + intros ([u p] & -> & Hin). simpl.
      rewrite Forall_forall in Hpos. repeat split; [by apply (Hpos (u, p))|].
      rewrite <-Hget. symmetry. by apply pm_get_elem.
    + intros (Hr & Hk & Hp & Hv). exists (mv_uuid r, mv_value r). split.
      * destruct r; simpl in *. by subst.
      * rewrite Hv, <-Hget. apply pm_get_pos. rewrite Hget, <-Hv. done.
  - rewrite <-list_fmap_compose. done.
  - intros mid. apply top3_spec.
  - apply recompute_king_points_idem.
Qed.

(** ** Sparse metric storage *)

(** Every row of [t] was already in [t0] or holds a positive value. *)
Definition mv_sparse (t0 t : list mv_row) : Prop :=
  ∀ r, r ∈ t → r ∈ t0 ∨ 0 < mv_value r.

Definition buf_positive (buf : list (Z * string * bytes * Z)) : Prop :=
  Forall (fun row => 0 < mv_value (Importer.mv_row_of row)) buf.

Lemma upsert_mv_elem row t r : r ∈ Db.upsert_mv row t → r = row ∨ r ∈ t.
Proof.
  induction t as [|x rest IH]; simpl; [set_solver|].
  destruct (_ && _); [set_solver|].
  rewrite !elem_of_cons. naive_solver.
Qed.

Lemma fold_upsert_mv_sparse t0 buf t :
  buf_positive buf → mv_sparse t0 t →
  mv_sparse t0 (fold_left (fun t row => Db.upsert_mv (Importer.mv_row_of row) t) buf t).
Proof.
  intros Hbuf. revert t. induction Hbuf as [|row rest Hrow _ IH]; intros t Ht; simpl; [done|].
  apply IH. intros r Hr. apply upsert_mv_elem in Hr as [->|Hr]; auto.
Qed.

Lemma write_changed_sparse t0 now rid cu sb mb d :
  buf_positive mb → mv_sparse t0 (metric_value d) →
  mv_sparse t0 (metric_value (Importer.write_changed now rid cu sb mb d)).
Proof.
  intros Hmb Hd. unfold Importer.write_changed. simpl.
  apply fold_upsert_mv_sparse; [done|].
  intros r Hr. unfold Importer.delete_metrics_of in Hr.
  apply list_elem_of_filter in Hr as [_ Hr]. auto.
Qed.

(** The invariant of the scan. *)
Definition sparse_state (t0 : list mv_row) (st : pass_state) : Prop :=
  buf_positive (metric_buf st) ∧ mv_sparse t0 (metric_value (db st)).

Lemma sparse_state_side t0 st st' :
  same_stats_side st st' → sparse_state t0 st → sparse_state t0 st'.
Proof.
  unfold same_stats_side, sparse_state. intros H. destruct_and!.
  by repeat match goal with H : _ = _ |- _ => rewrite H end.
Qed.

Lemma flush_changed_batch_sparse t0 now rid st :
  sparse_state t0 st → sparse_state t0 (Importer.flush_changed_batch now rid st).
Proof.
  intros [Hb Hd]. unfold Importer.flush_changed_batch.
  destruct (changed_uuids st) as [|u0 cu]; [done|]. split; [simpl; constructor|].
  change (mv_sparse t0
            (metric_value (Importer.write_changed now rid (u0 :: cu) (stats_buf st)
                             (metric_buf st) (db st)))).
  by apply write_changed_sparse.
Qed.

Lemma metric_rows_positive rid u stats msrc :
  buf_positive (Importer.metric_rows rid u stats msrc).
Proof.
  apply Forall_forall. intros row Hrow. unfold Importer.metric_rows in Hrow.
  apply list_elem_of_omap in Hrow as (m & _ & Hm).
  destruct (Z.ltb_spec 0 (Importer.metric_total stats m.2)); by simplify_eq.
Qed.

Lemma record_changed_sparse t0 a e rid msrc u stats jb sha st :
  sparse_state t0 st →
  sparse_state t0 (Importer.record_changed a e rid msrc u stats jb sha st).
Proof.
  intros [Hb Hd]. unfold Importer.record_changed.
  destruct (dry_run a); [done|].
  assert (sparse_state t0
    (Importer.set_changed_bufs (changed_uuids st ++ [u])
       (stats_buf st ++ [(rid, u, gzip_compress jb, sha)])
       (metric_buf st ++ Importer.metric_rows rid u stats msrc)
       (Importer.set_existing_hash (<[u:=sha]> (existing_hash st))
          (Importer.set_counters (processed st) (kept st) (changed st + 1) st)))) as H.
  { split; simpl; [|done]. apply Forall_app. split; [done|apply metric_rows_positive]. }
  simpl. destruct (_ <=? _); [by apply flush_changed_batch_sparse|done].
Qed.

Lemma process_file_sparse t0 a e rid profiles msrc st f :
  sparse_state t0 st → sparse_state t0 (Importer.process_file a e rid profiles msrc st f).
Proof.
  intros H. unfold Importer.process_file.
  destruct (sf_uuid f); [|done]. destruct (decide _); [done|].
  destruct (sf_raw f); [|done]. destruct (_ <? _); [done|].
  unfold Importer.process_kept.
  match goal with
  | |- context [Importer.buffer_profile ?a ?e ?t (Importer.buffer_seen ?a ?u ?s)] =>
      assert (sparse_state t0 (Importer.buffer_profile a e t (Importer.buffer_seen a u s))) as H2
  end.
  { eapply sparse_state_side; [apply buffer_profile_stats_side|].
    eapply sparse_state_side; [apply buffer_seen_stats_side|]. done. }
  destruct (decide _); [done|]. by apply record_changed_sparse.
Qed.

Lemma scan_sparse a e rid d : sparse_state (metric_value d) (Importer.scan a e rid d).
Proof.
  unfold Importer.scan.
  assert (sparse_state (metric_value d) (Importer.init_state rid d)) as H0.
  { split; simpl; [constructor|]. intros r; auto. }
  revert H0. generalize (Importer.init_state rid d).
  induction (stats_files e) as [|f r IH]; intros st Hst; simpl; [done|].
  apply IH. by apply process_file_sparse.
Qed.

Lemma flush_all_sparse t0 e rid st :
  sparse_state t0 st → sparse_state t0 (Importer.flush_all e rid st).
Proof.
  intros H. unfold Importer.flush_all. apply flush_changed_batch_sparse.
  assert (∀ s, sparse_state t0 s → sparse_state t0 (Importer.flush_seen s)) as H1.
  { intros s Hs. unfold Importer.flush_seen. by destruct (seen_buf s). }
  assert (∀ s, sparse_state t0 s →
            sparse_state t0 (Importer.flush_profiles (has_source e) (has_checked e) s)) as H2.
  { intros s Hs. unfold Importer.flush_profiles. by destruct (profile_buf s). }
  auto.
Qed.

Lemma king_step_sparse t0 a e rid d :
  mv_sparse t0 (metric_value d) → mv_sparse t0 (metric_value (Importer.king_step a e rid d)).
Proof.
  intros H. unfold Importer.king_step. destruct (no_king a); [done|].
  destruct (Importer.parse_king_points _); [|done].
  match goal with
  | |- context [Importer.recompute_king_points ?r ?m ?k ?p d] =>
      destruct (recompute_king_points_fields r m k p d) as (_ & _ & _ & _ & _ & _ & E & _)
  end.
  rewrite E. intros r Hr. apply elem_of_app in Hr as [Hr|Hr].
  - unfold other_rows in Hr. apply list_elem_of_filter in Hr as [_ Hr]. auto.
  - right. unfold Importer.king_rows in Hr.
    apply list_elem_of_omap in Hr as (it & _ & Hit).
    destruct (Z.ltb_spec 0 it.2); by simplify_eq.
Qed.

Lemma ensure_run_id_metric_value now d :
  metric_value (Importer.ensure_run_id now d).2 = metric_value d.
Proof. unfold Importer.ensure_run_id. by destruct (site_state d) as [[]|]. Qed.

(** C5. Whatever the arguments, the inputs and the tables at the start,
    every [metric_value] row the run leaves behind either was there
    before or holds a value above zero: the per-player totals and the
    points totals are written only when strictly positive. *)
Theorem metric_values_written_positive a e d r :
  r ∈ metric_value (final_db (Importer.main a e d)) →
  r ∈ metric_value d ∨ 0 < mv_value r.
Proof.
  unfold Importer.main.
  pose proof (ensure_run_id_metric_value (db_now e) d) as E0.
  destruct (Importer.ensure_run_id (db_now e) d) as [rid d1]. simpl in E0.
  pose proof (scan_sparse a e rid d1) as Hs. rewrite E0 in Hs.
  destruct (Importer.load_metric_sources _) eqn:El; simpl; [by rewrite E0; auto|].
  destruct (dry_run a); simpl.
  - apply Hs.
  - apply (king_step_sparse (metric_value d)). unfold Importer.cleanup. simpl.
    intros r' Hr'. apply list_elem_of_filter in Hr' as [_ Hr'].
    by apply (flush_all_sparse (metric_value d) e rid _ Hs).
Qed.

Lemma metric_values_written_positive_witness :
  {| mv_run := 1; mv_metric := "blocks"; mv_uuid := id_a; mv_value := 10 |}
    ∈ metric_value db_active ∨
  0 < mv_value {| mv_run := 1; mv_metric := "blocks"; mv_uuid := id_a; mv_value := 10 |}.
Proof.
  apply (metric_values_written_positive args_live env_one db_active).
  vm_compute. left.
Defined.

(** ** Rerunning a pass *)

Definition stats_key (r : stats_row) : Z * bytes := (ps_run r, ps_uuid r).

(** The digest [player_stats] holds for player [u] in run [rid]. *)
Fixpoint stats_lookup (rid : Z) (u : bytes) (t : list stats_row) : option bytes :=
  match t with
  | [] => None
  | r :: rest =>
      if (ps_run r =? rid) && String.eqb (ps_uuid r) u then Some (ps_sha1 r)
      else stats_lookup rid u rest
  end.

Lemma key_test_true rid u r :
  (ps_run r =? rid) && String.eqb (ps_uuid r) u = true ↔ stats_key r = (rid, u).
Proof.
  unfold stats_key. rewrite andb_true_iff, Z.eqb_eq, String.eqb_eq. naive_solver.
Qed.

Lemma key_test_false rid u r :
  (ps_run r =? rid) && String.eqb (ps_uuid r) u = false ↔ stats_key r ≠ (rid, u).
Proof. rewrite <-key_test_true. by destruct (_ && _). Qed.

Lemma stats_lookup_None rid u t :
  (rid, u) ∉ stats_key <$> t → stats_lookup rid u t = None.
Proof.
  induction t as [|r rest IH]; simpl; [done|]. intros Hn.
  destruct (_ && _) eqn:E.
  - apply key_test_true in E. set_solver.
  - apply IH. set_solver.
Qed.

Lemma upsert_stats_lookup rid u row t :
  stats_lookup rid u (Db.upsert_stats row t)
  = if (ps_run row =? rid) && String.eqb (ps_uuid row) u then Some (ps_sha1 row)
    else stats_lookup rid u t.
Proof.
  induction t as [|r rest IH]; simpl; [done|].
  destruct ((ps_run r =? ps_run row) && _) eqn:E1; simpl.
  - apply key_test_true in E1.
    destruct ((ps_run row =? rid) && _) eqn:E2; [done|].
    apply key_test_false in E2.
    assert (stats_key r ≠ (rid, u)) as E3 by (unfold stats_key in *; congruence).
    apply key_test_false in E3. by rewrite E3.
  - apply key_test_false in E1.
    destruct ((ps_run r =? rid) && _) eqn:E3; [|done].
    apply key_test_true in E3.
    assert (stats_key row ≠ (rid, u)) as E2 by (unfold stats_key in *; congruence).
    apply key_test_false in E2. by rewrite E2.
Qed.

Lemma upsert_stats_keys row t k :
  k ∈ stats_key <$> Db.upsert_stats row t ↔ k = stats_key row ∨ k ∈ stats_key <$> t.
Proof.
  induction t as [|r rest IH]; simpl; [set_solver|].
  destruct (_ && _) eqn:E; simpl.
  - apply key_test_true in E. change (ps_run row, ps_uuid row) with (stats_key row) in E.
    rewrite E, !elem_of_cons. tauto.
  - rewrite !elem_of_cons, IH. tauto.
Qed.

Lemma upsert_stats_NoDup row t :
  NoDup (stats_key <$> t) → NoDup (stats_key <$> Db.upsert_stats row t).
Proof.
  induction t as [|r rest IH]; simpl; intros Hnd.
  - repeat constructor. set_solver.
  - inv Hnd. destruct (_ && _) eqn:E; simpl.
    + apply key_test_true in E. change (ps_run row, ps_uuid row) with (stats_key row) in E.
      constructor; [|done]. by rewrite <-E.
    + apply key_test_false in E. change (ps_run row, ps_uuid row) with (stats_key row) in E.
      constructor; [|by apply IH].
      rewrite upsert_stats_keys. intros [?|?]; [congruence|done].
Qed.

Lemma filter_stats_NoDup (P : stats_row → Prop) `{∀ r, Decision (P r)} t :
  NoDup (stats_key <$> t) → NoDup (stats_key <$> filter P t).
Proof.
  induction t as [|r rest IH]; simpl; intros Hnd; [done|]. inv Hnd.
  destruct (decide (P r)).
  - rewrite filter_cons_True by done. simpl. constructor; [|by apply IH].
    intros Hin. apply list_elem_of_fmap in Hin as (r' & Hk & Hr').
    apply list_elem_of_filter in Hr' as [_ Hr'].
    match goal with H : _ ∉ _ |- _ => apply H end.
    rewrite Hk. by apply list_elem_of_fmap_2.
  - rewrite filter_cons_False by done. by apply IH.
Qed.

Lemma filter_stats_lookup (P : stats_row → Prop) `{∀ r, Decision (P r)} rid u t :
  (∀ r, r ∈ t → stats_key r = (rid, u) → P r) →
  stats_lookup rid u (filter P t) = stats_lookup rid u t.
Proof.
  induction t as [|r rest IH]; intros HP; [done|].
  destruct (decide (P r)).
  - rewrite filter_cons_True by done. simpl.
    destruct (_ && _); [done|]. apply IH. intros; apply HP; [by right|done].
  - rewrite filter_cons_False by done. simpl.
    destruct (_ && _) eqn:E.
    + apply key_test_true in E. exfalso. apply n, HP; [left|done].
    + apply IH. intros; apply HP; [by right|done].
Qed.

(** Under the primary key, [load_existing_hashes] maps a player to the
    stored digest when that digest has 20 bytes. *)
Lemma load_existing_hashes_lookup rid d u :
  NoDup (stats_key <$> player_stats d) →
  Importer.load_existing_hashes rid d !! u
  = match stats_lookup rid u (player_stats d) with
    | Some s => if (String.length s =? 20)%nat then Some s else None
    | None => None
    end.
Proof.
  unfold Importer.load_existing_hashes.
  assert (∀ t (acc : gmap bytes bytes), NoDup (stats_key <$> t) →
    fold_left (fun out r =>
        if (ps_run r =? rid) && (String.length (ps_sha1 r) =? 20)%nat
        then <[ps_uuid r := ps_sha1 r]> out else out) t acc !! u
    = match stats_lookup rid u t with
      | Some s => if (String.length s =? 20)%nat then Some s else acc !! u
      | None => acc !! u
      end) as H.
  { induction t as [|r rest IH]; intros acc Hnd; simpl; [done|].
    inv Hnd. rewrite IH by done.
    destruct ((ps_run r =? rid) && String.eqb _ _) eqn:E.
    - pose proof E as E'. apply key_test_true in E.
      rewrite stats_lookup_None by (by rewrite <-E).
      apply andb_prop in E' as [-> Eu]. apply String.eqb_eq in Eu as ->. simpl.
      destruct (String.length (ps_sha1 r) =? 20)%nat; [apply lookup_insert_eq|done].
    - assert ((if (ps_run r =? rid) && (String.length (ps_sha1 r) =? 20)%nat
               then <[ps_uuid r:=ps_sha1 r]> acc else acc) !! u = acc !! u) as ->; [|done].
      destruct ((ps_run r =? rid) && (String.length (ps_sha1 r) =? 20)%nat) eqn:E2; [|done].
      rewrite lookup_insert_ne; [done|].
      apply andb_prop in E2 as [E2 _]. apply andb_false_iff in E as [E|E]; [congruence|].
      intros Hu. by rewrite Hu, String.eqb_refl in E. }
  intros Hnd. rewrite H by done. rewrite lookup_empty.
  destruct (stats_lookup _ _ _); [|done]. by destruct (_ =? _)%nat.
Qed.

(** The id and the digest of a file the pass keeps. *)
Definition kept_digest (a : args) (e : env) (f : stats_file) : option (bytes * bytes) :=
  match sf_uuid f, sf_raw f with
  | Some u, Some raw =>
      if decide (u ∈ excluded e) then None
      else if Importer.play_time_of (Importer.stats_of_raw raw) <? min_play_ticks a
           then None
           else Some (u, Sha1.sha1 (Importer.canonical_bytes (Importer.stats_of_raw raw)))
  | _, _ => None
  end.

Lemma kept_id_digest a e f : kept_id a e f = fst <$> kept_digest a e f.
Proof.
  unfold kept_id, kept_digest. destruct (sf_uuid f), (sf_raw f); try done.
  destruct (decide _); [done|]. by destruct (_ <? _).
Qed.

(** [player_stats] as it will stand once the buffered rows are flushed. *)
Definition stats_pending (e : env) (st : pass_state) : list stats_row :=
  fold_left (fun t row => Db.upsert_stats (Importer.stats_row_of (db_now e) row) t)
    (stats_buf st) (player_stats (db st)).

(** The invariant of the scan on the change-detection side: the map
    agrees with the pending table, which respects the primary key, and
    the two changed-player buffers grow together. *)
Definition hashes_stored (e : env) (rid : Z) (st : pass_state) : Prop :=
  (∀ u s, existing_hash st !! u = Some s → stats_lookup rid u (stats_pending e st) = Some s) ∧
  NoDup (stats_key <$> stats_pending e st) ∧
  length (stats_buf st) = length (changed_uuids st).

Lemma stats_pending_side e st st' :
  same_stats_side st st' → stats_pending e st' = stats_pending e st.
Proof.
  unfold same_stats_side, stats_pending. intros H. destruct_and!. congruence.
Qed.

Lemma hashes_stored_side e rid st st' :
  same_stats_side st st' → hashes_stored e rid st → hashes_stored e rid st'.
Proof.
  intros Hs (H1 & H2 & H3). unfold hashes_stored.
  rewrite (stats_pending_side e st st' Hs).
  unfold same_stats_side in Hs. destruct_and!.
  repeat split; [|done|congruence].
  intros u s Hu. apply H1. congruence.
Qed.

Lemma flush_changed_batch_pending e rid st :
  stats_pending e (Importer.flush_changed_batch (db_now e) rid st) = stats_pending e st.
Proof.
  unfold Importer.flush_changed_batch. by destruct (changed_uuids st).
Qed.

Lemma flush_changed_batch_hashes e rid st :
  hashes_stored e rid st → hashes_stored e rid (Importer.flush_changed_batch (db_now e) rid st).
Proof.
  intros (H1 & H2 & H3). unfold hashes_stored.
  rewrite flush_changed_batch_pending.
  unfold Importer.flush_changed_batch.
  destruct (changed_uuids st) eqn:E; simpl; rewrite ?E; by repeat split.
Qed.

Lemma flush_changed_batch_counters now rid st :
  processed (Importer.flush_changed_batch now rid st) = processed st ∧
  kept (Importer.flush_changed_batch now rid st) = kept st ∧
  changed (Importer.flush_changed_batch now rid st) = changed st ∧
  existing_hash (Importer.flush_changed_batch now rid st) = existing_hash st.
Proof. unfold Importer.flush_changed_batch. by destruct (changed_uuids st). Qed.

(** What recording a changed player does to the pending table. *)
Lemma record_changed_pending a e rid msrc u stats jb sha st :
  dry_run a = false →
  stats_pending e (Importer.record_changed a e rid msrc u stats jb sha st)
  = Db.upsert_stats
      {| ps_run := rid; ps_uuid := u; ps_gzip := gzip_compress jb; ps_sha1 := sha;
         ps_updated_at := db_now e |} (stats_pending e st) ∧
  existing_hash (Importer.record_changed a e rid msrc u stats jb sha st)
  = <[u := sha]> (existing_hash st) ∧
  (length (stats_buf st) = length (changed_uuids st) →
   length (stats_buf (Importer.record_changed a e rid msrc u stats jb sha st))
   = length (changed_uuids (Importer.record_changed a e rid msrc u stats jb sha st))).
Proof.
  intros Hd. unfold Importer.record_changed. rewrite Hd.
  set (st4 := Importer.set_changed_bufs _ _ _ _).
  assert (stats_pending e st4
          = Db.upsert_stats
              {| ps_run := rid; ps_uuid := u; ps_gzip := gzip_compress jb; ps_sha1 := sha;
                 ps_updated_at := db_now e |} (stats_pending e st)) as Hp.
  { unfold stats_pending, st4. simpl. by rewrite fold_left_app. }
  destruct (_ <=? _).
  - rewrite flush_changed_batch_pending.
    destruct (flush_changed_batch_counters (db_now e) rid st4) as (_ & _ & _ & ->).
    repeat split; [done|]. intros _.
    unfold Importer.flush_changed_batch, st4. simpl.
    destruct (changed_uuids st ++ [u]) eqn:E; [by destruct (changed_uuids st)|]. done.
  - repeat split; [done|]. intros Hl. unfold st4. simpl. rewrite !length_app. simpl. lia.
Qed.

Lemma process_kept_hashes a e rid profiles msrc u stats st :
  dry_run a = false → hashes_stored e rid st →
  hashes_stored e rid (Importer.process_kept a e rid profiles msrc u stats st) ∧
  stats_lookup rid u (stats_pending e (Importer.process_kept a e rid profiles msrc u stats st))
  = Some (Sha1.sha1 (Importer.canonical_bytes stats)) ∧
  (∀ u', u' ≠ u →
     stats_lookup rid u' (stats_pending e (Importer.process_kept a e rid profiles msrc u stats st))
     = stats_lookup rid u' (stats_pending e st)).
Proof.
  intros Hd Hst. unfold Importer.process_kept.
  set (st2 := Importer.buffer_profile a e _ (Importer.buffer_seen a u st)).
  assert (same_stats_side st st2) as Hs.
  { eapply same_stats_side_trans;
      [apply buffer_seen_stats_side|apply buffer_profile_stats_side]. }
  pose proof (hashes_stored_side e rid st st2 Hs Hst) as H2.
  rewrite <-(stats_pending_side e st st2 Hs).
  destruct (decide _) as [Hh|Hh].
  - pose proof H2 as (H1 & _). split; [done|]. split; [by apply H1|done].
  - destruct (record_changed_pending a e rid msrc u stats
                (Importer.canonical_bytes stats)
                (Sha1.sha1 (Importer.canonical_bytes stats)) st2 Hd) as (Ep & Eh & El).
    rewrite Ep. destruct H2 as (H1 & Hnd & Hl).
    assert (∀ u', stats_lookup rid u'
              (Db.upsert_stats
                 {| ps_run := rid; ps_uuid := u;
                    ps_gzip := gzip_compress (Importer.canonical_bytes stats);
                    ps_sha1 := Sha1.sha1 (Importer.canonical_bytes stats);
                    ps_updated_at := db_now e |} (stats_pending e st2))
            = if String.eqb u u' then Some (Sha1.sha1 (Importer.canonical_bytes stats))
              else stats_lookup rid u' (stats_pending e st2)) as Hl'.
    { intros u'. rewrite upsert_stats_lookup. simpl. by rewrite Z.eqb_refl. }
    split; [|split].
    + split; [|split].
      * intros u' s. rewrite Ep, Eh, Hl'. destruct (String.eqb u u') eqn:E.
        -- apply String.eqb_eq in E as ->. by rewrite lookup_insert_eq.
        -- rewrite lookup_insert_ne; [apply H1|]. intros ->. by rewrite String.eqb_refl in E.
      * rewrite Ep. by apply upsert_stats_NoDup.
      * by apply El.
    + by rewrite Hl', String.eqb_refl.
    + intros u' Hne. rewrite Hl'. destruct (String.eqb u u') eqn:E; [|done].
      apply String.eqb_eq in E. congruence.
Qed.

Lemma hashes_stored_counters e rid p k c st :
  hashes_stored e rid st → hashes_stored e rid (Importer.set_counters p k c st).
Proof. intros H. exact H. Qed.

Lemma process_file_hashes a e rid profiles msrc st f :
  dry_run a = false → hashes_stored e rid st →
  hashes_stored e rid (Importer.process_file a e rid profiles msrc st f) ∧
  (∀ u s, kept_digest a e f = Some (u, s) →
     stats_lookup rid u (stats_pending e (Importer.process_file a e rid profiles msrc st f))
     = Some s) ∧
  (∀ u', u' ∉ option_list (kept_id a e f) →
     stats_lookup rid u' (stats_pending e (Importer.process_file a e rid profiles msrc st f))
     = stats_lookup rid u' (stats_pending e st)).
Proof.
  intros Hd Hst. rewrite kept_id_digest. unfold Importer.process_file, kept_digest.
  assert (∀ p k c,
    hashes_stored e rid (Importer.set_counters p k c st) ∧
    (∀ u s, @None (bytes * bytes) = Some (u, s) →
       stats_lookup rid u (stats_pending e (Importer.set_counters p k c st)) = Some s) ∧
    (∀ u', u' ∉ option_list (fst <$> @None (bytes * bytes)) →
       stats_lookup rid u' (stats_pending e (Importer.set_counters p k c st))
       = stats_lookup rid u' (stats_pending e st))) as Hskip.
  { intros. split; [by apply hashes_stored_counters|]. by split. }
  destruct (sf_uuid f) as [u|]; [|apply Hskip].
  destruct (sf_raw f) as [raw|]; [|destruct (decide _); apply Hskip].
  destruct (decide _); [apply Hskip|].
  destruct (_ <? _); [apply Hskip|].
  match goal with
  | |- context [Importer.process_kept _ _ _ _ _ _ _ ?s] =>
      destruct (process_kept_hashes a e rid profiles msrc u (Importer.stats_of_raw raw) s Hd)
        as (H1 & H2 & H3); [by apply hashes_stored_counters|]
  end.
  split; [done|]. split.
  - intros u' s' [= <- <-]. done.
  - intros u' Hu'. simpl in Hu'. rewrite H3; [done|]. set_solver.
Qed.

Lemma scan_hashes a e rid profiles msrc files :
  dry_run a = false → NoDup (omap (kept_id a e) files) →
  ∀ st, hashes_stored e rid st →
    hashes_stored e rid (fold_left (Importer.process_file a e rid profiles msrc) files st) ∧
    (∀ f u s, f ∈ files → kept_digest a e f = Some (u, s) →
       stats_lookup rid u
         (stats_pending e (fold_left (Importer.process_file a e rid profiles msrc) files st))
       = Some s) ∧
    (∀ u', u' ∉ omap (kept_id a e) files →
       stats_lookup rid u'
         (stats_pending e (fold_left (Importer.process_file a e rid profiles msrc) files st))
       = stats_lookup rid u' (stats_pending e st)).
Proof.
  intros Hd. induction files as [|f r IH]; intros Hnd st Hst; simpl.
  - split; [done|]. split; [|done]. intros f u s Hf. by inv Hf.
  - destruct (process_file_hashes a e rid profiles msrc st f Hd Hst) as (H1 & H2 & H3).
    assert (NoDup (omap (kept_id a e) r) ∧
            ∀ u, kept_id a e f = Some u → u ∉ omap (kept_id a e) r) as [Hnd' Hfresh].
    { simpl in Hnd. destruct (kept_id a e f); [|done].
      inv Hnd. split; [done|]. by intros ? [= <-]. }
    destruct (IH Hnd' _ H1) as (I1 & I2 & I3).
    split; [done|]. split.
    + intros f' u s Hf' Hk. inv Hf'; [|by eapply I2].
      rewrite I3; [by apply H2|]. apply Hfresh. by rewrite kept_id_digest, Hk.
    + intros u' Hu'. simpl in Hu'.
      rewrite I3, H3; [done| |]; destruct (kept_id a e f); set_solver.
Qed.

Lemma flush_seen_stats_side st : same_stats_side st (Importer.flush_seen st).
Proof. unfold Importer.flush_seen. destruct (seen_buf st); by repeat split. Qed.

Lemma flush_profiles_stats_side hs hc st :
  same_stats_side st (Importer.flush_profiles hs hc st).
Proof. unfold Importer.flush_profiles. destruct (profile_buf st); by repeat split. Qed.

Lemma flush_all_player_stats e rid st :
  length (stats_buf st) = length (changed_uuids st) →
  player_stats (db (Importer.flush_all e rid st)) = stats_pending e st.
Proof.
  intros Hl. unfold Importer.flush_all.
  set (st1 := Importer.flush_profiles _ _ _).
  assert (same_stats_side st st1) as Hs.
  { eapply same_stats_side_trans;
      [apply flush_seen_stats_side|apply flush_profiles_stats_side]. }
  rewrite <-(stats_pending_side e st st1 Hs).
  assert (length (stats_buf st1) = length (changed_uuids st1)) as Hl1.
  { unfold same_stats_side in Hs. destruct_and!. congruence. }
  unfold Importer.flush_changed_batch, stats_pending.
  destruct (changed_uuids st1); [|done].
  by destruct (stats_buf st1).
Qed.

(** The run tables, which only [ensure_run_id] and the final touch write. *)
Lemma flush_changed_batch_site_state now rid st :
  site_state (db (Importer.flush_changed_batch now rid st)) = site_state (db st).
Proof. unfold Importer.flush_changed_batch. by destruct (changed_uuids st). Qed.

Lemma process_file_site_state a e rid profiles msrc st f :
  site_state (db (Importer.process_file a e rid profiles msrc st f)) = site_state (db st).
Proof.
  unfold Importer.process_file.
  destruct (sf_uuid f); [|done]. destruct (decide _); [done|].
  destruct (sf_raw f); [|done]. destruct (_ <? _); [done|].
  unfold Importer.process_kept.
  set (st0 := Importer.set_counters _ _ _ (Importer.set_counters _ _ _ st)).
  set (st2 := Importer.buffer_profile a e _ (Importer.buffer_seen a _ st0)).
  assert (same_stats_side st0 st2) as Hs.
  { eapply same_stats_side_trans;
      [apply buffer_seen_stats_side|apply buffer_profile_stats_side]. }
  assert (site_state (db st2) = site_state (db st)) as E2.
  { unfold same_stats_side in Hs. destruct_and!. done. }
  destruct (decide _); [done|].
  unfold Importer.record_changed. destruct (dry_run a); [done|].
  destruct (_ <=? _); [|done]. by rewrite flush_changed_batch_site_state.
Qed.

Lemma scan_site_state a e rid d : site_state (db (Importer.scan a e rid d)) = site_state d.
Proof.
  unfold Importer.scan.
  change (site_state d) with (site_state (db (Importer.init_state rid d))).
  generalize (Importer.init_state rid d).
  induction (stats_files e) as [|f r IH]; intros st; simpl; [done|].
  by rewrite IH, process_file_site_state.
Qed.

Lemma flush_all_site_state e rid st :
  site_state (db (Importer.flush_all e rid st)) = site_state (db st).
Proof.
  unfold Importer.flush_all. rewrite flush_changed_batch_site_state.
  pose proof (flush_seen_stats_side st) as H1.
  pose proof (flush_profiles_stats_side (has_source e) (has_checked e)
                (Importer.flush_seen st)) as H2.
  unfold same_stats_side in *. destruct_and!. congruence.
Qed.

Lemma king_step_frame a e rid d :
  site_state (Importer.king_step a e rid d) = site_state d ∧
  player_stats (Importer.king_step a e rid d) = player_stats d.
Proof.
  unfold Importer.king_step. destruct (no_king a); [done|].
  destruct (Importer.parse_king_points _); [|done].
  match goal with
  | |- context [Importer.recompute_king_points ?r ?m ?k ?p d] =>
      by destruct (recompute_king_points_fields r m k p d) as (-> & _ & _ & _ & -> & _)
  end.
Qed.

Lemma ensure_run_id_frame now d :
  player_stats (Importer.ensure_run_id now d).2 = player_stats d ∧
  metric_value (Importer.ensure_run_id now d).2 = metric_value d ∧
  (is_Some (site_state d) →
   site_state (Importer.ensure_run_id now d).2 = Some (Some (Importer.ensure_run_id now d).1)).
Proof.
  unfold Importer.ensure_run_id. destruct (site_state d) as [[active|]|] eqn:E; simpl;
    rewrite ?E; repeat split; try done; by intros [].
Qed.

(** The counters of the scan depend on the files, the exclusion set and
    the threshold only. *)
Lemma record_changed_counters a e rid msrc u stats jb sha st :
  processed (Importer.record_changed a e rid msrc u stats jb sha st) = processed st ∧
  kept (Importer.record_changed a e rid msrc u stats jb sha st) = kept st.
Proof.
  unfold Importer.record_changed. destruct (dry_run a); [done|].
  destruct (_ <=? _); [|done].
  match goal with
  | |- context [Importer.flush_changed_batch ?n ?r ?s] =>
      by destruct (flush_changed_batch_counters n r s) as (-> & -> & _)
  end.
Qed.

Lemma process_file_counters a e rid profiles msrc st f :
  processed (Importer.process_file a e rid profiles msrc st f) = processed st + 1 ∧
  kept (Importer.process_file a e rid profiles msrc st f)
  = kept st + Z.of_nat (length (option_list (kept_id a e f))).
Proof.
  unfold Importer.process_file, kept_id.
  destruct (sf_uuid f); [|simpl; lia].
  destruct (sf_raw f); [|destruct (decide _); simpl; lia].
  destruct (decide _); [simpl; lia|]. destruct (_ <? _); [simpl; lia|].
  unfold Importer.process_kept.
  set (st0 := Importer.set_counters _ _ _ (Importer.set_counters _ _ _ st)).
  set (st2 := Importer.buffer_profile a e _ (Importer.buffer_seen a _ st0)).
  assert (same_stats_side st0 st2) as Hs.
  { eapply same_stats_side_trans;
      [apply buffer_seen_stats_side|apply buffer_profile_stats_side]. }
  assert (processed st2 = processed st + 1 ∧ kept st2 = kept st + 1) as [E1 E2].
  { assert (processed st0 = processed st + 1 ∧ kept st0 = kept st + 1) as [? ?] by done.
    unfold same_stats_side in Hs. destruct_and!. split; lia. }
  destruct (decide _); [simpl; lia|].
  match goal with
  | |- context [Importer.record_changed ?a ?e ?r ?m ?u ?s ?j ?h st2] =>
      destruct (record_changed_counters a e r m u s j h st2) as [-> ->]
  end.
  simpl. lia.
Qed.

Lemma scan_counters a e rid d :
  processed (Importer.scan a e rid d) = Z.of_nat (length (stats_files e)) ∧
  kept (Importer.scan a e rid d) = Z.of_nat (length (kept_ids a e)).
Proof.
  unfold Importer.scan, kept_ids.
  assert (∀ st,
    processed (fold_left (Importer.process_file a e rid
       (Importer.load_existing_profile_meta rid (has_source e) (has_checked e) d)
       (Importer.load_metric_sources (metric_source_rows e))) (stats_files e) st)
    = processed st + Z.of_nat (length (stats_files e)) ∧
    kept (fold_left (Importer.process_file a e rid
       (Importer.load_existing_profile_meta rid (has_source e) (has_checked e) d)
       (Importer.load_metric_sources (metric_source_rows e))) (stats_files e) st)
    = kept st + Z.of_nat (length (omap (kept_id a e) (stats_files e)))) as H.
  { induction (stats_files e) as [|f r IH]; intros st; simpl; [lia|].
    destruct (IH (Importer.process_file a e rid
       (Importer.load_existing_profile_meta rid (has_source e) (has_checked e) d)
       (Importer.load_metric_sources (metric_source_rows e)) st f)) as [-> ->].
    destruct (process_file_counters a e rid
       (Importer.load_existing_profile_meta rid (has_source e) (has_checked e) d)
       (Importer.load_metric_sources (metric_source_rows e)) st f) as [-> ->].
    destruct (kept_id a e f); simpl;
      change (list_omap stats_file bytes (kept_id a e) r) with (omap (kept_id a e) r); lia. }
  destruct (H (Importer.init_state rid d)) as [-> ->]. simpl. split; lia.
Qed.

(** Nothing on the change-detection side moved. *)
Definition nothing_changed (st st' : pass_state) : Prop :=
  existing_hash st' = existing_hash st ∧ changed st' = changed st ∧
  changed_uuids st' = changed_uuids st ∧ stats_buf st' = stats_buf st ∧
  metric_buf st' = metric_buf st ∧
  player_stats (db st') = player_stats (db st) ∧
  metric_value (db st') = metric_value (db st).

Lemma rerun_scan_nothing_changed a e rid profiles msrc files :
  ∀ st,
    (∀ f u s, f ∈ files → kept_digest a e f = Some (u, s) → existing_hash st !! u = Some s) →
    nothing_changed st (fold_left (Importer.process_file a e rid profiles msrc) files st).
Proof.
  induction files as [|f r IH]; intros st Hh; simpl; [by repeat split|].
  assert (nothing_changed st (Importer.process_file a e rid profiles msrc st f)) as H1.
  { pose proof (Hh f) as Hf. unfold kept_digest in Hf.
    unfold Importer.process_file.
    destruct (sf_uuid f) as [u|]; [|by repeat split].
    destruct (decide _); [by repeat split|].
    destruct (sf_raw f) as [raw|]; [|by repeat split].
    destruct (_ <? _); [by repeat split|].
    match goal with
    | |- context [Importer.process_kept _ _ _ _ _ _ ?s ?st0] =>
        destruct (hash_skip a e rid profiles msrc u s st0) as [Hs _]
    end.
    { simpl. eapply Hf; [left|done]. }
    unfold same_stats_side in Hs. simpl in Hs. destruct_and!. by repeat split. }
  assert (nothing_changed (Importer.process_file a e rid profiles msrc st f)
            (fold_left (Importer.process_file a e rid profiles msrc) r
               (Importer.process_file a e rid profiles msrc st f))) as H2.
  { apply IH. intros f' u s Hf' Hk. destruct H1 as [-> _]. eapply Hh; [by right|done]. }
  unfold nothing_changed in *. destruct_and!. repeat split; congruence.
Qed.

Lemma kept_digest_elem a e f u s :
  f ∈ stats_files e → kept_digest a e f = Some (u, s) → u ∈ kept_ids a e.
Proof.
  intros Hf Hk. unfold kept_ids. apply list_elem_of_omap. exists f. split; [done|].
  by rewrite kept_id_digest, Hk.
Qed.

Lemma kept_digest_length a e f u s :
  kept_digest a e f = Some (u, s) → String.length s = 20%nat.
Proof.
  unfold kept_digest. destruct (sf_uuid f), (sf_raw f); try done.
  destruct (decide _); [done|]. destruct (_ <? _); [done|].
  intros [= _ <-]. apply sha1_length.
Qed.

Lemma init_state_hashes e rid d :
  NoDup (stats_key <$> player_stats d) → hashes_stored e rid (Importer.init_state rid d).
Proof.
  intros Hnd. split; [|split]; [|done..].
  intros u s. unfold stats_pending. simpl.
  rewrite load_existing_hashes_lookup by done.
  destruct (stats_lookup rid u (player_stats d)); [|done].
  by destruct (_ =? _)%nat.
Qed.

(** What a completed pass that is no dry run leaves in [player_stats]:
    the digest of every kept file, under the run the next pass will use. *)
Lemma first_pass_stored a e d :
  dry_run a = false →
  Importer.load_metric_sources (metric_source_rows e) ≠ [] →
  is_Some (site_state d) →
  NoDup (stats_key <$> player_stats d) →
  NoDup (kept_ids a e) →
  site_state (final_db (Importer.main a e d))
  = Some (Some (Importer.ensure_run_id (db_now e) d).1) ∧
  NoDup (stats_key <$> player_stats (final_db (Importer.main a e d))) ∧
  (∀ f u s, f ∈ stats_files e → kept_digest a e f = Some (u, s) →
     stats_lookup (Importer.ensure_run_id (db_now e) d).1 u
       (player_stats (final_db (Importer.main a e d))) = Some s) ∧
  n_processed (Importer.main a e d) = Z.of_nat (length (stats_files e)) ∧
  n_kept (Importer.main a e d) = Z.of_nat (length (kept_ids a e)).
Proof.
  intros Hd Hm Hss Hnd Hk. unfold Importer.main.
  destruct (ensure_run_id_frame (db_now e) d) as (Eps & _ & Ess).
  specialize (Ess Hss).
  destruct (Importer.ensure_run_id (db_now e) d) as [rid d1]. simpl in *.
  destruct (Importer.load_metric_sources (metric_source_rows e)) as [|m0 ms] eqn:El; [done|].
  rewrite Hd. simpl.
  destruct (scan_counters a e rid d1) as [Ec1 Ec2].
  split; [|split; [|split; [|by split]]].
  - destruct (king_step_frame a e rid
      (Importer.cleanup rid (tmp_seen (Importer.flush_all e rid (Importer.scan a e rid d1)))
         (db (Importer.flush_all e rid (Importer.scan a e rid d1))))) as [-> _].
    unfold Importer.cleanup. simpl. by rewrite flush_all_site_state, scan_site_state.
  - destruct (king_step_frame a e rid
      (Importer.cleanup rid (tmp_seen (Importer.flush_all e rid (Importer.scan a e rid d1)))
         (db (Importer.flush_all e rid (Importer.scan a e rid d1))))) as [_ ->].
    unfold Importer.cleanup. simpl. apply filter_stats_NoDup.
    destruct (scan_hashes a e rid
      (Importer.load_existing_profile_meta rid (has_source e) (has_checked e) d1)
      (Importer.load_metric_sources (metric_source_rows e)) (stats_files e) Hd Hk
      (Importer.init_state rid d1)) as ((_ & H2 & H3) & _).
    { apply init_state_hashes. by rewrite Eps. }
    unfold Importer.scan. by rewrite flush_all_player_stats.
  - intros f u s Hf Hkd.
    destruct (king_step_frame a e rid
      (Importer.cleanup rid (tmp_seen (Importer.flush_all e rid (Importer.scan a e rid d1)))
         (db (Importer.flush_all e rid (Importer.scan a e rid d1))))) as [_ ->].
    unfold Importer.cleanup. simpl.
    destruct (scan_hashes a e rid
      (Importer.load_existing_profile_meta rid (has_source e) (has_checked e) d1)
      (Importer.load_metric_sources (metric_source_rows e)) (stats_files e) Hd Hk
      (Importer.init_state rid d1)) as ((_ & _ & H3) & H4 & _).
    { apply init_state_hashes. by rewrite Eps. }
    unfold Importer.scan. rewrite filter_stats_lookup.
    + rewrite flush_all_player_stats by done. by apply (H4 f).
    + intros r _ Hr [_ Hu]. apply Hu. rewrite flush_all_seen.
      rewrite fold_process_file_seen_all by done.
      unfold seen_all. simpl.
      pose proof (kept_digest_elem a e f u s Hf Hkd) as Hin. unfold kept_ids in Hin.
      injection Hr as _ ->. set_solver.
Qed.

Lemma kept_digest_ext a a2 e e2 f :
  excluded e2 = excluded e → min_play_ticks a2 = min_play_ticks a →
  kept_digest a2 e2 f = kept_digest a e f.
Proof. intros He Hm. unfold kept_digest. by rewrite He, Hm. Qed.

Lemma flush_all_nothing_pending e rid st :
  changed_uuids st = [] →
  player_stats (db (Importer.flush_all e rid st)) = player_stats (db st) ∧
  metric_value (db (Importer.flush_all e rid st)) = metric_value (db st).
Proof.
  intros Hc. unfold Importer.flush_all.
  set (st1 := Importer.flush_profiles _ _ _).
  assert (same_stats_side st st1) as Hs.
  { eapply same_stats_side_trans;
      [apply flush_seen_stats_side|apply flush_profiles_stats_side]. }
  unfold same_stats_side in Hs. destruct_and!.
  unfold Importer.flush_changed_batch.
  replace (changed_uuids st1) with (@nil bytes) by congruence. done.
Qed.

Definition file_a2 : stats_file :=
  {| sf_uuid := Some id_a;
     sf_raw := Some (JDict [("stats", JDict
       [("minecraft:custom", JDict [("minecraft:play_time", JInt 90001)])])]) |}.

Definition env_idle : env :=
  {| stats_files := [file_idle]; name_map := ∅; excluded := ∅;
     has_source := true; has_checked := true;
     metric_source_rows := [("blocks", "minecraft:mined", "minecraft:stone", 1)];
     now_ts := "2024-01-01 00:00:00"; db_now := "2024-01-01 00:00:00" |}.

(** Two file names that denote the same player id. *)
Definition env_same_id : env :=
  {| stats_files := [file_a; file_a2]; name_map := ∅; excluded := ∅;
     has_source := true; has_checked := true;
     metric_source_rows := [("blocks", "minecraft:mined", "minecraft:stone", 1)];
     now_ts := "2024-01-01 00:00:00"; db_now := "2024-01-01 00:00:00" |}.

(** C9, as stated, fails. A file below the play-time threshold counts as
    processed and not as kept, so the rerun's processed count (1) is not
    the previous kept count (0). The changed count of the rerun is not 0
    either when two files denote the same player id, or when the previous
    pass was a dry run. *)
Lemma rerun_processed_is_not_kept :
  n_kept (Importer.main args_default env_idle db_active) = 0 ∧
  n_processed (Importer.main args_default env_idle
                 (final_db (Importer.main args_default env_idle db_active))) = 1 ∧
  n_changed (Importer.main args_live env_same_id
               (final_db (Importer.main args_live env_same_id db_active))) = 2 ∧
  n_changed (Importer.main args_live env_one
               (final_db (Importer.main args_dry env_one db_active))) = 1.
Proof. repeat split; vm_compute; reflexivity. Qed.

(** C9, amended. Let a pass that is no dry run complete, with metrics
    configured, the [site_state] row present and no two kept files
    denoting the same player id. A rerun on the same files with the same
    exclusions and threshold reports the processed count and the kept
    count of the previous pass and a changed count of 0; its scan buffers
    no changed player, no [player_stats] row and no [metric_value] row,
    and its flushes leave both tables as the previous pass left them. *)
Theorem rerun_changes_nothing a a2 e e2 d :
  dry_run a = false →
  Importer.load_metric_sources (metric_source_rows e) ≠ [] →
  Importer.load_metric_sources (metric_source_rows e2) ≠ [] →
  stats_files e2 = stats_files e → excluded e2 = excluded e →
  min_play_ticks a2 = min_play_ticks a →
  is_Some (site_state d) →
  NoDup (stats_key <$> player_stats d) →
  NoDup (kept_ids a e) →
  let d1 := final_db (Importer.main a e d) in
  let rid := (Importer.ensure_run_id (db_now e2) d1).1 in
  let st2 := Importer.scan a2 e2 rid (Importer.ensure_run_id (db_now e2) d1).2 in
  n_processed (Importer.main a2 e2 d1) = n_processed (Importer.main a e d) ∧
  n_kept (Importer.main a2 e2 d1) = n_kept (Importer.main a e d) ∧
  n_changed (Importer.main a2 e2 d1) = 0 ∧
  changed_uuids st2 = [] ∧ stats_buf st2 = [] ∧ metric_buf st2 = [] ∧
  player_stats (db (Importer.flush_all e2 rid st2)) = player_stats d1 ∧
  metric_value (db (Importer.flush_all e2 rid st2)) = metric_value d1.
Proof.
  intros Hd Hm Hm2 Hf He Hmin Hss Hnd Hk d1 rid st2.
  destruct (first_pass_stored a e d Hd Hm Hss Hnd Hk) as (Es & Hnd1 & Hlk & Ep & Ek).
  fold d1 in Es, Hnd1, Hlk.
  assert (Importer.ensure_run_id (db_now e2) d1
          = ((Importer.ensure_run_id (db_now e) d).1,
             Db.touch_run (db_now e2) (Importer.ensure_run_id (db_now e) d).1 d1)) as Er.
  { unfold Importer.ensure_run_id at 1. by rewrite Es. }
  assert (nothing_changed (Importer.init_state rid (Importer.ensure_run_id (db_now e2) d1).2) st2)
    as Hn.
  { unfold st2, Importer.scan. apply rerun_scan_nothing_changed.
    intros f u s Hfin Hkd. rewrite Hf in Hfin.
    rewrite (kept_digest_ext a a2 e e2 f He Hmin) in Hkd.
    simpl. rewrite load_existing_hashes_lookup; unfold rid; rewrite Er; simpl; [|done].
    rewrite (Hlk f u s Hfin Hkd).
    by rewrite (kept_digest_length a e f u s Hkd). }
  destruct Hn as (_ & Hc & Hcu & Hsb & Hmb & Hps & Hmv). simpl in *.
  destruct (flush_all_nothing_pending e2 rid st2 Hcu) as [-> ->].
  rewrite Hps, Hmv. unfold rid. rewrite Er. simpl.
  assert (n_processed (Importer.main a2 e2 d1) = processed st2 ∧
          n_kept (Importer.main a2 e2 d1) = kept st2 ∧
          n_changed (Importer.main a2 e2 d1) = changed st2) as (-> & -> & ->).
  { unfold Importer.main, st2, rid.
    destruct (Importer.ensure_run_id (db_now e2) d1) as [rid' d1'].
    destruct (Importer.load_metric_sources (metric_source_rows e2)); [done|].
    simpl. by destruct (dry_run a2). }
  destruct (scan_counters a2 e2 rid (Importer.ensure_run_id (db_now e2) d1).2) as [Ec1 Ec2].
  fold st2 in Ec1, Ec2. rewrite Ec1, Ec2, Ep, Ek, Hf.
  assert (kept_ids a2 e2 = kept_ids a e) as ->.
  { unfold kept_ids, kept_id. by rewrite Hf, He, Hmin. }
  by repeat split.
Qed.

Lemma rerun_changes_nothing_witness :
  let d1 := final_db (Importer.main args_live env_one db_active) in
  let rid := (Importer.ensure_run_id (db_now env_one) d1).1 in
  let st2 := Importer.scan args_dry env_one rid (Importer.ensure_run_id (db_now env_one) d1).2 in
  n_processed (Importer.main args_dry env_one d1)
  = n_processed (Importer.main args_live env_one db_active) ∧
  n_kept (Importer.main args_dry env_one d1)
  = n_kept (Importer.main args_live env_one db_active) ∧
  n_changed (Importer.main args_dry env_one d1) = 0 ∧
  changed_uuids st2 = [] ∧ stats_buf st2 = [] ∧ metric_buf st2 = [] ∧
  player_stats (db (Importer.flush_all env_one rid st2)) = player_stats d1 ∧
  metric_value (db (Importer.flush_all env_one rid st2)) = metric_value d1.
Proof.
  apply (rerun_changes_nothing args_live args_dry env_one env_one db_active);
    try reflexivity; try discriminate.
  - by exists (Some 1).
  - constructor.
  - apply (bool_decide_unpack (NoDup _)). vm_compute. exact I.
Defined.

(** * Further properties of the importer *)

(** ** Files that are not kept *)

(** A file with an invalid name, an excluded uuid, a document that does
    not parse or play time under the threshold is counted as processed
    and touches nothing else: no counter, buffer, map or table. *)
Theorem skipped_file_only_counted a e rid profiles msrc st f :
  kept_id a e f = None →
  Importer.process_file a e rid profiles msrc st f
  = Importer.set_counters (processed st + 1) (kept st) (changed st) st.
Proof.
  unfold kept_id, Importer.process_file.
  destruct (sf_uuid f); [|done]. destruct (sf_raw f); [|by destruct (decide _)].
  destruct (decide _); [done|]. by destruct (_ <? _).
Qed.

Lemma skipped_file_only_counted_witness :
  Importer.process_file args_default env_bare 1 ∅ [] st_known file_idle
  = Importer.set_counters (processed st_known + 1) (kept st_known) (changed st_known) st_known.
Proof.
  apply (skipped_file_only_counted args_default env_bare 1 ∅ [] st_known file_idle).
  reflexivity.
Defined.

(** ** The counters of a pass *)

Lemma record_changed_changed a e rid msrc u stats jb sha st :
  changed (Importer.record_changed a e rid msrc u stats jb sha st) = changed st + 1.
Proof.
  unfold Importer.record_changed. destruct (dry_run a); [done|].
  destruct (_ <=? _); [|done].
  match goal with
  | |- context [Importer.flush_changed_batch ?n ?r ?s] =>
      by destruct (flush_changed_batch_counters n r s) as (_ & _ & -> & _)
  end.
Qed.

Lemma process_file_changed a e rid profiles msrc st f :
  changed st ≤ changed (Importer.process_file a e rid profiles msrc st f)
  ≤ changed st + Z.of_nat (length (option_list (kept_id a e f))).
Proof.
  unfold Importer.process_file, kept_id.
  destruct (sf_uuid f); [|simpl; lia].
  destruct (sf_raw f); [|destruct (decide _); simpl; lia].
  destruct (decide _); [simpl; lia|]. destruct (_ <? _); [simpl; lia|].
  unfold Importer.process_kept.
  set (st0 := Importer.set_counters _ _ _ (Importer.set_counters _ _ _ st)).
  set (st2 := Importer.buffer_profile a e _ (Importer.buffer_seen a _ st0)).
  assert (same_stats_side st0 st2) as Hs.
  { eapply same_stats_side_trans;
      [apply buffer_seen_stats_side|apply buffer_profile_stats_side]. }
  assert (changed st2 = changed st) as E.
  { unfold same_stats_side in Hs. destruct_and!. done. }
  destruct (decide _); [simpl; lia|].
  rewrite record_changed_changed. simpl. lia.
Qed.

Lemma scan_changed a e rid d :
  0 ≤ changed (Importer.scan a e rid d) ≤ Z.of_nat (length (kept_ids a e)).
Proof.
  unfold Importer.scan, kept_ids.
  assert (∀ st,
    changed st ≤ changed (fold_left (Importer.process_file a e rid
       (Importer.load_existing_profile_meta rid (has_source e) (has_checked e) d)
       (Importer.load_metric_sources (metric_source_rows e))) (stats_files e) st)
    ≤ changed st + Z.of_nat (length (omap (kept_id a e) (stats_files e)))) as H.
  { induction (stats_files e) as [|f r IH]; intros st; simpl; [lia|].
    pose proof (IH (Importer.process_file a e rid
       (Importer.load_existing_profile_meta rid (has_source e) (has_checked e) d)
       (Importer.load_metric_sources (metric_source_rows e)) st f)) as H1.
    pose proof (process_file_changed a e rid
       (Importer.load_existing_profile_meta rid (has_source e) (has_checked e) d)
       (Importer.load_metric_sources (metric_source_rows e)) st f) as H2.
    destruct (kept_id a e f); simpl in *;
      change (list_omap stats_file bytes (kept_id a e) r) with (omap (kept_id a e) r); lia. }
  pose proof (H (Importer.init_state rid d)) as H0. simpl in H0. lia.
Qed.

(** With metrics configured the run ends with code 0; it reports every
    file as processed, the files that passed the filters as kept, and a
    changed count between 0 and the kept count. *)
Theorem main_counts a e d :
  Importer.load_metric_sources (metric_source_rows e) ≠ [] →
  exit_code (Importer.main a e d) = 0 ∧
  n_processed (Importer.main a e d) = Z.of_nat (length (stats_files e)) ∧
  n_kept (Importer.main a e d) = Z.of_nat (length (kept_ids a e)) ∧
  0 ≤ n_changed (Importer.main a e d) ≤ n_kept (Importer.main a e d).
Proof.
  intros Hm. unfold Importer.main.
  destruct (Importer.ensure_run_id (db_now e) d) as [rid d1].
  destruct (Importer.load_metric_sources (metric_source_rows e)) eqn:El; [done|].
  destruct (scan_counters a e rid d1) as [E1 E2].
  pose proof (scan_changed a e rid d1) as E3.
  destruct (dry_run a); simpl; rewrite E1, E2; repeat split; lia.
Qed.

Lemma main_counts_witness :
  exit_code (Importer.main args_live env_same_id db_active) = 0 ∧
  n_processed (Importer.main args_live env_same_id db_active)
  = Z.of_nat (length (stats_files env_same_id)) ∧
  n_kept (Importer.main args_live env_same_id db_active)
  = Z.of_nat (length (kept_ids args_live env_same_id)) ∧
  0 ≤ n_changed (Importer.main args_live env_same_id db_active)
    ≤ n_kept (Importer.main args_live env_same_id db_active).
Proof.
  apply (main_counts args_live env_same_id db_active). discriminate.
Defined.

(** With no enabled metric that has a source the run ends with code 3
    before any file is read: all three counts are 0 and the tables are
    those [ensure_run_id] left, so only the run bookkeeping was written. *)
Theorem no_metrics_exit_3 a e d :
  Importer.load_metric_sources (metric_source_rows e) = [] →
  exit_code (Importer.main a e d) = 3 ∧
  n_processed (Importer.main a e d) = 0 ∧ n_kept (Importer.main a e d) = 0 ∧
  n_changed (Importer.main a e d) = 0 ∧
  final_db (Importer.main a e d) = (Importer.ensure_run_id (db_now e) d).2.
Proof.
  intros Hm. unfold Importer.main.
  destruct (Importer.ensure_run_id (db_now e) d) as [rid d1]. by rewrite Hm.
Qed.

Lemma no_metrics_exit_3_witness :
  exit_code (Importer.main args_live env_bare db_active) = 3 ∧
  n_processed (Importer.main args_live env_bare db_active) = 0 ∧
  n_kept (Importer.main args_live env_bare db_active) = 0 ∧
  n_changed (Importer.main args_live env_bare db_active) = 0 ∧
  final_db (Importer.main args_live env_bare db_active)
  = (Importer.ensure_run_id (db_now env_bare) db_active).2.
Proof. apply (no_metrics_exit_3 args_live env_bare db_active). reflexivity. Defined.

(** ** What a dry run writes *)

Lemma process_file_dry_db a e rid profiles msrc st f :
  dry_run a = true →
  db (Importer.process_file a e rid profiles msrc st f) = db st.
Proof.
  intros Hd. unfold Importer.process_file.
  destruct (sf_uuid f); [|done]. destruct (decide _); [done|].
  destruct (sf_raw f); [|done]. destruct (_ <? _); [done|].
  unfold Importer.process_kept, Importer.buffer_profile, Importer.buffer_seen,
    Importer.record_changed.
  rewrite Hd. by destruct (decide _).
Qed.

(** The tables after a dry run are those [ensure_run_id] left: beyond the
    run bookkeeping ([import_run], [site_state]) a dry run writes nothing,
    so the five other tables are as they were. *)
Theorem dry_run_writes_only_run_tables a e d :
  dry_run a = true →
  final_db (Importer.main a e d) = (Importer.ensure_run_id (db_now e) d).2 ∧
  player_profile (final_db (Importer.main a e d)) = player_profile d ∧
  player_stats (final_db (Importer.main a e d)) = player_stats d ∧
  metric_value (final_db (Importer.main a e d)) = metric_value d ∧
  metric_award (final_db (Importer.main a e d)) = metric_award d ∧
  metric_def (final_db (Importer.main a e d)) = metric_def d.
Proof.
  intros Hd.
  assert (final_db (Importer.main a e d) = (Importer.ensure_run_id (db_now e) d).2) as ->.
  { unfold Importer.main. destruct (Importer.ensure_run_id (db_now e) d) as [rid d1].
    destruct (Importer.load_metric_sources (metric_source_rows e)) eqn:El; [done|].
    rewrite Hd. simpl. unfold Importer.scan.
    assert (∀ files st,
      db (fold_left (Importer.process_file a e rid
            (Importer.load_existing_profile_meta rid (has_source e) (has_checked e) d1)
            (Importer.load_metric_sources (metric_source_rows e))) files st) = db st) as H.
    { induction files as [|f r IH]; intros st; simpl; [done|].
      by rewrite IH, process_file_dry_db. }
    by rewrite H. }
  split; [done|].
  unfold Importer.ensure_run_id. by destruct (site_state d) as [[]|].
Qed.

Lemma dry_run_writes_only_run_tables_witness :
  final_db (Importer.main args_dry env_one db_active)
  = (Importer.ensure_run_id (db_now env_one) db_active).2 ∧
  player_profile (final_db (Importer.main args_dry env_one db_active))
  = player_profile db_active ∧
  player_stats (final_db (Importer.main args_dry env_one db_active)) = player_stats db_active ∧
  metric_value (final_db (Importer.main args_dry env_one db_active)) = metric_value db_active ∧
  metric_award (final_db (Importer.main args_dry env_one db_active)) = metric_award db_active ∧
  metric_def (final_db (Importer.main args_dry env_one db_active)) = metric_def db_active.
Proof.
  apply (dry_run_writes_only_run_tables args_dry env_one db_active). reflexivity.
Defined.

(** ** The run in place *)

(** Once [site_state] has its row, [ensure_run_id] settles on one run:
    it leaves that run active in [site_state], a second call returns the
    same id and inserts no [import_run] row; with an active run the first
    call already returns it and inserts nothing. *)
Theorem ensure_run_id_reuses_run now now' d :
  is_Some (site_state d) →
  site_state (Importer.ensure_run_id now d).2 = Some (Some (Importer.ensure_run_id now d).1) ∧
  (Importer.ensure_run_id now' (Importer.ensure_run_id now d).2).1
  = (Importer.ensure_run_id now d).1 ∧
  length (import_run (Importer.ensure_run_id now' (Importer.ensure_run_id now d).2).2)
  = length (import_run (Importer.ensure_run_id now d).2) ∧
  (∀ active, site_state d = Some (Some active) →
     (Importer.ensure_run_id now d).1 = active ∧
     length (import_run (Importer.ensure_run_id now d).2) = length (import_run d)).
Proof.
  intros [ss Hss]. unfold Importer.ensure_run_id. rewrite Hss.
  destruct ss as [active|]; simpl; rewrite ?Hss; simpl; rewrite ?length_map.
  - repeat split; try done. congruence.
  - repeat split; try done.
Qed.

Lemma ensure_run_id_reuses_run_witness :
  site_state (Importer.ensure_run_id "t1" db_empty).2
  = Some (Some (Importer.ensure_run_id "t1" db_empty).1) ∧
  (Importer.ensure_run_id "t2" (Importer.ensure_run_id "t1" db_empty).2).1
  = (Importer.ensure_run_id "t1" db_empty).1 ∧
  length (import_run (Importer.ensure_run_id "t2" (Importer.ensure_run_id "t1" db_empty).2).2)
  = length (import_run (Importer.ensure_run_id "t1" db_empty).2) ∧
  (∀ active, site_state db_empty = Some (Some active) →
     (Importer.ensure_run_id "t1" db_empty).1 = active ∧
     length (import_run (Importer.ensure_run_id "t1" db_empty).2) = length (import_run db_empty)).
Proof. apply (ensure_run_id_reuses_run "t1" "t2" db_empty). by exists None. Defined.

(** ** The rank points passed to the recomputation *)

(** [main] always passes three rank points: 5, 3, 1 when none is
    configured, otherwise the first three configured, missing ones
    being 0; a fourth or later configured rank is dropped. *)
Theorem king_award_points_three pts :
  length (Importer.king_award_points pts) = 3%nat ∧
  Importer.king_award_points pts
  = match pts with
    | [] => [5; 3; 1]
    | [p1] => [p1; 0; 0]
    | [p1; p2] => [p1; p2; 0]
    | p1 :: p2 :: p3 :: _ => [p1; p2; p3]
    end.
Proof. by destruct pts as [|p1 [|p2 [|p3 r]]]. Qed.

(** ** Loading the metric sources *)

(** The sources of metric [mid] among the fetched rows, in row order. *)
Definition sources_of (mid : string) (rows : list (string * string * string * Z))
  : list MetricSource :=
  omap (fun row => let '(m, sec, key, w) := row in
                   if String.eqb m mid
                   then Some {| metric_id := m; section := sec; mc_key := key; weight := w |}
                   else None) rows.

(** [d.get(mid, [])] on the loaded dict *)
Fixpoint sources_get (mid : string) (out : list (string * list MetricSource))
  : list MetricSource :=
  match out with
  | [] => []
  | (k, l) :: r => if String.eqb k mid then l else sources_get mid r
  end.

Lemma setdefault_append_get mid src out mid' :
  sources_get mid' (Importer.setdefault_append mid src out)
  = sources_get mid' out ++ (if String.eqb mid mid' then [src] else []).
Proof.
  induction out as [|[k l] r IH]; simpl.
  - rewrite String.eqb_sym. by destruct (String.eqb mid' mid).
  - destruct (String.eqb k mid) eqn:E; simpl.
    + apply String.eqb_eq in E as ->. destruct (String.eqb mid mid'); [done|].
      by rewrite app_nil_r.
    + destruct (String.eqb k mid') eqn:E'; [|done].
      apply String.eqb_eq in E' as ->. rewrite String.eqb_sym, E. by rewrite app_nil_r.
Qed.

Lemma setdefault_append_keys mid src out k :
  k ∈ (Importer.setdefault_append mid src out).*1 ↔ k = mid ∨ k ∈ out.*1.
Proof.
  induction out as [|[k' l] r IH]; simpl; [set_solver|].
  destruct (String.eqb k' mid) eqn:E; simpl.
  - apply String.eqb_eq in E as ->. set_solver.
  - rewrite !elem_of_cons, IH. tauto.
Qed.

Lemma setdefault_append_NoDup mid src out :
  NoDup (out.*1) → NoDup ((Importer.setdefault_append mid src out).*1).
Proof.
  induction out as [|[k' l] r IH]; simpl; intros Hnd.
  - repeat constructor. set_solver.
  - inv Hnd. destruct (String.eqb k' mid) eqn:E; simpl; [by constructor|].
    constructor; [|by apply IH].
    rewrite setdefault_append_keys. intros [->|?]; [|done].
    by rewrite String.eqb_refl in E.
Qed.

(** [load_metric_sources] returns a dict (distinct metric ids) holding,
    for every metric id among the rows and no other, all of its rows as
    sources in the order fetched. *)
Theorem load_metric_sources_groups rows :
  NoDup ((Importer.load_metric_sources rows).*1) ∧
  (∀ mid, sources_get mid (Importer.load_metric_sources rows) = sources_of mid rows) ∧
  (∀ mid, mid ∈ (Importer.load_metric_sources rows).*1 ↔ mid ∈ (fun row => row.1.1.1) <$> rows).
Proof.
  unfold Importer.load_metric_sources.
  assert (∀ out,
    NoDup (out.*1) →
    NoDup ((fold_left (fun out row => let '(mid, sec, key, w) := row in
              Importer.setdefault_append mid
                {| metric_id := mid; section := sec; mc_key := key; weight := w |} out)
              rows out).*1) ∧
    (∀ mid, sources_get mid (fold_left (fun out row => let '(mid, sec, key, w) := row in
              Importer.setdefault_append mid
                {| metric_id := mid; section := sec; mc_key := key; weight := w |} out)
              rows out) = sources_get mid out ++ sources_of mid rows) ∧
    (∀ mid, mid ∈ (fold_left (fun out row => let '(mid, sec, key, w) := row in
              Importer.setdefault_append mid
                {| metric_id := mid; section := sec; mc_key := key; weight := w |} out)
              rows out).*1 ↔ mid ∈ out.*1 ∨ mid ∈ (fun row => row.1.1.1) <$> rows)) as H.
  { induction rows as [|[[[m sec] key] w] r IH]; intros out Hnd.
    - simpl. split; [done|]. split; [intros; by rewrite app_nil_r|set_solver].
    - simpl fold_left.
      destruct (IH (Importer.setdefault_append m
                      {| metric_id := m; section := sec; mc_key := key; weight := w |} out))
        as (I1 & I2 & I3); [by apply setdefault_append_NoDup|].
      split; [done|]. split.
      + intros mid. rewrite I2, setdefault_append_get. unfold sources_of. csimpl.
        destruct (String.eqb m mid); csimpl; by rewrite <-?app_assoc, ?app_nil_r.
      + intros mid. rewrite I3, setdefault_append_keys. csimpl. set_solver. }
  destruct (H []) as (H1 & H2 & H3); [constructor|].
  split; [done|]. split; [done|]. intros mid. rewrite H3. set_solver.
Qed.

(** ** Wall banners *)

Definition is_wall_banner (k : string) : bool := Py.endswith k "_wall_banner".

Lemma filter_filter_same {A} (f : A → bool) (l : list A) :
  List.filter f (List.filter f l) = List.filter f l.
Proof.
  induction l as [|x r IH]; simpl; [done|].
  destruct (f x) eqn:E; simpl; rewrite ?E, IH; done.
Qed.

(** After [strip_wall_banners] no section dict holds a key ending in
    [_wall_banner], every other entry is kept in place, and stripping
    again changes nothing. *)
Theorem strip_wall_banners_clean stats :
  Importer.strip_wall_banners (Importer.strip_wall_banners stats)
  = Importer.strip_wall_banners stats ∧
  (Importer.strip_wall_banners stats).*1 = stats.*1 ∧
  (∀ sec d k v, (sec, JDict d) ∈ Importer.strip_wall_banners stats →
                (k, v) ∈ d → is_wall_banner k = false) ∧
  (∀ sec d k v, (sec, JDict d) ∈ stats → (k, v) ∈ d → is_wall_banner k = false →
                ∃ d', (sec, JDict d') ∈ Importer.strip_wall_banners stats ∧ (k, v) ∈ d').
Proof.
  unfold Importer.strip_wall_banners. split; [|split; [|split]].
  - induction stats as [|[sec v] r IH]; simpl; [done|]. rewrite IH. f_equal.
    destruct v; simpl; try done. by rewrite filter_filter_same.
  - induction stats as [|[sec v] r IH]; simpl; [done|].
    f_equal; [by destruct v|apply IH].
  - intros sec d k v Hin Hk. apply list_elem_of_In, in_map_iff in Hin as ([sec' v'] & E & _).
    destruct v'; simpl in E; simplify_eq.
    apply list_elem_of_In, filter_In in Hk as [_ Hk]. simpl in Hk.
    unfold is_wall_banner. by destruct (Py.endswith k "_wall_banner").
  - intros sec d k v Hin Hk Hb. eexists. split.
    + apply list_elem_of_In, in_map_iff. exists (sec, JDict d). split; [done|].
      by apply list_elem_of_In.
    + apply list_elem_of_In, filter_In. split; [by apply list_elem_of_In|].
      simpl. unfold is_wall_banner in Hb. by rewrite Hb.
Qed.

(** An entry whose key ends in [_wall_banner] does not reach the
    canonical bytes: with it or without it, the normalised tree, the
    bytes and the digest are the same, so it never marks a player as
    changed. *)
Theorem wall_banner_entry_ignored pre sec d1 k v d2 post :
  is_wall_banner k = true →
  Importer.strip_wall_banners (pre ++ (sec, JDict (d1 ++ (k, v) :: d2)) :: post)
  = Importer.strip_wall_banners (pre ++ (sec, JDict (d1 ++ d2)) :: post) ∧
  Sha1.sha1 (Importer.canonical_bytes
    (Importer.strip_wall_banners (pre ++ (sec, JDict (d1 ++ (k, v) :: d2)) :: post)))
  = Sha1.sha1 (Importer.canonical_bytes
    (Importer.strip_wall_banners (pre ++ (sec, JDict (d1 ++ d2)) :: post))).
Proof.
  intros Hk.
  assert (Importer.strip_wall_banners (pre ++ (sec, JDict (d1 ++ (k, v) :: d2)) :: post)
          = Importer.strip_wall_banners (pre ++ (sec, JDict (d1 ++ d2)) :: post)) as E.
  { unfold Importer.strip_wall_banners. rewrite !map_app. simpl.
    rewrite !List.filter_app. simpl. unfold is_wall_banner in Hk. by rewrite Hk. }
  by rewrite E.
Qed.

Lemma wall_banner_entry_ignored_witness :
  Importer.strip_wall_banners
    ([] ++ ("minecraft:used", JDict ([("minecraft:bow", JInt 2)]
                                      ++ ("minecraft:red_wall_banner", JInt 9) :: [])) :: [])
  = Importer.strip_wall_banners
      ([] ++ ("minecraft:used", JDict ([("minecraft:bow", JInt 2)] ++ [])) :: []) ∧
  Sha1.sha1 (Importer.canonical_bytes (Importer.strip_wall_banners
    ([] ++ ("minecraft:used", JDict ([("minecraft:bow", JInt 2)]
                                      ++ ("minecraft:red_wall_banner", JInt 9) :: [])) :: [])))
  = Sha1.sha1 (Importer.canonical_bytes (Importer.strip_wall_banners
    ([] ++ ("minecraft:used", JDict ([("minecraft:bow", JInt 2)] ++ [])) :: []))).
Proof.
  apply (wall_banner_entry_ignored [] "minecraft:used" [("minecraft:bow", JInt 2)]
           "minecraft:red_wall_banner" (JInt 9) [] []).
  reflexivity.
Defined.

(** ** Flushing a batch of changed players *)

(** [flush_changed_batch] deletes before it inserts: afterwards every
    [metric_value] row of the run for a player of the batch is one of the
    buffered rows, so a metric that fell to zero leaves no stale row; and
    any row at all is a buffered row or was in the table before. *)
Theorem write_changed_replaces_metrics now rid cu sb mb d r :
  r ∈ metric_value (Importer.write_changed now rid cu sb mb d) →
  (r ∈ Importer.mv_row_of <$> mb ∨ r ∈ metric_value d) ∧
  (mv_run r = rid → mv_uuid r ∈ cu → r ∈ Importer.mv_row_of <$> mb).
Proof.
  unfold Importer.write_changed. simpl.
  assert (∀ buf t, r ∈ fold_left (fun t row => Db.upsert_mv (Importer.mv_row_of row) t) buf t →
                   r ∈ Importer.mv_row_of <$> buf ∨ r ∈ t) as H.
  { induction buf as [|row rest IH]; intros t Hr; simpl in *; [by right|].
    apply IH in Hr as [Hr|Hr]; [left; by right|].
    apply upsert_mv_elem in Hr as [->|Hr]; [left; left|by right]. }
  intros Hr. apply H in Hr as [Hr|Hr]; [by split; [left|]|].
  unfold Importer.delete_metrics_of in Hr. apply list_elem_of_filter in Hr as [Hn Hr].
  split; [by right|]. intros H1 H2. destruct Hn. done.
Qed.

Lemma write_changed_replaces_metrics_witness :
  ({| mv_run := 1; mv_metric := "blocks"; mv_uuid := id_a; mv_value := 7 |}
     ∈ Importer.mv_row_of <$> [(1, "blocks", id_a, 7)] ∨
   {| mv_run := 1; mv_metric := "blocks"; mv_uuid := id_a; mv_value := 7 |}
     ∈ metric_value db_two_metrics) ∧
  (mv_run {| mv_run := 1; mv_metric := "blocks"; mv_uuid := id_a; mv_value := 7 |} = 1 →
   mv_uuid {| mv_run := 1; mv_metric := "blocks"; mv_uuid := id_a; mv_value := 7 |} ∈ [id_a] →
   {| mv_run := 1; mv_metric := "blocks"; mv_uuid := id_a; mv_value := 7 |}
     ∈ Importer.mv_row_of <$> [(1, "blocks", id_a, 7)]).
Proof.
  apply (write_changed_replaces_metrics "t" 1 [id_a] [] [(1, "blocks", id_a, 7)] db_two_metrics).
  vm_compute. do 2 right. left.
Defined.

(** ** Primary keys *)

Definition profile_key (r : profile_row) : Z * bytes := (pp_run r, pp_uuid r).
Definition mv_key (r : mv_row) : Z * string * bytes := (mv_run r, mv_metric r, mv_uuid r).

(** The three player tables respect their primary keys. *)
Definition keys_unique (d : database) : Prop :=
  NoDup (profile_key <$> player_profile d) ∧
  NoDup (stats_key <$> player_stats d) ∧
  NoDup (mv_key <$> metric_value d).

Lemma filter_key_NoDup {A K} (key : A → K) (P : A → Prop) `{∀ x, Decision (P x)} (l : list A) :
  NoDup (key <$> l) → NoDup (key <$> filter P l).
Proof.
  induction l as [|x r IH]; simpl; intros Hnd; [done|]. inv Hnd.
  destruct (decide (P x)).
  - rewrite filter_cons_True by done. simpl. constructor; [|by apply IH].
    intros Hin. apply list_elem_of_fmap in Hin as (x' & Hk & Hx').
    apply list_elem_of_filter in Hx' as [_ Hx'].
    match goal with H : _ ∉ _ |- _ => apply H end.
    rewrite Hk. by apply list_elem_of_fmap_2.
  - rewrite filter_cons_False by done. by apply IH.
Qed.

Lemma upsert_profile_keys hs hc t tbl k :
  k ∈ profile_key <$> Importer.upsert_profile hs hc t tbl
  ↔ k = (pt_run t, pt_uuid t) ∨ k ∈ profile_key <$> tbl.
Proof.
  induction tbl as [|r rest IH]; simpl; [set_solver|].
  destruct (_ && _) eqn:E; simpl.
  - apply andb_prop in E as [E1 E2]. apply Z.eqb_eq in E1. apply String.eqb_eq in E2.
    rewrite !elem_of_cons. unfold profile_key at 1 3. simpl. rewrite E1, E2. tauto.
  - rewrite !elem_of_cons, IH. tauto.
Qed.

Lemma upsert_profile_NoDup hs hc t tbl :
  NoDup (profile_key <$> tbl) → NoDup (profile_key <$> Importer.upsert_profile hs hc t tbl).
Proof.
  induction tbl as [|r rest IH]; simpl; intros Hnd.
  - repeat constructor. set_solver.
  - inv Hnd. destruct (_ && _) eqn:E; simpl.
    + by constructor.
    + constructor; [|by apply IH].
      rewrite upsert_profile_keys. intros [Hk|?]; [|done].
      unfold profile_key in Hk. injection Hk as Ka Kb.
      by rewrite Ka, Kb, Z.eqb_refl, String.eqb_refl in E.
Qed.

Lemma upsert_mv_keys row t k :
  k ∈ mv_key <$> Db.upsert_mv row t ↔ k = mv_key row ∨ k ∈ mv_key <$> t.
Proof.
  induction t as [|r rest IH]; simpl; [set_solver|].
  destruct (_ && _) eqn:E; simpl.
  - apply andb_prop in E as [E E3]. apply andb_prop in E as [E1 E2].
    apply Z.eqb_eq in E1. apply String.eqb_eq in E2, E3.
    rewrite !elem_of_cons. unfold mv_key at 1 3 4. rewrite E1, E2, E3. tauto.
  - rewrite !elem_of_cons, IH. tauto.
Qed.

Lemma upsert_mv_NoDup row t :
  NoDup (mv_key <$> t) → NoDup (mv_key <$> Db.upsert_mv row t).
Proof.
  induction t as [|r rest IH]; simpl; intros Hnd.
  - repeat constructor. set_solver.
  - inv Hnd. destruct (_ && _) eqn:E; simpl.
    + apply andb_prop in E as [E E3]. apply andb_prop in E as [E1 E2].
      apply Z.eqb_eq in E1. apply String.eqb_eq in E2, E3.
      constructor; [|done]. unfold mv_key at 1. rewrite <-E1, <-E2, <-E3. done.
    + constructor; [|by apply IH].
      rewrite upsert_mv_keys. intros [Hk|?]; [|done].
      unfold mv_key in Hk. injection Hk as Ka Kb Kc.
      by rewrite Ka, Kb, Kc, Z.eqb_refl, !String.eqb_refl in E.
Qed.

Lemma fold_upsert_NoDup {A B K} (key : A → K) (up : B → list A → list A) buf :
  (∀ b t, NoDup (key <$> t) → NoDup (key <$> up b t)) →
  ∀ t, NoDup (key <$> t) → NoDup (key <$> fold_left (fun t b => up b t) buf t).
Proof.
  intros Hup. induction buf as [|b r IH]; intros t Ht; simpl; [done|]. by apply IH, Hup.
Qed.

Lemma flush_profiles_keys hs hc st :
  keys_unique (db st) → keys_unique (db (Importer.flush_profiles hs hc st)).
Proof.
  intros (H1 & H2 & H3). unfold Importer.flush_profiles.
  destruct (profile_buf st) as [|t buf]; [done|].
  split; [|done].
  apply (fold_upsert_NoDup profile_key (Importer.upsert_profile hs hc) (t :: buf));
    [apply upsert_profile_NoDup|done].
Qed.

Lemma write_changed_keys now rid cu sb mb d :
  keys_unique d → keys_unique (Importer.write_changed now rid cu sb mb d).
Proof.
  intros (H1 & H2 & H3). unfold Importer.write_changed. split; [done|]. split; simpl.
  - apply (fold_upsert_NoDup stats_key
             (fun row t => Db.upsert_stats (Importer.stats_row_of now row) t) sb); [|done].
    intros; by apply upsert_stats_NoDup.
  - apply (fold_upsert_NoDup mv_key
             (fun row t => Db.upsert_mv (Importer.mv_row_of row) t) mb).
    + intros; by apply upsert_mv_NoDup.
    + by apply filter_key_NoDup.
Qed.

Lemma flush_changed_batch_keys now rid st :
  keys_unique (db st) → keys_unique (db (Importer.flush_changed_batch now rid st)).
Proof.
  intros H. unfold Importer.flush_changed_batch.
  destruct (changed_uuids st) as [|u cu]; [done|]. by apply write_changed_keys.
Qed.

Lemma process_file_keys a e rid profiles msrc st f :
  keys_unique (db st) → keys_unique (db (Importer.process_file a e rid profiles msrc st f)).
Proof.
  intros H. unfold Importer.process_file.
  destruct (sf_uuid f) as [u|]; [|done]. destruct (decide _); [done|].
  destruct (sf_raw f); [|done]. destruct (_ <? _); [done|].
  unfold Importer.process_kept.
  set (st0 := Importer.set_counters _ _ _ (Importer.set_counters _ _ _ st)).
  assert (keys_unique (db (Importer.buffer_seen a u st0))) as H1.
  { by destruct (buffer_seen_profiles a u st0) as [_ ->]. }
  assert (∀ t s, keys_unique (db s) → keys_unique (db (Importer.buffer_profile a e t s))) as Hbp.
  { intros t s Hs. unfold Importer.buffer_profile. destruct (dry_run a); [done|].
    destruct (_ <=? _); [|done]. by apply flush_profiles_keys. }
  pose proof (Hbp (Importer.profile_tuple_of e rid profiles u) _ H1) as H2.
  destruct (decide _); [done|].
  unfold Importer.record_changed. destruct (dry_run a); [done|].
  destruct (_ <=? _); [|done]. by apply flush_changed_batch_keys.
Qed.

Lemma king_step_keys a e rid d : keys_unique d → keys_unique (Importer.king_step a e rid d).
Proof.
  intros (H1 & H2 & H3). unfold Importer.king_step. destruct (no_king a); [done|].
  destruct (Importer.parse_king_points _) as [pts|]; [|done].
  match goal with
  | |- context [Importer.recompute_king_points ?r ?m ?k ?p d] =>
      destruct (recompute_king_points_fields r m k p d)
        as (_ & _ & _ & E4 & E5 & _ & E7 & _);
      destruct (king_awards_spec r m k p true (metric_value d)) as [[Hnd Hpos] _]
  end.
  split; [by rewrite E4|]. split; [by rewrite E5|].
  rewrite E7, (king_rows_map _ _ _ Hpos), fmap_app. apply NoDup_app. split; [|split].
  - by apply filter_key_NoDup.
  - intros k Hk1 Hk2.
    apply list_elem_of_fmap in Hk1 as (r1 & -> & Hr1).
    apply list_elem_of_filter in Hr1 as [Hn _].
    apply list_elem_of_fmap in Hk2 as (r2 & Hk & Hr2).
    apply list_elem_of_fmap in Hr2 as (it & -> & _).
    unfold mv_key in Hk. simpl in Hk. injection Hk as Ha Hb _. by destruct Hn.
  - rewrite <-list_fmap_compose.
    apply (NoDup_fmap_1 (fun k => k.2)). rewrite <-list_fmap_compose. done.
Qed.

(** If the three player tables respect their primary keys before the
    run (at most one row per run and player in [player_profile] and
    [player_stats], per run, metric and player in [metric_value]), they
    do so after it, in every mode. *)
Theorem main_keeps_primary_keys a e d :
  keys_unique d → keys_unique (final_db (Importer.main a e d)).
Proof.
  intros H. unfold Importer.main.
  assert (keys_unique (Importer.ensure_run_id (db_now e) d).2) as H1.
  { unfold Importer.ensure_run_id. by destruct (site_state d) as [[]|]. }
  destruct (Importer.ensure_run_id (db_now e) d) as [rid d1]. simpl in H1.
  destruct (Importer.load_metric_sources (metric_source_rows e)) eqn:El; [done|].
  assert (keys_unique (db (Importer.scan a e rid d1))) as H2.
  { unfold Importer.scan.
    assert (keys_unique (db (Importer.init_state rid d1))) as H0 by done.
    revert H0. generalize (Importer.init_state rid d1).
    induction (stats_files e) as [|f r IH]; intros st Hst; simpl; [done|].
    by apply IH, process_file_keys. }
  destruct (dry_run a); simpl; [done|].
  apply (king_step_keys a e rid).
  assert (keys_unique (db (Importer.flush_all e rid (Importer.scan a e rid d1)))) as H3.
  { unfold Importer.flush_all. apply flush_changed_batch_keys, flush_profiles_keys.
    unfold Importer.flush_seen. by destruct (seen_buf _). }
  destruct H3 as (K1 & K2 & K3). unfold Importer.cleanup.
  split; [|split]; simpl; by apply filter_key_NoDup.
Qed.

Lemma main_keeps_primary_keys_witness :
  keys_unique (final_db (Importer.main args_live env_same_id db_two_metrics)).
Proof.
  apply (main_keeps_primary_keys args_live env_same_id db_two_metrics).
  repeat split; apply (bool_decide_unpack (NoDup _)); vm_compute; exact I.
Defined.

(** ** Digest and payload *)

(** The row stores the SHA-1 of the payload it stores. *)
Definition digest_matches (r : stats_row) : Prop :=
  ps_sha1 r = Sha1.sha1 (gz_payload (ps_gzip r)).

(** Every row of [t] was in [t0] or was written with matching digest. *)
Definition stats_sound (now : string) (t0 t : list stats_row) : Prop :=
  ∀ r, r ∈ t → r ∈ t0 ∨ (digest_matches r ∧ ps_updated_at r = now).

Definition stats_buf_sound (buf : list (Z * bytes * gzip_blob * bytes)) : Prop :=
  Forall (fun row => row.2 = Sha1.sha1 (gz_payload row.1.2)) buf.

Definition sound_state (e : env) (t0 : list stats_row) (st : pass_state) : Prop :=
  stats_buf_sound (stats_buf st) ∧ stats_sound (db_now e) t0 (player_stats (db st)).

Lemma upsert_stats_elem row t r : r ∈ Db.upsert_stats row t → r = row ∨ r ∈ t.
Proof.
  induction t as [|x rest IH]; simpl; [set_solver|].
  destruct (_ && _); [set_solver|].
  rewrite !elem_of_cons. naive_solver.
Qed.

Lemma flush_changed_batch_sound e t0 rid st :
  sound_state e t0 st → sound_state e t0 (Importer.flush_changed_batch (db_now e) rid st).
Proof.
  intros [Hb Hd]. unfold Importer.flush_changed_batch.
  destruct (changed_uuids st) as [|u0 cu]; [done|]. split; [simpl; constructor|].
  unfold Importer.write_changed. simpl.
  revert Hd. generalize (player_stats (db st)).
  induction Hb as [|[[[r0 u] gz] sha] rest Hrow _ IH]; intros t Ht; simpl; [done|].
  apply IH. intros r Hr. apply upsert_stats_elem in Hr as [->|Hr]; [|by apply Ht].
  right. split; [|done]. unfold digest_matches. simpl in *. done.
Qed.

Lemma process_file_sound a e t0 rid profiles msrc st f :
  sound_state e t0 st → sound_state e t0 (Importer.process_file a e rid profiles msrc st f).
Proof.
  intros H. unfold Importer.process_file.
  destruct (sf_uuid f) as [u|]; [|done]. destruct (decide _); [done|].
  destruct (sf_raw f) as [raw|]; [|done]. destruct (_ <? _); [done|].
  unfold Importer.process_kept.
  set (st0 := Importer.set_counters _ _ _ (Importer.set_counters _ _ _ st)).
  set (st2 := Importer.buffer_profile a e _ (Importer.buffer_seen a u st0)).
  assert (same_stats_side st0 st2) as Hs.
  { eapply same_stats_side_trans;
      [apply buffer_seen_stats_side|apply buffer_profile_stats_side]. }
  assert (sound_state e t0 st2) as [Hb2 Hd2].
  { destruct H as [Hb Hd]. unfold same_stats_side in Hs. destruct_and!.
    split.
    - by replace (stats_buf st2) with (stats_buf st0).
    - by replace (player_stats (db st2)) with (player_stats (db st0)). }
  destruct (decide _); [by split|].
  unfold Importer.record_changed. destruct (dry_run a); [by split|].
  match goal with
  | |- sound_state _ _ (if _ then Importer.flush_changed_batch _ _ ?s else _) =>
      assert (sound_state e t0 s) as H4
  end.
  { split; simpl; [|done]. apply Forall_app. split; [done|]. by repeat constructor. }
  destruct (_ <=? _); [by apply flush_changed_batch_sound|done].
Qed.

(** No drift: every [player_stats] row the run leaves behind either was
    there before the run, or stores the SHA-1 of the payload it stores
    and was stamped with the server's [NOW()]. *)
Theorem stats_rows_written_match_digest a e d r :
  r ∈ player_stats (final_db (Importer.main a e d)) →
  r ∈ player_stats d ∨ (digest_matches r ∧ ps_updated_at r = db_now e).
Proof.
  unfold Importer.main.
  destruct (ensure_run_id_frame (db_now e) d) as (E0 & _ & _).
  destruct (Importer.ensure_run_id (db_now e) d) as [rid d1]. simpl in E0.
  destruct (Importer.load_metric_sources (metric_source_rows e)) eqn:El; simpl;
    [rewrite E0; auto|].
  assert (sound_state e (player_stats d) (Importer.scan a e rid d1)) as Hs.
  { unfold Importer.scan.
    assert (sound_state e (player_stats d) (Importer.init_state rid d1)) as H0.
    { split; simpl; [constructor|]. rewrite E0. intros r'; auto. }
    revert H0. generalize (Importer.init_state rid d1).
    induction (stats_files e) as [|f rest IH]; intros st Hst; simpl; [done|].
    by apply IH, process_file_sound. }
  destruct (dry_run a); simpl; [apply Hs|].
  destruct (king_step_frame a e rid
    (Importer.cleanup rid (tmp_seen (Importer.flush_all e rid (Importer.scan a e rid d1)))
       (db (Importer.flush_all e rid (Importer.scan a e rid d1))))) as [_ ->].
  unfold Importer.cleanup. simpl. intros Hr. apply list_elem_of_filter in Hr as [_ Hr].
  revert Hr. unfold Importer.flush_all.
  apply (flush_changed_batch_sound e (player_stats d) rid).
  destruct Hs as [Hb Hd].
  pose proof (flush_seen_stats_side (Importer.scan a e rid d1)) as S1.
  pose proof (flush_profiles_stats_side (has_source e) (has_checked e)
                (Importer.flush_seen (Importer.scan a e rid d1))) as S2.
  unfold same_stats_side in S1, S2. destruct_and!. split.
  - by repeat match goal with H : stats_buf _ = _ |- _ => rewrite H; clear H end.
  - by repeat match goal with H : player_stats _ = _ |- _ => rewrite H; clear H end.
Qed.

Lemma stats_rows_written_match_digest_witness :
  {| ps_run := 1; ps_uuid := id_a;
     ps_gzip := gzip_compress (Importer.canonical_bytes stats_a);
     ps_sha1 := Sha1.sha1 (Importer.canonical_bytes stats_a);
     ps_updated_at := db_now env_one |} ∈ player_stats db_active ∨
  (digest_matches
     {| ps_run := 1; ps_uuid := id_a;
        ps_gzip := gzip_compress (Importer.canonical_bytes stats_a);
        ps_sha1 := Sha1.sha1 (Importer.canonical_bytes stats_a);
        ps_updated_at := db_now env_one |} ∧
   ps_updated_at
     {| ps_run := 1; ps_uuid := id_a;
        ps_gzip := gzip_compress (Importer.canonical_bytes stats_a);
        ps_sha1 := Sha1.sha1 (Importer.canonical_bytes stats_a);
        ps_updated_at := db_now env_one |} = db_now env_one).
Proof.
  apply (stats_rows_written_match_digest args_live env_one db_active).
  vm_compute. left.
Defined.

(** ** Profiles are refreshed for every kept player *)

(** [player_profile] as it will stand once the buffered tuples are
    flushed. *)
Definition profile_pending (e : env) (st : pass_state) : list profile_row :=
  fold_left (fun tbl t => Importer.upsert_profile (has_source e) (has_checked e) t tbl)
    (profile_buf st) (player_profile (db st)).

Lemma upsert_profile_other hs hc t tbl r :
  r ∈ tbl → profile_key r ≠ (pt_run t, pt_uuid t) → r ∈ Importer.upsert_profile hs hc t tbl.
Proof.
  induction tbl as [|x rest IH]; simpl; intros Hr Hk; [by inv Hr|].
  destruct (_ && _) eqn:E.
  - inv Hr; [|by right]. exfalso. apply Hk.
    apply andb_prop in E as [E1 E2]. apply Z.eqb_eq in E1. apply String.eqb_eq in E2.
    unfold profile_key. by rewrite E1, E2.
  - inv Hr; [left|right; by apply IH].
Qed.

Lemma upsert_profile_preserves hs hc t t' tbl :
  ((pt_run t', pt_uuid t') = (pt_run t, pt_uuid t) → t' = t) →
  (∃ r, r ∈ tbl ∧ profile_written t r) →
  ∃ r, r ∈ Importer.upsert_profile hs hc t' tbl ∧ profile_written t r.
Proof.
  intros Hsame (r & Hr & Hw).
  destruct (decide ((pt_run t', pt_uuid t') = (pt_run t, pt_uuid t))) as [E|E].
  - rewrite (Hsame E). apply upsert_profile_written.
  - exists r. split; [|done]. apply upsert_profile_other; [done|].
    destruct Hw as (W1 & W2 & _). unfold profile_key. rewrite W1, W2. congruence.
Qed.

Lemma flush_profiles_pending e st :
  profile_pending e (Importer.flush_profiles (has_source e) (has_checked e) st)
  = profile_pending e st.
Proof.
  unfold Importer.flush_profiles, profile_pending.
  destruct (profile_buf st) eqn:E; simpl; rewrite ?E; done.
Qed.

Lemma flush_profiles_flushed e st :
  player_profile (db (Importer.flush_profiles (has_source e) (has_checked e) st))
  = profile_pending e st.
Proof.
  unfold Importer.flush_profiles, profile_pending.
  destruct (profile_buf st) eqn:E; simpl; rewrite ?E; done.
Qed.

Lemma buffer_profile_pending a e t st :
  dry_run a = false →
  profile_pending e (Importer.buffer_profile a e t st)
  = Importer.upsert_profile (has_source e) (has_checked e) t (profile_pending e st).
Proof.
  intros Hd. unfold Importer.buffer_profile. rewrite Hd.
  assert (profile_pending e (Importer.set_profile_buf (profile_buf st ++ [t]) st)
          = Importer.upsert_profile (has_source e) (has_checked e) t (profile_pending e st)) as H.
  { unfold profile_pending. simpl. by rewrite fold_left_app. }
  destruct (_ <=? _); [by rewrite flush_profiles_pending|done].
Qed.

Lemma flush_changed_batch_profiles now rid st :
  profile_buf (Importer.flush_changed_batch now rid st) = profile_buf st ∧
  player_profile (db (Importer.flush_changed_batch now rid st)) = player_profile (db st).
Proof. unfold Importer.flush_changed_batch. by destruct (changed_uuids st). Qed.

Lemma record_changed_profiles e a rid msrc u stats jb sha st :
  profile_pending e (Importer.record_changed a e rid msrc u stats jb sha st)
  = profile_pending e st.
Proof.
  unfold Importer.record_changed. destruct (dry_run a); [done|].
  destruct (_ <=? _); [|done]. unfold profile_pending.
  match goal with
  | |- context [Importer.flush_changed_batch ?n ?r ?s] =>
      by destruct (flush_changed_batch_profiles n r s) as [-> ->]
  end.
Qed.

(** The tuple written for player [u] is in the pending table. *)
Definition profile_fresh (e : env) (rid : Z)
  (profiles : gmap bytes (string * option string * option string))
  (st : pass_state) (u : bytes) : Prop :=
  ∃ r, r ∈ profile_pending e st ∧
       profile_written (Importer.profile_tuple_of e rid profiles u) r.

Lemma profile_tuple_of_key e rid profiles u :
  pt_run (Importer.profile_tuple_of e rid profiles u) = rid ∧
  pt_uuid (Importer.profile_tuple_of e rid profiles u) = u ∧
  pt_last_seen (Importer.profile_tuple_of e rid profiles u) = now_ts e.
Proof.
  unfold Importer.profile_tuple_of. by destruct (Importer.resolve_name e profiles u) as [[? ?] ?].
Qed.

Lemma process_file_profile_fresh a e rid profiles msrc st f :
  dry_run a = false →
  (∀ u, profile_fresh e rid profiles st u →
        profile_fresh e rid profiles (Importer.process_file a e rid profiles msrc st f) u) ∧
  (∀ u, kept_id a e f = Some u →
        profile_fresh e rid profiles (Importer.process_file a e rid profiles msrc st f) u).
Proof.
  intros Hd. unfold Importer.process_file, kept_id.
  destruct (sf_uuid f) as [u0|]; [|by split].
  destruct (sf_raw f) as [raw|]; [|by destruct (decide _); split].
  destruct (decide _); [by split|]. destruct (_ <? _); [by split|].
  unfold Importer.process_kept.
  set (st0 := Importer.set_counters _ _ _ (Importer.set_counters _ _ _ st)).
  set (t0 := Importer.profile_tuple_of e rid profiles u0).
  assert (∀ s, profile_pending e
            (if decide (existing_hash (Importer.buffer_profile a e t0 (Importer.buffer_seen a u0 st0))
                          !! u0 = Some s)
             then Importer.buffer_profile a e t0 (Importer.buffer_seen a u0 st0)
             else Importer.record_changed a e rid msrc u0 (Importer.stats_of_raw raw)
                    (Importer.canonical_bytes (Importer.stats_of_raw raw)) s
                    (Importer.buffer_profile a e t0 (Importer.buffer_seen a u0 st0)))
          = Importer.upsert_profile (has_source e) (has_checked e) t0 (profile_pending e st)) as Hp.
  { intros s. destruct (decide _); rewrite ?record_changed_profiles;
      rewrite buffer_profile_pending by done; unfold profile_pending;
      by destruct (buffer_seen_profiles a u0 st0) as [-> ->]. }
  split.
  - intros u Hu. unfold profile_fresh. rewrite Hp.
    apply upsert_profile_preserves; [|done].
    destruct (profile_tuple_of_key e rid profiles u0) as (K1 & K2 & _).
    destruct (profile_tuple_of_key e rid profiles u) as (K3 & K4 & _).
    unfold t0. rewrite K1, K2, K3, K4. by intros [= ->].
  - intros u [= <-]. unfold profile_fresh. rewrite Hp. apply upsert_profile_written.
Qed.

Lemma scan_profile_fresh a e rid d u :
  dry_run a = false → u ∈ kept_ids a e →
  profile_fresh e rid
    (Importer.load_existing_profile_meta rid (has_source e) (has_checked e) d)
    (Importer.scan a e rid d) u.
Proof.
  intros Hd. unfold Importer.scan, kept_ids.
  generalize (Importer.init_state rid d).
  induction (stats_files e) as [|f r IH]; intros st Hu; simpl in *; [by inv Hu|].
  destruct (process_file_profile_fresh a e rid
    (Importer.load_existing_profile_meta rid (has_source e) (has_checked e) d)
    (Importer.load_metric_sources (metric_source_rows e)) st f Hd) as [H1 H2].
  destruct (decide (u ∈ omap (kept_id a e) r)) as [Hin|Hnin]; [by apply IH|].
  assert (kept_id a e f = Some u) as Hk.
  { destruct (kept_id a e f); [|done]. set_solver. }
  specialize (H2 u Hk). clear IH Hu Hnin Hk H1. revert H2.
  generalize (Importer.process_file a e rid
    (Importer.load_existing_profile_meta rid (has_source e) (has_checked e) d)
    (Importer.load_metric_sources (metric_source_rows e)) st f).
  induction r as [|f' r IH]; intros st' H'; simpl; [done|].
  apply IH.
  by apply (proj1 (process_file_profile_fresh a e rid
    (Importer.load_existing_profile_meta rid (has_source e) (has_checked e) d)
    (Importer.load_metric_sources (metric_source_rows e)) st' f' Hd)).
Qed.

(** After a pass that is no dry run every kept player has a
    [player_profile] row in the run, carrying the name the resolution
    chain gives for that player, its lower-case form and the pass's
    timestamp as [last_seen]. *)
Theorem kept_player_profile_refreshed a e d u :
  dry_run a = false →
  Importer.load_metric_sources (metric_source_rows e) ≠ [] →
  u ∈ kept_ids a e →
  ∃ r, r ∈ player_profile (final_db (Importer.main a e d)) ∧
       pp_run r = (Importer.ensure_run_id (db_now e) d).1 ∧ pp_uuid r = u ∧
       pp_name r
       = (Importer.resolve_name e
            (Importer.load_existing_profile_meta (Importer.ensure_run_id (db_now e) d).1
               (has_source e) (has_checked e) (Importer.ensure_run_id (db_now e) d).2) u).1.1 ∧
       pp_name_lc r = Py.lower (pp_name r) ∧
       pp_last_seen r = now_ts e.
Proof.
  intros Hd Hm Hu. unfold Importer.main.
  destruct (Importer.ensure_run_id (db_now e) d) as [rid d1]. simpl.
  destruct (Importer.load_metric_sources (metric_source_rows e)) eqn:El; [done|].
  rewrite Hd. simpl.
  destruct (scan_profile_fresh a e rid d1 u Hd Hu) as (r & Hr & Hw).
  exists r. split.
  - assert (player_profile (Importer.king_step a e rid
        (Importer.cleanup rid (tmp_seen (Importer.flush_all e rid (Importer.scan a e rid d1)))
           (db (Importer.flush_all e rid (Importer.scan a e rid d1)))))
      = player_profile (Importer.cleanup rid
           (tmp_seen (Importer.flush_all e rid (Importer.scan a e rid d1)))
           (db (Importer.flush_all e rid (Importer.scan a e rid d1))))) as ->.
    { unfold Importer.king_step. destruct (no_king a); [done|].
      destruct (Importer.parse_king_points _); [|done].
      match goal with
      | |- context [Importer.recompute_king_points ?r ?m ?k ?p ?x] =>
          by destruct (recompute_king_points_fields r m k p x) as (_ & _ & _ & -> & _)
      end. }
    unfold Importer.cleanup. simpl. apply list_elem_of_filter. split.
    + intros [_ Hn]. apply Hn. rewrite flush_all_seen.
      unfold Importer.scan. rewrite fold_process_file_seen_all by done.
      destruct Hw as (_ & -> & _).
      destruct (profile_tuple_of_key e rid
        (Importer.load_existing_profile_meta rid (has_source e) (has_checked e) d1) u)
        as (_ & -> & _).
      unfold kept_ids in Hu. set_solver.
    + unfold Importer.flush_all.
      destruct (flush_changed_batch_profiles (db_now e) rid
        (Importer.flush_profiles (has_source e) (has_checked e)
           (Importer.flush_seen (Importer.scan a e rid d1)))) as [_ ->].
      rewrite flush_profiles_flushed.
      unfold profile_pending in *. unfold Importer.flush_seen.
      by destruct (seen_buf (Importer.scan a e rid d1)).
  - destruct Hw as (W1 & W2 & W3 & W4 & W5).
    unfold Importer.profile_tuple_of in *.
    destruct (Importer.resolve_name e _ u) as [[nm src] chk]. simpl in *.
    rewrite W3 in *. by repeat split.
Qed.

Lemma kept_player_profile_refreshed_witness :
  ∃ r, r ∈ player_profile (final_db (Importer.main args_live env_one db_active)) ∧
       pp_run r = (Importer.ensure_run_id (db_now env_one) db_active).1 ∧ pp_uuid r = id_a ∧
       pp_name r
       = (Importer.resolve_name env_one
            (Importer.load_existing_profile_meta
               (Importer.ensure_run_id (db_now env_one) db_active).1
               (has_source env_one) (has_checked env_one)
               (Importer.ensure_run_id (db_now env_one) db_active).2) id_a).1.1 ∧
       pp_name_lc r = Py.lower (pp_name r) ∧
       pp_last_seen r = now_ts env_one.
Proof.
  apply (kept_player_profile_refreshed args_live env_one db_active id_a);
    [reflexivity|discriminate|].
  vm_compute. left.
Defined.

(** ** [chunked] and the chunk-wise statements of [flush_changed_batch] *)

Lemma chunked_positive {A} (seq : list A) (n : Z) :
  0 < n → Importer.chunked seq n = Some (Importer.chunked_go (length seq) (Z.to_nat n) seq).
Proof.
  intros Hn. unfold Importer.chunked.
  destruct (n =? 0) eqn:E0; [lia|]. destruct (n <? 0) eqn:E1; [lia|done].
Qed.

Lemma chunked_go_concat {A} (fuel n : nat) (seq : list A) :
  (0 < n)%nat → (length seq ≤ fuel)%nat →
  concat (Importer.chunked_go fuel n seq) = seq.
Proof.
  intros Hn. revert seq. induction fuel as [|fuel IH]; intros seq Hl.
  - destruct seq; [done|simpl in Hl; lia].
  - destruct seq as [|x seq]; [done|].
    change (Importer.chunked_go (S fuel) n (x :: seq))
      with (take n (x :: seq) :: Importer.chunked_go fuel n (drop n (x :: seq))).
    rewrite concat_cons, IH, take_drop; [done|].
    rewrite length_drop. simpl in *. lia.
Qed.

Lemma chunked_go_lookup {A} (fuel n : nat) (seq : list A) (i : nat) (c : list A) :
  (0 < n)%nat → (length seq ≤ fuel)%nat →
  Importer.chunked_go fuel n seq !! i = Some c →
  c = take n (drop (i * n) seq) ∧ c ≠ [].
Proof.
  intros Hn. revert seq i. induction fuel as [|fuel IH]; intros seq i Hl Hc.
  - done.
  - destruct seq as [|x seq]; [done|].
    change (Importer.chunked_go (S fuel) n (x :: seq))
      with (take n (x :: seq) :: Importer.chunked_go fuel n (drop n (x :: seq))) in Hc.
    destruct i as [|i].
    + simpl in Hc. injection Hc as <-. split; [done|].
      destruct n; [lia|done].
    + simpl in Hc. apply IH in Hc as [-> Hne].
      * split; [|done]. rewrite drop_drop. repeat f_equal; lia.
      * rewrite length_drop. simpl in *. lia.
Qed.

Lemma chunked_go_length {A} (fuel n : nat) (seq : list A) :
  (0 < n)%nat → (length seq ≤ fuel)%nat →
  (length (Importer.chunked_go fuel n seq) * n < length seq + n)%nat ∧
  (length seq ≤ length (Importer.chunked_go fuel n seq) * n)%nat.
Proof.
  intros Hn. revert seq. induction fuel as [|fuel IH]; intros seq Hl.
  - destruct seq; simpl in *; lia.
  - destruct seq as [|x seq]; [simpl; lia|].
    change (Importer.chunked_go (S fuel) n (x :: seq))
      with (take n (x :: seq) :: Importer.chunked_go fuel n (drop n (x :: seq))).
    rewrite length_cons.
    destruct (IH (drop n (x :: seq))) as [H1 H2].
    { rewrite length_drop. rewrite length_cons in *. lia. }
    rewrite length_drop in H1, H2.
    generalize dependent (length (Importer.chunked_go fuel n (drop n (x :: seq)))).
    intros L H1 H2. rewrite length_cons in *.
    destruct L as [|L]; [lia|]. nia.
Qed.

(** [chunked] with a positive size cuts the list into consecutive slices:
    the slices put end to end give the list back, slice [i] is
    [seq[i*n : i*n + n]], no slice is empty, and there are
    ceil(len / n) of them. *)
Theorem chunked_slices {A} (seq : list A) (n : Z) :
  0 < n →
  ∃ cs, Importer.chunked seq n = Some cs ∧
        concat cs = seq ∧
        (∀ i c, cs !! i = Some c →
                c = take (Z.to_nat n) (drop (i * Z.to_nat n) seq) ∧ c ≠ []) ∧
        Z.of_nat (length seq) ≤ Z.of_nat (length cs) * n < Z.of_nat (length seq) + n.
Proof.
  intros Hn. exists (Importer.chunked_go (length seq) (Z.to_nat n) seq).
  split; [by apply chunked_positive|].
  split; [apply chunked_go_concat; lia|].
  split.
  - intros i c. apply chunked_go_lookup; lia.
  - destruct (chunked_go_length (length seq) (Z.to_nat n) seq) as [H1 H2]; [lia..|].
    nia.
Qed.

Lemma chunked_slices_witness :
  ∃ cs, Importer.chunked [1; 2; 3; 4; 5] 2 = Some cs ∧
        concat cs = [1; 2; 3; 4; 5] ∧
        (∀ i c, cs !! i = Some c →
                c = take (Z.to_nat 2) (drop (i * Z.to_nat 2) [1; 2; 3; 4; 5]) ∧ c ≠ []) ∧
        Z.of_nat (length [1; 2; 3; 4; 5]) ≤ Z.of_nat (length cs) * 2
          < Z.of_nat (length [1; 2; 3; 4; 5]) + 2.
Proof. apply (chunked_slices [1; 2; 3; 4; 5] 2). reflexivity. Defined.

Lemma fold_left_chunks {A B} (f : B → A → B) (cs : list (list A)) (b : B) :
  fold_left (fun t chunk => fold_left f chunk t) cs b = fold_left f (concat cs) b.
Proof.
  revert b. induction cs as [|c cs IH]; intros b; simpl; [done|].
  by rewrite IH, fold_left_app.
Qed.

Lemma delete_metrics_of_app rid c1 c2 t :
  Importer.delete_metrics_of rid c2 (Importer.delete_metrics_of rid c1 t)
  = Importer.delete_metrics_of rid (c1 ++ c2) t.
Proof.
  unfold Importer.delete_metrics_of.
  induction t as [|r t IH]; [done|].
  rewrite !filter_cons.
  destruct (decide (¬ (mv_run r = rid ∧ mv_uuid r ∈ c1))) as [H1|H1].
  - rewrite filter_cons.
    destruct (decide (¬ (mv_run r = rid ∧ mv_uuid r ∈ c2))) as [H2|H2];
      destruct (decide (¬ (mv_run r = rid ∧ mv_uuid r ∈ c1 ++ c2))) as [H3|H3].
    + by rewrite IH.
    + exfalso. apply H3. intros [? [?|?]%elem_of_app]; [apply H1|apply H2]; done.
    + exfalso. apply H2. intros [? ?]. apply H3. split; [done|]. apply elem_of_app. auto.
    + done.
  - destruct (decide (¬ (mv_run r = rid ∧ mv_uuid r ∈ c1 ++ c2))) as [H3|H3].
    + exfalso. apply H1. intros [? ?]. apply H3. split; [done|]. apply elem_of_app. auto.
    + done.
Qed.

Lemma delete_metrics_of_nil rid t : Importer.delete_metrics_of rid [] t = t.
Proof.
  unfold Importer.delete_metrics_of. induction t as [|r t IH]; [done|].
  rewrite filter_cons. destruct (decide _) as [H|H]; [by rewrite IH|].
  exfalso. apply H. intros [_ Hin]. by inv Hin.
Qed.

Lemma delete_metrics_of_chunks rid cs t :
  fold_left (fun t chunk => Importer.delete_metrics_of rid chunk t) cs t
  = Importer.delete_metrics_of rid (concat cs) t.
Proof.
  revert t. induction cs as [|c cs IH]; intros t; simpl.
  - by rewrite delete_metrics_of_nil.
  - by rewrite IH, delete_metrics_of_app.
Qed.

Lemma chunked_concat {A} (seq : list A) (n : Z) :
  0 < n → concat (default [] (Importer.chunked seq n)) = seq.
Proof.
  intros Hn. rewrite chunked_positive by done. simpl. apply chunked_go_concat; lia.
Qed.

(** The chunk sizes of [flush_changed_batch] do not show in the tables:
    issuing the delete by 1500 uuids, the [player_stats] rows by 500 and
    the [metric_value] rows by 2000 leaves the same tables as one delete
    for all uuids followed by the rows one by one. *)
Theorem flush_changed_batch_chunks_invisible now rid cu sb mb d :
  Importer.write_changed_chunked now rid cu sb mb d
  = Importer.write_changed now rid cu sb mb d.
Proof.
  unfold Importer.write_changed_chunked, Importer.write_changed.
  rewrite delete_metrics_of_chunks, !fold_left_chunks.
  by rewrite !chunked_concat by lia.
Qed.

(** ** What [load_existing_hashes] loads, and what a pass leaves for it *)

Lemma load_existing_hashes_snoc rid t r :
  fold_left
    (fun out r =>
       if (ps_run r =? rid) && (String.length (ps_sha1 r) =? 20)%nat
       then <[ps_uuid r := ps_sha1 r]> out else out) (t ++ [r]) (∅ : gmap bytes bytes)
  = let out := fold_left
      (fun out r =>
         if (ps_run r =? rid) && (String.length (ps_sha1 r) =? 20)%nat
         then <[ps_uuid r := ps_sha1 r]> out else out) t (∅ : gmap bytes bytes) in
    if (ps_run r =? rid) && (String.length (ps_sha1 r) =? 20)%nat
    then <[ps_uuid r := ps_sha1 r]> out else out.
Proof. by rewrite fold_left_app. Qed.

(** [load_existing_hashes] maps a player to a digest only if
    [player_stats] holds a row of the run for that player with that
    digest, 20 bytes long; and it leaves a player out exactly when no row
    of the run for that player has a 20-byte digest. *)
Theorem load_existing_hashes_rows rid d u :
  (∀ s, Importer.load_existing_hashes rid d !! u = Some s →
        ∃ r, r ∈ player_stats d ∧ ps_run r = rid ∧ ps_uuid r = u ∧ ps_sha1 r = s ∧
             String.length s = 20%nat) ∧
  (Importer.load_existing_hashes rid d !! u = None ↔
   ∀ r, r ∈ player_stats d → ps_run r = rid → ps_uuid r = u →
        String.length (ps_sha1 r) ≠ 20%nat).
Proof.
  unfold Importer.load_existing_hashes.
  induction (player_stats d) as [|r t [IH1 IH2]] using rev_ind.
  - simpl. split; [by intros s; rewrite lookup_empty|].
    split; [by intros _ r Hr; inv Hr|by rewrite lookup_empty].
  - rewrite load_existing_hashes_snoc. cbv zeta.
    destruct ((ps_run r =? rid) && (String.length (ps_sha1 r) =? 20)%nat) eqn:E.
    + apply andb_true_iff in E as [Er%Z.eqb_eq El%Nat.eqb_eq].
      destruct (decide (ps_uuid r = u)) as [Eu|Eu].
      * rewrite <-Eu, lookup_insert_eq. split.
        -- intros s [= <-]. exists r. rewrite elem_of_app, list_elem_of_singleton. auto.
        -- split; [done|]. intros H. exfalso.
           apply (H r); [|done..]. rewrite elem_of_app, list_elem_of_singleton. auto.
      * rewrite lookup_insert_ne by done. split.
        -- intros s Hs. destruct (IH1 s Hs) as (r' & Hin & H').
           exists r'. rewrite elem_of_app. auto.
        -- rewrite IH2. split.
           ++ intros H r' [Hin|Hin%list_elem_of_singleton]%elem_of_app; [by apply H|].
              by subst r'.
           ++ intros H r' Hin. apply H. rewrite elem_of_app. auto.
    + split.
      * intros s Hs. destruct (IH1 s Hs) as (r' & Hin & H').
        exists r'. rewrite elem_of_app. auto.
      * rewrite IH2. split.
        -- intros H r' [Hin|Hin%list_elem_of_singleton]%elem_of_app; [by apply H|].
           subst r'. intros Er Eu El.
           apply andb_false_iff in E as [E|E]; [apply Z.eqb_neq in E|apply Nat.eqb_neq in E];
             done.
        -- intros H r' Hin. apply H. rewrite elem_of_app. auto.
Qed.

(** After a pass that is no dry run, the digest map the next pass loads
    holds, for every kept player, the SHA-1 of the canonical bytes of
    that player's file (one file per player id, tables keyed as the
    schema has them). *)
Theorem pass_stores_digests a e d now' f u raw :
  dry_run a = false →
  Importer.load_metric_sources (metric_source_rows e) ≠ [] →
  is_Some (site_state d) →
  NoDup (stats_key <$> player_stats d) →
  NoDup (kept_ids a e) →
  f ∈ stats_files e → sf_uuid f = Some u → sf_raw f = Some raw →
  u ∉ excluded e →
  min_play_ticks a ≤ Importer.play_time_of (Importer.stats_of_raw raw) →
  let d1 := final_db (Importer.main a e d) in
  Importer.load_existing_hashes (Importer.ensure_run_id now' d1).1 d1 !! u
  = Some (Sha1.sha1 (Importer.canonical_bytes (Importer.stats_of_raw raw))).
Proof.
  intros Hd Hm Hss Hnd Hk Hf Hu Hraw Hex Hpt d1.
  destruct (first_pass_stored a e d Hd Hm Hss Hnd Hk) as (Es & Hnd1 & Hlk & _).
  fold d1 in Es, Hnd1, Hlk.
  assert ((Importer.ensure_run_id now' d1).1 = (Importer.ensure_run_id (db_now e) d).1) as ->.
  { unfold Importer.ensure_run_id at 1. by rewrite Es. }
  rewrite load_existing_hashes_lookup by done.
  assert (kept_digest a e f
          = Some (u, Sha1.sha1 (Importer.canonical_bytes (Importer.stats_of_raw raw)))) as Hkd.
  { unfold kept_digest. rewrite Hu, Hraw. destruct (decide _); [done|].
    destruct (_ <? _) eqn:E; [lia|done]. }
  rewrite (Hlk f u _ Hf Hkd). by rewrite sha1_length.
Qed.

Lemma pass_stores_digests_witness :
  Importer.load_existing_hashes
    (Importer.ensure_run_id "2024-01-02 00:00:00"
       (final_db (Importer.main args_live env_one db_active))).1
    (final_db (Importer.main args_live env_one db_active)) !! id_a
  = Some (Sha1.sha1 (Importer.canonical_bytes
                       (Importer.stats_of_raw (JDict [("stats", JDict stats_a)])))).
Proof.
  apply (pass_stores_digests args_live env_one db_active "2024-01-02 00:00:00" file_a id_a
           (JDict [("stats", JDict stats_a)])); try reflexivity; try discriminate.
  - by exists (Some 1).
  - constructor.
  - apply (bool_decide_unpack (NoDup _)). vm_compute. exact I.
  - apply list_elem_of_singleton. reflexivity.
Defined.

(** ** The stored name outlives an incomplete usercache *)

Lemma load_profile_meta_other rid (hs hc : bool) u t
  (acc : gmap bytes (string * option string * option string)) :
  (∀ r, r ∈ t → profile_key r ≠ (rid, u)) →
  fold_left
    (fun out r =>
       if (pp_run r =? rid) && negb (String.eqb (pp_name r) EmptyString)
       then <[pp_uuid r :=
                (Py.slice_to 16 (pp_name r),
                 if hs then pp_name_source r else None,
                 if hc then pp_name_checked_at r else None)]> out
       else out) t acc !! u = acc !! u.
Proof.
  revert acc. induction t as [|r t IH]; intros acc Ht; simpl; [done|].
  rewrite IH by (intros r' Hr'; apply Ht; by right).
  destruct (_ && _) eqn:E; [|done].
  apply andb_true_iff in E as [Er%Z.eqb_eq _].
  rewrite lookup_insert_ne; [done|].
  intros Eu. apply (Ht r); [by left|]. unfold profile_key. by rewrite Er, Eu.
Qed.

Lemma load_profile_meta_row rid (hs hc : bool) r0 t
  (acc : gmap bytes (string * option string * option string)) :
  NoDup (profile_key <$> t) → r0 ∈ t → pp_run r0 = rid → pp_name r0 ≠ EmptyString →
  fold_left
    (fun out r =>
       if (pp_run r =? rid) && negb (String.eqb (pp_name r) EmptyString)
       then <[pp_uuid r :=
                (Py.slice_to 16 (pp_name r),
                 if hs then pp_name_source r else None,
                 if hc then pp_name_checked_at r else None)]> out
       else out) t acc !! pp_uuid r0
  = Some (Py.slice_to 16 (pp_name r0),
          if hs then pp_name_source r0 else None,
          if hc then pp_name_checked_at r0 else None).
Proof.
  intros Hnd Hin Hr Hn. revert acc.
  induction t as [|r t IH]; intros acc; [by inv Hin|].
  simpl in Hnd. inv Hnd. simpl.
  apply elem_of_cons in Hin as [<-|Hin].
  - rewrite load_profile_meta_other.
    + rewrite Z.eqb_refl. apply String.eqb_neq in Hn. rewrite Hn. simpl.
      by rewrite lookup_insert_eq.
    + intros r' Hr' Hk. match goal with H : _ ∉ _ |- _ => apply H end.
      apply list_elem_of_fmap. exists r'. by rewrite Hk.
  - by apply IH.
Qed.

(** A player the usercache does not name keeps the name the store has:
    with a [player_profile] row of the run whose name is not empty, the
    resolution gives that name (to 16 characters) and the stored source
    (["unknown"] when the column is absent, NULL or empty), never the uuid
    fallback. *)
Theorem stored_name_not_overwritten e rid d r0 :
  NoDup (profile_key <$> player_profile d) →
  r0 ∈ player_profile d → pp_run r0 = rid → pp_name r0 ≠ EmptyString →
  (name_map e !! pp_uuid r0 = None ∨ name_map e !! pp_uuid r0 = Some EmptyString) →
  Importer.resolve_name e
    (Importer.load_existing_profile_meta rid (has_source e) (has_checked e) d) (pp_uuid r0)
  = (Py.slice_to 16 (pp_name r0),
     match (if has_source e then pp_name_source r0 else None) with
     | Some (String c s) => String c s
     | _ => "unknown"%string
     end,
     if has_checked e then pp_name_checked_at r0 else None).
Proof.
  intros Hnd Hin Hr Hn Hu. unfold Importer.resolve_name, Importer.load_existing_profile_meta.
  rewrite (load_profile_meta_row rid (has_source e) (has_checked e) r0 _ ∅ Hnd Hin Hr Hn).
  destruct Hu as [-> | ->]; by destruct (has_checked e).
Qed.

(** A store that knows player [id_a] by a name learned from Mojang. *)
Definition row_named : profile_row :=
  {| pp_run := 1; pp_uuid := id_a; pp_name := "Steve"; pp_name_lc := "steve";
     pp_name_source := Some "mojang"%string;
     pp_name_checked_at := Some "2023-12-30 00:00:00"%string;
     pp_last_seen := "2023-12-31 00:00:00" |}.

Definition db_named : database :=
  {| site_state := Some (Some 1);
     import_run := [{| ir_id := 1; ir_generated_at := "2023-12-31 00:00:00";
                       ir_status := "active" |}];
     import_run_next := 2; metric_def := []; player_profile := [row_named];
     player_stats := []; metric_value := []; metric_award := None |}.

Lemma stored_name_not_overwritten_witness :
  Importer.resolve_name env_one
    (Importer.load_existing_profile_meta 1 (has_source env_one) (has_checked env_one) db_named)
    (pp_uuid row_named)
  = (Py.slice_to 16 (pp_name row_named),
     match (if has_source env_one then pp_name_source row_named else None) with
     | Some (String c s) => String c s
     | _ => "unknown"%string
     end,
     if has_checked env_one then pp_name_checked_at row_named else None).
Proof.
  apply (stored_name_not_overwritten env_one 1 db_named row_named).
  - apply (bool_decide_unpack (NoDup _)). vm_compute. exact I.
  - apply list_elem_of_singleton. reflexivity.
  - reflexivity.
  - discriminate.
  - left. reflexivity.
Defined.

(** ** Names from the usercache, and the width of a resolved name *)

Lemma slice_to_length n s : (String.length (Py.slice_to n s) ≤ n)%nat.
Proof.
  unfold Py.slice_to. revert s. induction n as [|n IH]; intros s.
  - by destruct s.
  - destruct s as [|c s]; simpl; [lia|]. specialize (IH s). lia.
Qed.

Lemma load_usercache_fold (uuid_to_bin : string → option bytes) items
  (acc : gmap bytes string) b nm :
  fold_left
    (fun out it =>
       match it with
       | JDict kv =>
           match Json.dict_get "name" kv, Json.dict_get "uuid" kv with
           | Some (JStr (String c n)), Some (JStr (String c' u)) =>
               match uuid_to_bin (String c' u) with
               | Some b => <[b := Py.slice_to 16 (String c n)]> out
               | None => out
               end
           | _, _ => out
           end
       | _ => out
       end) items acc !! b = Some nm →
  acc !! b = Some nm ∨
  ∃ kv name u,
    JDict kv ∈ items ∧
    Json.dict_get "name" kv = Some (JStr name) ∧ name ≠ EmptyString ∧
    Json.dict_get "uuid" kv = Some (JStr u) ∧ u ≠ EmptyString ∧
    uuid_to_bin u = Some b ∧ nm = Py.slice_to 16 name.
Proof.
  revert acc. induction items as [|it items IH]; intros acc; simpl; [by left|].
  intros H. apply IH in H as [H|(kv & name & u & Hin & H)].
  - destruct it as [| | | | | |kv]; try by left.
    destruct (Json.dict_get "name" kv) as [[| | | |[|c n]| |]|] eqn:En; try by left.
    destruct (Json.dict_get "uuid" kv) as [[| | | |[|c' u]| |]|] eqn:Eu; try by left.
    destruct (uuid_to_bin (String c' u)) as [b'|] eqn:Eb; try by left.
    destruct (decide (b' = b)) as [->|Hne].
    + rewrite lookup_insert_eq in H. injection H as <-. right.
      exists kv, (String c n), (String c' u). repeat split; try done. by left.
    + rewrite lookup_insert_ne in H by done. by left.
  - right. exists kv, name, u. split; [by right|done].
Qed.

(** Every name [load_usercache] returns is the first 16 characters of a
    non-empty name of an entry of the document whose uuid parses to the
    player id; it is not empty and at most 16 characters long. A document
    that is no list, or a missing file, gives no name. *)
Theorem load_usercache_names uuid_to_bin data b nm :
  Importer.load_usercache uuid_to_bin data !! b = Some nm →
  nm ≠ EmptyString ∧ (String.length nm ≤ 16)%nat ∧
  ∃ items kv name u,
    data = Some (JList items) ∧ JDict kv ∈ items ∧
    Json.dict_get "name" kv = Some (JStr name) ∧ name ≠ EmptyString ∧
    Json.dict_get "uuid" kv = Some (JStr u) ∧ u ≠ EmptyString ∧
    uuid_to_bin u = Some b ∧ nm = Py.slice_to 16 name.
Proof.
  unfold Importer.load_usercache.
  destruct data as [[| | | | |items|]|]; try by rewrite lookup_empty.
  intros H. apply load_usercache_fold in H as [H|(kv & name & u & Hin & Hn & Hne & Hu & H)].
  { by rewrite lookup_empty in H. }
  destruct H as (Hune & Hb & ->).
  split; [by destruct name|]. split; [apply slice_to_length|].
  by exists items, kv, name, u.
Qed.

Lemma load_usercache_names_witness :
  "Steve"%string ≠ EmptyString ∧ (String.length "Steve" ≤ 16)%nat ∧
  ∃ items kv name u,
    Some (JList [JDict [("name", JStr "Steve"); ("uuid", JStr "x")]]) = Some (JList items) ∧
    JDict kv ∈ items ∧
    Json.dict_get "name" kv = Some (JStr name) ∧ name ≠ EmptyString ∧
    Json.dict_get "uuid" kv = Some (JStr u) ∧ u ≠ EmptyString ∧
    (fun _ : string => Some id_a) u = Some id_a ∧ "Steve"%string = Py.slice_to 16 name.
Proof.
  apply (load_usercache_names (fun _ => Some id_a)
           (Some (JList [JDict [("name", JStr "Steve"); ("uuid", JStr "x")]])) id_a "Steve").
  reflexivity.
Defined.

Lemma load_profile_meta_width rid (hs hc : bool) t
  (acc : gmap bytes (string * option string * option string)) u nm src chk :
  (∀ u nm src chk, acc !! u = Some (nm, src, chk) → (String.length nm ≤ 16)%nat) →
  fold_left
    (fun out r =>
       if (pp_run r =? rid) && negb (String.eqb (pp_name r) EmptyString)
       then <[pp_uuid r :=
                (Py.slice_to 16 (pp_name r),
                 if hs then pp_name_source r else None,
                 if hc then pp_name_checked_at r else None)]> out
       else out) t acc !! u = Some (nm, src, chk) →
  (String.length nm ≤ 16)%nat.
Proof.
  revert acc. induction t as [|r t IH]; intros acc Hacc; simpl; [by apply Hacc|].
  apply IH. intros u' nm' src' chk'. destruct (_ && _); [|by apply Hacc].
  destruct (decide (pp_uuid r = u')) as [->|Hne].
  - rewrite lookup_insert_eq. intros [= <- _ _]. apply slice_to_length.
  - rewrite lookup_insert_ne by done. by apply Hacc.
Qed.

(** The name resolved for a player never exceeds 16 characters, whichever
    tier gives it: a usercache name and a stored name are cut to 16, the
    fallback is 12 hex digits at most. *)
Theorem resolved_name_at_most_16 e uuid_to_bin data rid hs hc d u :
  name_map e = Importer.load_usercache uuid_to_bin data →
  (String.length
     (Importer.resolve_name e (Importer.load_existing_profile_meta rid hs hc d) u).1.1
   ≤ 16)%nat.
Proof.
  intros Hnm. unfold Importer.resolve_name.
  destruct (name_map e !! u) as [[|c nm]|] eqn:E.
  - destruct (Importer.load_existing_profile_meta rid hs hc d !! u) as [[[nm src] chk]|] eqn:Ep;
      simpl.
    + apply (load_profile_meta_width rid hs hc (player_profile d) ∅ u nm src chk);
        [|exact Ep]. intros ????. by rewrite lookup_empty.
    + pose proof (slice_to_length 12 (Py.hex u)). lia.
  - simpl. rewrite Hnm in E. unfold Importer.load_usercache in E.
    destruct data as [[| | | | |items|]|]; try by rewrite lookup_empty in E.
    apply load_usercache_fold in E as [E|(kv & name & u' & _ & _ & _ & _ & _ & _ & Hs)].
    + by rewrite lookup_empty in E.
    + change (String.length (String c nm) ≤ 16)%nat. rewrite Hs. apply slice_to_length.
  - destruct (Importer.load_existing_profile_meta rid hs hc d !! u) as [[[nm src] chk]|] eqn:Ep;
      simpl.
    + apply (load_profile_meta_width rid hs hc (player_profile d) ∅ u nm src chk);
        [|exact Ep]. intros ????. by rewrite lookup_empty.
    + pose proof (slice_to_length 12 (Py.hex u)). lia.
Qed.

(** A run whose usercache names player [id_a] with more than 16
    characters. *)
Definition env_cached : env :=
  {| stats_files := [file_a];
     name_map := Importer.load_usercache (fun _ => Some id_a)
                   (Some (JList [JDict [("name", JStr "AVeryLongPlayerNameIndeed");
                                        ("uuid", JStr "x")]]));
     excluded := ∅; has_source := true; has_checked := true;
     metric_source_rows := [("blocks", "minecraft:mined", "minecraft:stone", 1)];
     now_ts := "2024-01-01 00:00:00"; db_now := "2024-01-01 00:00:00" |}.

Lemma resolved_name_at_most_16_witness :
  (String.length
     (Importer.resolve_name env_cached
        (Importer.load_existing_profile_meta 1 true true db_named) id_a).1.1
   ≤ 16)%nat.
Proof.
  apply (resolved_name_at_most_16 env_cached (fun _ => Some id_a)
           (Some (JList [JDict [("name", JStr "AVeryLongPlayerNameIndeed");
                                ("uuid", JStr "x")]])) 1 true true db_named id_a).
  reflexivity.
Defined.

(** ** The counts do not depend on the mode *)

(** Two states of the scan that agree on what change detection reads. *)
Definition same_counts (st st' : pass_state) : Prop :=
  existing_hash st' = existing_hash st ∧
  processed st' = processed st ∧ kept st' = kept st ∧ changed st' = changed st.

Lemma same_stats_side_counts st st' : same_stats_side st st' → same_counts st st'.
Proof. unfold same_stats_side, same_counts. intros H. destruct_and!. done. Qed.

Lemma record_changed_detection a e rid msrc u stats jb sha st :
  existing_hash (Importer.record_changed a e rid msrc u stats jb sha st)
  = <[u := sha]> (existing_hash st) ∧
  processed (Importer.record_changed a e rid msrc u stats jb sha st) = processed st ∧
  kept (Importer.record_changed a e rid msrc u stats jb sha st) = kept st ∧
  changed (Importer.record_changed a e rid msrc u stats jb sha st) = changed st + 1.
Proof.
  unfold Importer.record_changed. destruct (dry_run a); [done|].
  destruct (_ <=? _); [|done].
  match goal with
  | |- context [Importer.flush_changed_batch ?n ?r ?s] =>
      by destruct (flush_changed_batch_counters n r s) as (-> & -> & -> & ->)
  end.
Qed.

Lemma process_kept_same_counts a a' e rid profiles msrc u stats st st' :
  same_counts st st' →
  same_counts (Importer.process_kept a e rid profiles msrc u stats st)
              (Importer.process_kept a' e rid profiles msrc u stats st').
Proof.
  intros (Hh & Hp & Hk & Hc). unfold Importer.process_kept.
  set (t := Importer.profile_tuple_of e rid profiles u).
  pose proof (same_stats_side_counts _ _
    (same_stats_side_trans _ _ _ (buffer_seen_stats_side a u st)
       (buffer_profile_stats_side a e t (Importer.buffer_seen a u st)))) as (Eh & Ep & Ek & Ec).
  pose proof (same_stats_side_counts _ _
    (same_stats_side_trans _ _ _ (buffer_seen_stats_side a' u st')
       (buffer_profile_stats_side a' e t (Importer.buffer_seen a' u st'))))
    as (Eh' & Ep' & Ek' & Ec').
  cbv zeta. rewrite Eh, Eh', Hh.
  destruct (decide (existing_hash st !! u = Some _)).
  - unfold same_counts. rewrite Eh, Eh', Ep, Ep', Ek, Ek', Ec, Ec'. done.
  - match goal with
    | |- same_counts (Importer.record_changed ?a1 ?e1 ?r1 ?m1 ?u1 ?s1 ?j1 ?h1 ?x1)
                     (Importer.record_changed ?a2 ?e2 ?r2 ?m2 ?u2 ?s2 ?j2 ?h2 ?x2) =>
        destruct (record_changed_detection a1 e1 r1 m1 u1 s1 j1 h1 x1) as (R1 & R2 & R3 & R4);
        destruct (record_changed_detection a2 e2 r2 m2 u2 s2 j2 h2 x2) as (S1 & S2 & S3 & S4)
    end.
    unfold same_counts. rewrite R1, R2, R3, R4, S1, S2, S3, S4.
    rewrite Eh, Eh', Ep, Ep', Ek, Ek', Ec, Ec', Hh, Hp, Hk, Hc. done.
Qed.

Lemma process_file_same_counts a a' e rid profiles msrc st st' f :
  min_play_ticks a' = min_play_ticks a →
  same_counts st st' →
  same_counts (Importer.process_file a e rid profiles msrc st f)
              (Importer.process_file a' e rid profiles msrc st' f).
Proof.
  intros Hm (Hh & Hp & Hk & Hc). unfold Importer.process_file. rewrite Hm.
  assert (same_counts
            (Importer.set_counters (processed st + 1) (kept st) (changed st) st)
            (Importer.set_counters (processed st' + 1) (kept st') (changed st') st')) as H0.
  { unfold same_counts. simpl. by rewrite Hh, Hp, Hk, Hc. }
  destruct (sf_uuid f); [|done]. destruct (decide _); [done|].
  destruct (sf_raw f); [|done]. destruct (_ <? _); [done|].
  apply process_kept_same_counts. unfold same_counts. simpl. by rewrite Hh, Hp, Hk, Hc.
Qed.

(** The three counts the run reports depend on the files, the
    exclusions, the threshold and the stored digests only: a dry run
    reports what the real run would report, and the flush sizes and the
    points options change no count. *)
Theorem counts_do_not_depend_on_mode a a' e d :
  min_play_ticks a' = min_play_ticks a →
  n_processed (Importer.main a' e d) = n_processed (Importer.main a e d) ∧
  n_kept (Importer.main a' e d) = n_kept (Importer.main a e d) ∧
  n_changed (Importer.main a' e d) = n_changed (Importer.main a e d).
Proof.
  intros Hm. unfold Importer.main.
  destruct (Importer.ensure_run_id (db_now e) d) as [rid d1].
  destruct (Importer.load_metric_sources (metric_source_rows e)) eqn:El; [done|].
  assert (same_counts (Importer.scan a e rid d1) (Importer.scan a' e rid d1)) as (_ & Hp & Hk & Hc).
  { unfold Importer.scan.
    assert (same_counts (Importer.init_state rid d1) (Importer.init_state rid d1)) as H0
      by done.
    revert H0. generalize (Importer.init_state rid d1) at 1 3.
    generalize (Importer.init_state rid d1).
    induction (stats_files e) as [|f r IH]; intros st' st Hst; simpl; [done|].
    by apply IH, process_file_same_counts. }
  destruct (dry_run a), (dry_run a'); simpl; by rewrite Hp, Hk, Hc.
Qed.

Lemma counts_do_not_depend_on_mode_witness :
  n_processed (Importer.main args_dry env_same_id db_active)
  = n_processed (Importer.main args_live env_same_id db_active) ∧
  n_kept (Importer.main args_dry env_same_id db_active)
  = n_kept (Importer.main args_live env_same_id db_active) ∧
  n_changed (Importer.main args_dry env_same_id db_active)
  = n_changed (Importer.main args_live env_same_id db_active).
Proof.
  apply (counts_do_not_depend_on_mode args_live args_dry env_same_id db_active).
  reflexivity.
Defined.

(** ** Rows of other runs *)

(** The rows of the three player tables that belong to a run other than
    [rid], in table order. *)
Definition other_runs (rid : Z) (d : database)
  : list profile_row * list stats_row * list mv_row :=
  (filter (fun r => pp_run r ≠ rid) (player_profile d),
   filter (fun r => ps_run r ≠ rid) (player_stats d),
   filter (fun r => mv_run r ≠ rid) (metric_value d)).

(** Every buffered tuple is tagged with the run [rid]. *)
Definition run_tagged (rid : Z) (st : pass_state) : Prop :=
  Forall (fun t => pt_run t = rid) (profile_buf st) ∧
  Forall (fun row => row.1.1.1 = rid) (stats_buf st) ∧
  Forall (fun row => row.1.1.1 = rid) (metric_buf st).

Lemma filter_weaker {A} (P Q : A → Prop) `{∀ x, Decision (P x)} `{∀ x, Decision (Q x)}
  (l : list A) :
  (∀ x, P x → Q x) → filter P (filter Q l) = filter P l.
Proof.
  intros HPQ. induction l as [|x l IH]; [done|].
  rewrite (filter_cons Q). destruct (decide (Q x)) as [HQ|HQ].
  - rewrite !filter_cons. destruct (decide (P x)); by rewrite IH.
  - rewrite filter_cons. destruct (decide (P x)) as [HP|HP]; [|done].
    by destruct HQ; apply HPQ.
Qed.

Lemma upsert_stats_other_runs rid row t :
  ps_run row = rid →
  filter (fun r => ps_run r ≠ rid) (Db.upsert_stats row t)
  = filter (fun r => ps_run r ≠ rid) t.
Proof.
  intros Hr. induction t as [|r t IH]; simpl.
  - rewrite filter_cons. by destruct (decide _).
  - destruct ((ps_run r =? ps_run row) && String.eqb (ps_uuid r) (ps_uuid row)) eqn:E.
    + apply andb_true_iff in E as [E%Z.eqb_eq _].
      rewrite !filter_cons. destruct (decide (ps_run row ≠ rid)); [done|].
      destruct (decide (ps_run r ≠ rid)); [congruence|done].
    + rewrite !filter_cons. destruct (decide _); by rewrite IH.
Qed.

Lemma upsert_mv_other_runs rid row t :
  mv_run row = rid →
  filter (fun r => mv_run r ≠ rid) (Db.upsert_mv row t)
  = filter (fun r => mv_run r ≠ rid) t.
Proof.
  intros Hr. induction t as [|r t IH]; simpl.
  - rewrite filter_cons. by destruct (decide _).
  - destruct ((mv_run r =? mv_run row) && String.eqb (mv_metric r) (mv_metric row)
              && String.eqb (mv_uuid r) (mv_uuid row)) eqn:E.
    + apply andb_true_iff in E as [E _]. apply andb_true_iff in E as [E%Z.eqb_eq _].
      rewrite !filter_cons. destruct (decide (mv_run row ≠ rid)); [done|].
      destruct (decide (mv_run r ≠ rid)); [congruence|done].
    + rewrite !filter_cons. destruct (decide _); by rewrite IH.
Qed.

Lemma upsert_profile_other_runs rid hs hc t tbl :
  pt_run t = rid →
  filter (fun r => pp_run r ≠ rid) (Importer.upsert_profile hs hc t tbl)
  = filter (fun r => pp_run r ≠ rid) tbl.
Proof.
  intros Hr. induction tbl as [|r tbl IH]; simpl.
  - rewrite filter_cons. simpl. by destruct (decide _).
  - destruct ((pp_run r =? pt_run t) && String.eqb (pp_uuid r) (pt_uuid t)) eqn:E.
    + apply andb_true_iff in E as [E%Z.eqb_eq _].
      rewrite !filter_cons. simpl.
      destruct (decide (pp_run r ≠ rid)); [congruence|done].
    + rewrite !filter_cons. destruct (decide _); by rewrite IH.
Qed.

Lemma fold_upsert_other_runs {A B} (P : A → Prop) `{∀ x, Decision (P x)}
  (Q : B → Prop) (f : B → list A → list A) (buf : list B) (t : list A) :
  (∀ b t, Q b → filter P (f b t) = filter P t) →
  Forall Q buf →
  filter P (fold_left (fun t b => f b t) buf t) = filter P t.
Proof.
  intros Hf Hb. revert t. induction Hb as [|b buf Hq Hb IH]; intros t; simpl; [done|].
  by rewrite IH, Hf.
Qed.

Lemma flush_profiles_other_runs rid hs hc st :
  run_tagged rid st →
  other_runs rid (db (Importer.flush_profiles hs hc st)) = other_runs rid (db st) ∧
  run_tagged rid (Importer.flush_profiles hs hc st).
Proof.
  intros (H1 & H2 & H3). unfold Importer.flush_profiles.
  destruct (profile_buf st) as [|t buf] eqn:E; [by repeat split; rewrite ?E|].
  split; [|by repeat split].
  unfold other_runs. simpl. do 2 f_equal.
  change (filter (fun r => pp_run r ≠ rid)
            (fold_left (fun tbl t0 => Importer.upsert_profile hs hc t0 tbl) (t :: buf)
               (player_profile (db st)))
          = filter (fun r => pp_run r ≠ rid) (player_profile (db st))).
  apply (fold_upsert_other_runs _ (fun t => pt_run t = rid)
           (fun t tbl => Importer.upsert_profile hs hc t tbl)); [|done].
  intros; by apply upsert_profile_other_runs.
Qed.

Lemma write_changed_other_runs now rid cu sb mb d :
  Forall (fun row : Z * bytes * gzip_blob * bytes => row.1.1.1 = rid) sb →
  Forall (fun row : Z * string * bytes * Z => row.1.1.1 = rid) mb →
  other_runs rid (Importer.write_changed now rid cu sb mb d) = other_runs rid d.
Proof.
  intros Hs Hm. unfold Importer.write_changed, other_runs. simpl. f_equal; [f_equal|].
  - apply (fold_upsert_other_runs _ (fun row : Z * bytes * gzip_blob * bytes => row.1.1.1 = rid)
             (fun row t => Db.upsert_stats (Importer.stats_row_of now row) t)); [|done].
    intros [[[r u] gz] sha] t Hq. by apply upsert_stats_other_runs.
  - rewrite (fold_upsert_other_runs _ (fun row : Z * string * bytes * Z => row.1.1.1 = rid)
               (fun row t => Db.upsert_mv (Importer.mv_row_of row) t)); [|..|done].
    + unfold Importer.delete_metrics_of. apply filter_weaker. intros r Hr [Hrid _]. done.
    + intros [[[r m] u] v] t Hq. by apply upsert_mv_other_runs.
Qed.

Lemma flush_changed_batch_other_runs now rid st :
  run_tagged rid st →
  other_runs rid (db (Importer.flush_changed_batch now rid st)) = other_runs rid (db st) ∧
  run_tagged rid (Importer.flush_changed_batch now rid st).
Proof.
  intros (H1 & H2 & H3). unfold Importer.flush_changed_batch.
  destruct (changed_uuids st) as [|u cu] eqn:E; [by repeat split|].
  split; [|by repeat split; simpl].
  simpl. by apply write_changed_other_runs.
Qed.

Lemma flush_seen_other_runs rid st :
  db (Importer.flush_seen st) = db st ∧
  (run_tagged rid st → run_tagged rid (Importer.flush_seen st)).
Proof. unfold Importer.flush_seen. by destruct (seen_buf st). Qed.

Lemma metric_rows_tagged rid u stats msrc :
  Forall (fun row : Z * string * bytes * Z => row.1.1.1 = rid)
    (Importer.metric_rows rid u stats msrc).
Proof.
  unfold Importer.metric_rows. apply Forall_forall. intros row Hin.
  apply list_elem_of_omap in Hin as (m & _ & Hm).
  destruct (0 <? _); [|done]. by injection Hm as <-.
Qed.

Lemma process_file_other_runs a e rid profiles msrc st f :
  run_tagged rid st →
  other_runs rid (db (Importer.process_file a e rid profiles msrc st f))
  = other_runs rid (db st) ∧
  run_tagged rid (Importer.process_file a e rid profiles msrc st f).
Proof.
  intros Ht. unfold Importer.process_file.
  destruct (sf_uuid f) as [u|]; [|done]. destruct (decide _); [done|].
  destruct (sf_raw f) as [raw|]; [|done]. destruct (_ <? _); [done|].
  unfold Importer.process_kept.
  set (st0 := Importer.set_counters _ _ _ (Importer.set_counters _ _ _ st)).
  assert (other_runs rid (db st0) = other_runs rid (db st) ∧ run_tagged rid st0) as [E0 T0]
    by done.
  rewrite <-E0. clearbody st0. clear E0 Ht.
  assert (other_runs rid (db (Importer.buffer_seen a u st0)) = other_runs rid (db st0) ∧
          run_tagged rid (Importer.buffer_seen a u st0)) as [E1 T1].
  { unfold Importer.buffer_seen. destruct (dry_run a); [done|].
    destruct (_ <=? _); [|done].
    match goal with
    | |- context [Importer.flush_seen ?s] =>
        destruct (flush_seen_other_runs rid s) as [-> Hs]
    end.
    split; [done|]. by apply Hs. }
  rewrite <-E1. generalize dependent (Importer.buffer_seen a u st0). intros st1 _ T1.
  set (t := Importer.profile_tuple_of e rid profiles u).
  assert (pt_run t = rid) as Htr.
  { unfold t, Importer.profile_tuple_of. by destruct (Importer.resolve_name _ _ _) as [[? ?] ?]. }
  assert (other_runs rid (db (Importer.buffer_profile a e t st1)) = other_runs rid (db st1) ∧
          run_tagged rid (Importer.buffer_profile a e t st1)) as [E2 T2].
  { unfold Importer.buffer_profile. destruct (dry_run a); [done|].
    destruct T1 as (Ha & Hb & Hc).
    assert (run_tagged rid (Importer.set_profile_buf (profile_buf st1 ++ [t]) st1)) as T.
    { split; [|done]. simpl. apply Forall_app. split; [done|]. by constructor. }
    destruct (_ <=? _); [|done].
    by destruct (flush_profiles_other_runs rid (has_source e) (has_checked e) _ T) as [-> ?]. }
  rewrite <-E2. generalize dependent (Importer.buffer_profile a e t st1). intros st2 _ T2.
  destruct (decide _); [done|].
  unfold Importer.record_changed. destruct (dry_run a); [done|].
  match goal with
  | |- context [Importer.set_changed_bufs ?c ?s ?m ?x] =>
      assert (run_tagged rid (Importer.set_changed_bufs c s m x)) as T
  end.
  { destruct T2 as (Ha & Hb & Hc). split; [done|]. split; simpl.
    - apply Forall_app. split; [done|]. by constructor.
    - apply Forall_app. split; [done|]. apply metric_rows_tagged. }
  destruct (_ <=? _); [|done].
  by destruct (flush_changed_batch_other_runs (db_now e) rid _ T) as [-> ?].
Qed.

Lemma cleanup_other_runs rid seen d :
  other_runs rid (Importer.cleanup rid seen d) = other_runs rid d.
Proof.
  unfold Importer.cleanup, other_runs. simpl.
  f_equal; [f_equal|]; apply filter_weaker; by intros r Hr [? _].
Qed.

Lemma king_rows_tagged rid king pm :
  filter (fun r => mv_run r ≠ rid) (Importer.king_rows rid king pm) = [].
Proof.
  unfold Importer.king_rows. induction pm as [|it pm IH]; [done|].
  csimpl. destruct (0 <? it.2); csimpl; [|done].
  rewrite filter_cons. simpl. by destruct (decide _).
Qed.

Lemma king_step_other_runs a e rid d :
  other_runs rid (Importer.king_step a e rid d) = other_runs rid d.
Proof.
  unfold Importer.king_step. destruct (no_king a); [done|].
  destruct (Importer.parse_king_points _) as [pts|]; [|done].
  match goal with
  | |- context [Importer.recompute_king_points ?r ?m ?k ?p d] =>
      destruct (recompute_king_points_fields r m k p d)
        as (_ & _ & _ & E4 & E5 & _ & E7 & _)
  end.
  unfold other_runs. rewrite E4, E5, E7. f_equal.
  rewrite filter_app, king_rows_tagged, app_nil_r.
  unfold other_rows. apply filter_weaker. by intros r Hr [? _].
Qed.

(** The run touches the rows of its own run only: in [player_profile],
    [player_stats] and [metric_value] the rows of every other run are,
    after the run, the same rows in the same order as before, in every
    mode. *)
Theorem other_runs_untouched a e d :
  other_runs (Importer.ensure_run_id (db_now e) d).1 (final_db (Importer.main a e d))
  = other_runs (Importer.ensure_run_id (db_now e) d).1 d.
Proof.
  unfold Importer.main.
  assert (∀ rid, other_runs rid (Importer.ensure_run_id (db_now e) d).2 = other_runs rid d)
    as H1.
  { intros rid. unfold Importer.ensure_run_id. by destruct (site_state d) as [[]|]. }
  destruct (Importer.ensure_run_id (db_now e) d) as [rid d1]. simpl in *.
  specialize (H1 rid).
  destruct (Importer.load_metric_sources (metric_source_rows e)) eqn:El; [done|].
  assert (other_runs rid (db (Importer.scan a e rid d1)) = other_runs rid d1 ∧
          run_tagged rid (Importer.scan a e rid d1)) as [E2 T2].
  { unfold Importer.scan.
    assert (other_runs rid (db (Importer.init_state rid d1)) = other_runs rid d1 ∧
            run_tagged rid (Importer.init_state rid d1)) as H0 by (by repeat split).
    revert H0. generalize (Importer.init_state rid d1).
    induction (stats_files e) as [|f r IH]; intros st [Es Ts]; simpl; [done|].
    apply IH. destruct (process_file_other_runs a e rid
      (Importer.load_existing_profile_meta rid (has_source e) (has_checked e) d1)
      (Importer.load_metric_sources (metric_source_rows e)) st f Ts) as [-> T].
    done. }
  destruct (dry_run a); simpl; [by rewrite E2|].
  change (other_runs rid (Db.touch_run (db_now e) rid ?x)) with (other_runs rid x).
  rewrite king_step_other_runs, cleanup_other_runs.
  unfold Importer.flush_all.
  destruct (flush_seen_other_runs rid (Importer.scan a e rid d1)) as [Ef Tf].
  destruct (flush_profiles_other_runs rid (has_source e) (has_checked e)
              (Importer.flush_seen (Importer.scan a e rid d1)) (Tf T2)) as [Ep Tp].
  destruct (flush_changed_batch_other_runs (db_now e) rid _ Tp) as [-> _].
  by rewrite Ep, Ef, E2.
Qed.

(** ** The name resolver *)

Lemma profile_name_width j nm :
  Resolver.profile_name j = Some nm → nm ≠ EmptyString ∧ (String.length nm ≤ 16)%nat.
Proof.
  unfold Resolver.profile_name. destruct j as [| | | | | |kv]; try done.
  destruct (Json.dict_get "name" kv) as [[| | | |[|c n]| |]|]; try done.
  intros [= <-]. split; [done|apply slice_to_length].
Qed.

Lemma mojang_name_width http u_hex nm :
  Resolver.mojang_name_for_uuid http u_hex = Some nm →
  nm ≠ EmptyString ∧ (String.length nm ≤ 16)%nat.
Proof.
  unfold Resolver.mojang_name_for_uuid.
  generalize (http ("https://sessionserver.mojang.com/session/minecraft/profile/" +:+ u_hex)).
  generalize (http ("https://api.mojang.com/user/profiles/" +:+ u_hex +:+ "/names")).
  intros b a.
  assert (match b with
          | Some (JList js2) =>
              match last js2 with
              | Some it => Resolver.profile_name it
              | None => None
              end
          | _ => None
          end = Some nm → nm ≠ EmptyString ∧ (String.length nm ≤ 16)%nat) as Hb.
  { destruct b as [[| | | | |js2|]|]; try done.
    destruct (last js2) as [it|]; [|done]. apply profile_name_width. }
  destruct a as [js|]; [|done].
  destruct (Resolver.profile_name js) as [nm1|] eqn:E2; [|done].
  intros [= <-]. by apply (profile_name_width js).
Qed.

(** The row an [UPDATE] of a resolved name leaves, and the row the
    [UPDATE] of a failed lookup leaves. *)
Definition set_resolved (hs hc : bool) (now nm : string) (r : profile_row) : profile_row :=
  {| pp_run := pp_run r; pp_uuid := pp_uuid r; pp_name := nm; pp_name_lc := Py.lower nm;
     pp_name_source := if hs then Some "mojang"%string else pp_name_source r;
     pp_name_checked_at := if hs && hc then Some now else pp_name_checked_at r;
     pp_last_seen := pp_last_seen r |}.

Definition set_checked (now : string) (r : profile_row) : profile_row :=
  {| pp_run := pp_run r; pp_uuid := pp_uuid r; pp_name := pp_name r;
     pp_name_lc := pp_name_lc r; pp_name_source := pp_name_source r;
     pp_name_checked_at := Some now; pp_last_seen := pp_last_seen r |}.

(** What a run of the resolver does to one row of [player_profile]. *)
Definition row_after (http : string → option json) (hs hc : bool) (now : string) (rid : Z)
  (ids : list bytes) (r : profile_row) : profile_row :=
  if decide (pp_run r = rid ∧ pp_uuid r ∈ ids) then
    match Resolver.mojang_name_for_uuid http (Py.hex (pp_uuid r)) with
    | Some nm => set_resolved hs hc now nm r
    | None => if hc then set_checked now r else r
    end
  else r.

Definition ok_of (http : string → option json) (rid : Z) (c : Candidate)
  : option (string * string * Z * bytes) :=
  match Resolver.mojang_name_for_uuid http (Py.hex (uuid_bin c)) with
  | Some nm => Some (nm, Py.lower nm, rid, uuid_bin c)
  | None => None
  end.

Definition fail_of (http : string → option json) (rid : Z) (c : Candidate)
  : option (Z * bytes) :=
  match Resolver.mojang_name_for_uuid http (Py.hex (uuid_bin c)) with
  | Some _ => None
  | None => Some (rid, uuid_bin c)
  end.

Lemma lookup_loop_lists http hc rid cands :
  Resolver.lookup_loop http hc rid cands
  = (Z.of_nat (length (omap (ok_of http rid) cands)),
     Z.of_nat (length (omap (fail_of http rid) cands)),
     omap (ok_of http rid) cands,
     if hc then omap (fail_of http rid) cands else []).
Proof.
  unfold Resolver.lookup_loop.
  assert (∀ a b (o : list (string * string * Z * bytes)) (f : list (Z * bytes)),
    fold_left
      (fun acc c =>
         let '(resolved, failed, updates_ok, updates_fail) := acc in
         match Resolver.mojang_name_for_uuid http (Py.hex (uuid_bin c)) with
         | Some (String ch r) =>
             (resolved + 1, failed,
              updates_ok ++ [(String ch r, Py.lower (String ch r), rid, uuid_bin c)],
              updates_fail)
         | _ =>
             (resolved, failed + 1, updates_ok,
              if hc then updates_fail ++ [(rid, uuid_bin c)] else updates_fail)
         end) cands (a, b, o, f)
    = (a + Z.of_nat (length (omap (ok_of http rid) cands)),
       b + Z.of_nat (length (omap (fail_of http rid) cands)),
       o ++ omap (ok_of http rid) cands,
       if hc then f ++ omap (fail_of http rid) cands else f)) as H.
  { induction cands as [|c cs IH]; intros a b o f.
    - simpl. rewrite !Z.add_0_r, !app_nil_r. by destruct hc.
    - cbn [fold_left].
      destruct (Resolver.mojang_name_for_uuid http (Py.hex (uuid_bin c))) as [nm|] eqn:E.
      + destruct (mojang_name_width _ _ _ E) as [Hne _].
        assert (omap (ok_of http rid) (c :: cs)
                = (nm, Py.lower nm, rid, uuid_bin c) :: omap (ok_of http rid) cs) as ->.
        { csimpl. unfold ok_of at 1. by rewrite E. }
        assert (omap (fail_of http rid) (c :: cs) = omap (fail_of http rid) cs) as ->.
        { csimpl. unfold fail_of at 1. by rewrite E. }
        destruct nm as [|ch r]; [done|]. rewrite IH.
        rewrite <-app_assoc, length_cons.
        by rewrite Nat2Z.inj_succ, <-Z.add_1_l, !Z.add_assoc.
      + assert (omap (ok_of http rid) (c :: cs) = omap (ok_of http rid) cs) as ->.
        { csimpl. unfold ok_of at 1. by rewrite E. }
        assert (omap (fail_of http rid) (c :: cs)
                = (rid, uuid_bin c) :: omap (fail_of http rid) cs) as ->.
        { csimpl. unfold fail_of at 1. by rewrite E. }
        rewrite IH. rewrite length_cons.
        rewrite Nat2Z.inj_succ, <-Z.add_1_l, !Z.add_assoc.
        destruct hc; [|done]. by rewrite <-app_assoc. }
  rewrite H. simpl. by destruct hc.
Qed.

Lemma fold_updates_map {X} (F : list profile_row → X → list profile_row)
  (f : X → profile_row → profile_row) (l : list X) (t : list profile_row) :
  (∀ t x, F t x = map (f x) t) →
  fold_left F l t = map (fun r => fold_left (fun r x => f x r) l r) t.
Proof.
  intros HF. revert t. induction l as [|x l IH]; intros t; simpl.
  - by rewrite map_id.
  - by rewrite IH, HF, map_map.
Qed.

Definition ok_step (hs hc : bool) (now : string) (t : string * string * Z * bytes)
  (r : profile_row) : profile_row :=
  if (pp_run r =? t.1.2) && String.eqb (pp_uuid r) t.2
  then {| pp_run := pp_run r; pp_uuid := pp_uuid r; pp_name := t.1.1.1; pp_name_lc := t.1.1.2;
          pp_name_source := if hs then Some "mojang"%string else pp_name_source r;
          pp_name_checked_at := if hs && hc then Some now else pp_name_checked_at r;
          pp_last_seen := pp_last_seen r |}
  else r.

Definition fail_step (now : string) (t : Z * bytes) (r : profile_row) : profile_row :=
  if (pp_run r =? t.1) && String.eqb (pp_uuid r) t.2 then set_checked now r else r.

Lemma update_ok_map hs hc now tbl t :
  Resolver.update_ok hs hc now tbl t = map (ok_step hs hc now t) tbl.
Proof. by destruct t as [[[nm lc] rid] u]. Qed.

Lemma update_fail_map now tbl t :
  Resolver.update_fail now tbl t = map (fail_step now t) tbl.
Proof. by destruct t as [rid u]. Qed.

Lemma key_test rid u r :
  (pp_run r =? rid) && String.eqb (pp_uuid r) u = true ↔ pp_run r = rid ∧ pp_uuid r = u.
Proof. by rewrite andb_true_iff, Z.eqb_eq, String.eqb_eq. Qed.

Lemma ok_step_eq hs hc now nm rid u r :
  ok_step hs hc now (nm, Py.lower nm, rid, u) r
  = if (pp_run r =? rid) && String.eqb (pp_uuid r) u then set_resolved hs hc now nm r else r.
Proof. done. Qed.

Lemma fail_step_eq now rid u r :
  fail_step now (rid, u) r
  = if (pp_run r =? rid) && String.eqb (pp_uuid r) u then set_checked now r else r.
Proof. done. Qed.

Lemma in_later_candidates rid (r : profile_row) (c : Candidate) (cs : list Candidate) :
  ¬ (pp_run r = rid ∧ pp_uuid r = uuid_bin c) →
  (pp_run r = rid ∧ pp_uuid r ∈ uuid_bin <$> c :: cs) ↔
  (pp_run r = rid ∧ pp_uuid r ∈ uuid_bin <$> cs).
Proof.
  intros Hk. csimpl. rewrite elem_of_cons. naive_solver.
Qed.

Lemma ok_steps http hs hc now rid cands r :
  fold_left (fun r x => ok_step hs hc now x r) (omap (ok_of http rid) cands) r
  = match Resolver.mojang_name_for_uuid http (Py.hex (pp_uuid r)) with
    | Some nm =>
        if decide (pp_run r = rid ∧ pp_uuid r ∈ uuid_bin <$> cands)
        then set_resolved hs hc now nm r else r
    | None => r
    end.
Proof.
  revert r. induction cands as [|c cs IH]; intros r.
  - simpl. destruct (Resolver.mojang_name_for_uuid _ _); [|done].
    destruct (decide _) as [[_ H]|]; [by inv H|done].
  - destruct (Resolver.mojang_name_for_uuid http (Py.hex (uuid_bin c))) as [nm|] eqn:E.
    + assert (omap (ok_of http rid) (c :: cs)
              = (nm, Py.lower nm, rid, uuid_bin c) :: omap (ok_of http rid) cs) as ->.
      { csimpl. unfold ok_of at 1. by rewrite E. }
      cbn [fold_left]. rewrite ok_step_eq.
      destruct ((pp_run r =? rid) && String.eqb (pp_uuid r) (uuid_bin c)) eqn:K.
      * apply key_test in K as [Kr Ku]. rewrite <-Ku in E. rewrite IH.
        change (pp_uuid (set_resolved hs hc now nm r)) with (pp_uuid r).
        change (pp_run (set_resolved hs hc now nm r)) with (pp_run r).
        rewrite E.
        rewrite (decide_True (P := pp_run r = rid ∧ pp_uuid r ∈ uuid_bin <$> c :: cs)).
        2:{ split; [done|]. csimpl. rewrite Ku. by left. }
        destruct (decide _); [|done].
        unfold set_resolved. simpl. by destruct hs, hc.
      * rewrite IH.
        destruct (Resolver.mojang_name_for_uuid http (Py.hex (pp_uuid r))); [|done].
        apply decide_ext. symmetry. apply in_later_candidates.
        intros Hk. apply key_test in Hk. congruence.
    + assert (omap (ok_of http rid) (c :: cs) = omap (ok_of http rid) cs) as ->.
      { csimpl. unfold ok_of at 1. by rewrite E. }
      rewrite IH.
      destruct (Resolver.mojang_name_for_uuid http (Py.hex (pp_uuid r))) as [nm|] eqn:E';
        [|done].
      apply decide_ext. symmetry. apply in_later_candidates.
      intros [_ Hk]. rewrite Hk in E'. congruence.
Qed.

Lemma fail_steps http now rid cands r :
  fold_left (fun r x => fail_step now x r) (omap (fail_of http rid) cands) r
  = match Resolver.mojang_name_for_uuid http (Py.hex (pp_uuid r)) with
    | Some nm => r
    | None =>
        if decide (pp_run r = rid ∧ pp_uuid r ∈ uuid_bin <$> cands)
        then set_checked now r else r
    end.
Proof.
  revert r. induction cands as [|c cs IH]; intros r.
  - simpl. destruct (Resolver.mojang_name_for_uuid _ _); [done|].
    destruct (decide _) as [[_ H]|]; [by inv H|done].
  - destruct (Resolver.mojang_name_for_uuid http (Py.hex (uuid_bin c))) as [nm|] eqn:E.
    + assert (omap (fail_of http rid) (c :: cs) = omap (fail_of http rid) cs) as ->.
      { csimpl. unfold fail_of at 1. by rewrite E. }
      rewrite IH.
      destruct (Resolver.mojang_name_for_uuid http (Py.hex (pp_uuid r))) as [nm'|] eqn:E';
        [done|].
      apply decide_ext. symmetry. apply in_later_candidates.
      intros [_ Hk]. rewrite Hk in E'. congruence.
    + assert (omap (fail_of http rid) (c :: cs)
              = (rid, uuid_bin c) :: omap (fail_of http rid) cs) as ->.
      { csimpl. unfold fail_of at 1. by rewrite E. }
      cbn [fold_left]. rewrite fail_step_eq.
      destruct ((pp_run r =? rid) && String.eqb (pp_uuid r) (uuid_bin c)) eqn:K.
      * apply key_test in K as [Kr Ku]. rewrite <-Ku in E. rewrite IH.
        change (pp_uuid (set_checked now r)) with (pp_uuid r).
        change (pp_run (set_checked now r)) with (pp_run r).
        rewrite E.
        rewrite (decide_True (P := pp_run r = rid ∧ pp_uuid r ∈ uuid_bin <$> c :: cs)).
        2:{ split; [done|]. csimpl. rewrite Ku. by left. }
        by destruct (decide _).
      * rewrite IH.
        destruct (Resolver.mojang_name_for_uuid http (Py.hex (pp_uuid r))); [done|].
        apply decide_ext. symmetry. apply in_later_candidates.
        intros Hk. apply key_test in Hk. congruence.
Qed.

(** The run of the resolver in closed form: with the lock held and a run
    id at hand, [player_profile] is mapped row by row and nothing else
    is written. *)
Lemma resolver_main_rows lock run_id http hs hc now rows d rid :
  lock = true →
  (if 0 <? run_id then Some run_id else Resolver.get_active_run_id d) = Some rid →
  Resolver.main lock run_id http hs hc now rows d
  = {| r_exit_code := 0;
       r_final_db :=
         Db.set_player_profile
           (map (row_after http hs hc now rid (uuid_bin <$> Resolver.fetch_candidates hs hc rows))
              (player_profile d)) d;
       r_total := Z.of_nat (length (Resolver.fetch_candidates hs hc rows));
       r_resolved :=
         Z.of_nat (length (omap (ok_of http rid) (Resolver.fetch_candidates hs hc rows)));
       r_failed :=
         Z.of_nat (length (omap (fail_of http rid) (Resolver.fetch_candidates hs hc rows))) |}.
Proof.
  intros -> Hrid. unfold Resolver.main. simpl. rewrite Hrid.
  rewrite lookup_loop_lists. f_equal. f_equal.
  rewrite (fold_updates_map (Resolver.update_ok hs hc now) (ok_step hs hc now))
    by apply update_ok_map.
  assert (∀ t : list profile_row,
    (if hc then fold_left (Resolver.update_fail now)
                  (if hc then omap (fail_of http rid) (Resolver.fetch_candidates hs hc rows)
                   else []) t
     else t)
    = map (fun r => if hc
                    then fold_left (fun r x => fail_step now x r)
                           (omap (fail_of http rid) (Resolver.fetch_candidates hs hc rows)) r
                    else r) t) as ->.
  { intros t. destruct hc; [|by rewrite map_id].
    by rewrite (fold_updates_map (Resolver.update_fail now) (fail_step now))
      by apply update_fail_map. }
  rewrite map_map. apply map_ext. intros r.
  rewrite ok_steps. unfold row_after.
  destruct (Resolver.mojang_name_for_uuid http (Py.hex (pp_uuid r))) as [nm|] eqn:E.
  - destruct (decide _).
    + destruct hc; [|done]. rewrite fail_steps. simpl. by rewrite E.
    + destruct hc; [|done]. rewrite fail_steps. by rewrite E.
  - destruct hc; [|by destruct (decide _)]. rewrite fail_steps. by rewrite E.
Qed.

Lemma row_after_key http hs hc now rid ids r :
  pp_run (row_after http hs hc now rid ids r) = pp_run r ∧
  pp_uuid (row_after http hs hc now rid ids r) = pp_uuid r ∧
  pp_last_seen (row_after http hs hc now rid ids r) = pp_last_seen r.
Proof.
  unfold row_after. destruct (decide _); [|done].
  destruct (Resolver.mojang_name_for_uuid _ _); [done|]. by destruct hc.
Qed.

Lemma fetch_candidates_ids hs hc rows u :
  u ∈ uuid_bin <$> Resolver.fetch_candidates hs hc rows →
  u ∈ cr_uuid <$> rows ∧ String.length u = 16%nat.
Proof.
  intros (c & -> & Hc)%list_elem_of_fmap.
  apply list_elem_of_omap in Hc as (row & Hrow & Hc).
  destruct (String.length (cr_uuid row) =? 16)%nat eqn:E; [|done].
  injection Hc as <-. simpl. split; [|by apply Nat.eqb_eq].
  apply list_elem_of_fmap. by exists row.
Qed.

Lemma resolver_main_cases lock run_id http hs hc now rows d :
  r_final_db (Resolver.main lock run_id http hs hc now rows d) = d ∨
  ∃ rid,
    r_final_db (Resolver.main lock run_id http hs hc now rows d)
    = Db.set_player_profile
        (map (row_after http hs hc now rid (uuid_bin <$> Resolver.fetch_candidates hs hc rows))
           (player_profile d)) d.
Proof.
  destruct lock; [|by left].
  destruct (if 0 <? run_id then Some run_id else Resolver.get_active_run_id d) as [rid|] eqn:E.
  - right. exists rid.
    by rewrite (resolver_main_rows true run_id http hs hc now rows d rid eq_refl E).
  - left. unfold Resolver.main. simpl. by rewrite E.
Qed.

(** The resolver only rewrites rows it was given as candidates: whatever
    the lock, the network and the query answer, it adds, removes and
    moves no row of [player_profile], changes no row's run, uuid and
    last_seen, leaves a row whose uuid is not among the query's rows as
    it was, and writes no other table. *)
Theorem resolver_touches_candidates_only lock run_id http hs hc now rows d :
  let d' := r_final_db (Resolver.main lock run_id http hs hc now rows d) in
  Db.set_player_profile (player_profile d) d' = d ∧
  length (player_profile d') = length (player_profile d) ∧
  ∀ i r, player_profile d !! i = Some r →
    ∃ r', player_profile d' !! i = Some r' ∧
          pp_run r' = pp_run r ∧ pp_uuid r' = pp_uuid r ∧
          pp_last_seen r' = pp_last_seen r ∧
          (pp_uuid r ∉ cr_uuid <$> rows → r' = r).
Proof.
  intros d'. unfold d'.
  destruct (resolver_main_cases lock run_id http hs hc now rows d) as [->|[rid ->]].
  - split; [by destruct d|]. split; [done|]. intros i r Hi. by exists r.
  - split; [by destruct d|]. simpl. split; [by rewrite length_map|].
    intros i r Hi.
    exists (row_after http hs hc now rid (uuid_bin <$> Resolver.fetch_candidates hs hc rows) r).
    split; [by rewrite list_lookup_fmap_Some; exists r|].
    destruct (row_after_key http hs hc now rid
                (uuid_bin <$> Resolver.fetch_candidates hs hc rows) r) as (-> & -> & ->).
    repeat split. intros Hn. unfold row_after.
    rewrite decide_False; [done|]. intros [_ Hin]. apply Hn.
    by apply (fetch_candidates_ids hs hc rows).
Qed.

(** A failed lookup costs a player nothing: the candidate's row keeps
    its name, lower-case name and name_source; only name_checked_at is
    set to the server's NOW(), and only where that column exists. *)
Theorem resolver_failed_lookup_keeps_name run_id http hs hc now rows d rid i r :
  (if 0 <? run_id then Some run_id else Resolver.get_active_run_id d) = Some rid →
  player_profile d !! i = Some r →
  pp_run r = rid →
  pp_uuid r ∈ uuid_bin <$> Resolver.fetch_candidates hs hc rows →
  Resolver.mojang_name_for_uuid http (Py.hex (pp_uuid r)) = None →
  ∃ r', player_profile (r_final_db (Resolver.main true run_id http hs hc now rows d)) !! i
        = Some r' ∧
        pp_name r' = pp_name r ∧ pp_name_lc r' = pp_name_lc r ∧
        pp_name_source r' = pp_name_source r ∧
        pp_name_checked_at r' = if hc then Some now else pp_name_checked_at r.
Proof.
  intros Hrid Hi Hr Hc Hm.
  rewrite (resolver_main_rows true run_id http hs hc now rows d rid eq_refl Hrid). simpl.
  exists (row_after http hs hc now rid (uuid_bin <$> Resolver.fetch_candidates hs hc rows) r).
  split; [by rewrite list_lookup_fmap_Some; exists r|].
  unfold row_after. rewrite decide_True by done. rewrite Hm. by destruct hc.
Qed.

(** A resolved candidate gets the name Mojang gives, which is not empty
    and at most 16 characters long, and that name in lower case;
    name_source becomes 'mojang' where the column exists, and
    name_checked_at the server's NOW() where both columns exist. *)
Theorem resolver_resolved_row run_id http hs hc now rows d rid i r nm :
  (if 0 <? run_id then Some run_id else Resolver.get_active_run_id d) = Some rid →
  player_profile d !! i = Some r →
  pp_run r = rid →
  pp_uuid r ∈ uuid_bin <$> Resolver.fetch_candidates hs hc rows →
  Resolver.mojang_name_for_uuid http (Py.hex (pp_uuid r)) = Some nm →
  nm ≠ EmptyString ∧ (String.length nm ≤ 16)%nat ∧
  ∃ r', player_profile (r_final_db (Resolver.main true run_id http hs hc now rows d)) !! i
        = Some r' ∧
        pp_name r' = nm ∧ pp_name_lc r' = Py.lower nm ∧
        pp_name_source r' = (if hs then Some "mojang"%string else pp_name_source r) ∧
        pp_name_checked_at r' = if hs && hc then Some now else pp_name_checked_at r.
Proof.
  intros Hrid Hi Hr Hc Hm.
  destruct (mojang_name_width _ _ _ Hm) as [Hne Hlen]. split; [done|]. split; [done|].
  rewrite (resolver_main_rows true run_id http hs hc now rows d rid eq_refl Hrid). simpl.
  exists (row_after http hs hc now rid (uuid_bin <$> Resolver.fetch_candidates hs hc rows) r).
  split; [by rewrite list_lookup_fmap_Some; exists r|].
  unfold row_after. rewrite decide_True by done. by rewrite Hm.
Qed.

Lemma ok_fail_lengths http rid cands :
  (length (omap (ok_of http rid) cands) + length (omap (fail_of http rid) cands)
   = length cands)%nat.
Proof.
  induction cands as [|c cs IH]; [done|]. csimpl. unfold ok_of at 1, fail_of at 1.
  destruct (Resolver.mojang_name_for_uuid _ _); simpl; lia.
Qed.

Lemma fetch_candidates_length hs hc rows :
  length (Resolver.fetch_candidates hs hc rows)
  = length (filter (fun r => String.length (cr_uuid r) = 16%nat) rows).
Proof.
  unfold Resolver.fetch_candidates. induction rows as [|r rows IH]; [done|].
  csimpl. rewrite filter_cons.
  destruct (String.length (cr_uuid r) =? 16)%nat eqn:E.
  - apply Nat.eqb_eq in E. rewrite decide_True by done. simpl. by rewrite IH.
  - apply Nat.eqb_neq in E. by rewrite decide_False.
Qed.

(** With the lock held and a run id at hand the resolver returns 0 and
    its counts add up: the candidates are the query's rows with a
    16-byte uuid, and each is counted as resolved or as failed. *)
Theorem resolver_counts run_id http hs hc now rows d rid :
  (if 0 <? run_id then Some run_id else Resolver.get_active_run_id d) = Some rid →
  let o := Resolver.main true run_id http hs hc now rows d in
  r_exit_code o = 0 ∧
  r_total o
  = Z.of_nat (length (filter (fun r => String.length (cr_uuid r) = 16%nat) rows)) ∧
  0 ≤ r_resolved o ∧ 0 ≤ r_failed o ∧
  r_total o = r_resolved o + r_failed o.
Proof.
  intros Hrid o. unfold o.
  rewrite (resolver_main_rows true run_id http hs hc now rows d rid eq_refl Hrid). simpl.
  split; [done|]. split; [by rewrite fetch_candidates_length|].
  pose proof (ok_fail_lengths http rid (Resolver.fetch_candidates hs hc rows)). lia.
Qed.

(** One candidate row, for the player the store knows as [row_named]. *)
Definition rows_one : list cand_row :=
  [{| cr_uuid := id_a; cr_name := Some "Steve"%string;
      cr_source := Some "mojang"%string; cr_checked := None |}].

(** A network that answers nothing, and one whose session server knows
    the player under a new name. *)
Definition http_down (url : string) : option json := None.

Definition http_renamed (url : string) : option json :=
  Some (JDict [("id", JStr "30313233343536373839616263646566"); ("name", JStr "Alex")]).

Lemma resolver_failed_lookup_keeps_name_witness :
  ∃ r', player_profile
          (r_final_db (Resolver.main true 0 http_down true true "2024-01-02 00:00:00"
                         rows_one db_named)) !! 0%nat = Some r' ∧
        pp_name r' = pp_name row_named ∧ pp_name_lc r' = pp_name_lc row_named ∧
        pp_name_source r' = pp_name_source row_named ∧
        pp_name_checked_at r'
        = if true then Some "2024-01-02 00:00:00"%string else pp_name_checked_at row_named.
Proof.
  apply (resolver_failed_lookup_keeps_name 0 http_down true true "2024-01-02 00:00:00"
           rows_one db_named 1 0%nat row_named); try reflexivity.
  apply list_elem_of_singleton. reflexivity.
Defined.

Lemma resolver_resolved_row_witness :
  "Alex"%string ≠ EmptyString ∧ (String.length "Alex" ≤ 16)%nat ∧
  ∃ r', player_profile
          (r_final_db (Resolver.main true 0 http_renamed true true "2024-01-02 00:00:00"
                         rows_one db_named)) !! 0%nat = Some r' ∧
        pp_name r' = "Alex"%string ∧ pp_name_lc r' = Py.lower "Alex" ∧
        pp_name_source r' = (if true then Some "mojang"%string else pp_name_source row_named) ∧
        pp_name_checked_at r'
        = if true && true then Some "2024-01-02 00:00:00"%string
          else pp_name_checked_at row_named.
Proof.
  apply (resolver_resolved_row 0 http_renamed true true "2024-01-02 00:00:00"
           rows_one db_named 1 0%nat row_named "Alex"); try reflexivity.
  apply list_elem_of_singleton. reflexivity.
Defined.

Lemma resolver_counts_witness :
  let o := Resolver.main true 0 http_renamed true true "2024-01-02 00:00:00"
             rows_one db_named in
  r_exit_code o = 0 ∧
  r_total o
  = Z.of_nat (length (filter (fun r => String.length (cr_uuid r) = 16%nat) rows_one)) ∧
  0 ≤ r_resolved o ∧ 0 ≤ r_failed o ∧
  r_total o = r_resolved o + r_failed o.
Proof.
  apply (resolver_counts 0 http_renamed true true "2024-01-02 00:00:00" rows_one db_named 1).
  reflexivity.
Defined.
